(** * Dream Booster: the application-session orchestrator

    A shallow embedding of the job manager
    ([src/dream_booster_job_manager.py]), of the easy applier
    ([src/dream_booster_easy_applier.py]) and of the [Job] record
    ([src/job.py]), with the properties of the eligibility filter, of the
    outcome logs, of the retry loop and of the form fillers.

    Conventions of the embedding.
    - Python strings are [string]s of 8-bit characters.  [lower], [strip]
      and [isspace] follow [str.lower], [str.strip] and [str.isspace] on the
      ASCII range; characters above 127 are left alone and are not
      whitespace, so the model is exact on ASCII text ([isascii]) and on
      ASCII text only: Python also maps the cased letters outside ASCII
      and strips the whitespace outside ASCII.  Two strings that match in
      the model match in Python; a statement that rests on two strings not
      matching carries [isascii] hypotheses.
    - The match score of the keyword check is an exact rational; Python
      computes it in double precision.  The two agree when the score is 0
      or 1 and when the threshold is at most 0 or above 1.
    - A Python exception is a value of [exn]; a call that may raise returns
      an [outcome].
    - The browser, the clock, the random generator and the external answerer
      are one abstract state [B] with the operations of [driver]; every
      operation of the code on them is a state transformer on [B].
    - The three outcome files live in a finite map from file names to
      documents; a missing key is a file that does not exist.  A document
      is what the session itself writes, an array of records, or text that
      does not decode; a file that holds any other JSON value, on which
      [existing_data.append] raises [AttributeError], is outside the
      model. *)

From Stdlib Require Import String Ascii List Bool Arith Lia QArith.
From stdpp Require Import gmap strings.
Import ListNotations.

Local Open Scope string_scope.
Local Open Scope nat_scope.

Set Default Proof Using "Type*".

(** ** Python strings *)

Module Py.

Definition is_upper (c : ascii) : bool :=
  let n := nat_of_ascii c in (65 <=? n) && (n <=? 90).

Definition lower_char (c : ascii) : ascii :=
  if is_upper c then ascii_of_nat (nat_of_ascii c + 32) else c.

(** [str.lower()] on ASCII text: the letters A to Z are mapped, every
    other character is kept. *)
Fixpoint lower (s : string) : string :=
  match s with
  | EmptyString => EmptyString
  | String c s' => String (lower_char c) (lower s')
  end.

(** [str.isascii()] *)
Fixpoint isascii (s : string) : bool :=
  match s with
  | EmptyString => true
  | String c s' => (nat_of_ascii c <? 128) && isascii s'
  end.

(** [str.isspace()] on one character: TAB, LF, VT, FF, CR, FS, GS, RS, US
    and the space. *)
Definition isspace (c : ascii) : bool :=
  let n := nat_of_ascii c in
  ((9 <=? n) && (n <=? 13)) || ((28 <=? n) && (n <=? 32)).

Fixpoint lstrip (s : string) : string :=
  match s with
  | EmptyString => EmptyString
  | String c s' => if isspace c then lstrip s' else s
  end.

Fixpoint rstrip (s : string) : string :=
  match s with
  | EmptyString => EmptyString
  | String c s' =>
      match rstrip s' with
      | EmptyString => if isspace c then EmptyString else String c EmptyString
      | r => String c r
      end
  end.

(** [str.strip()] on ASCII text: the whitespace removed is that of
    [isspace]. *)
Definition strip (s : string) : string := rstrip (lstrip s).

(** [str.split(sep)] for a one-character separator: every occurrence
    splits, so adjacent separators give empty words and the empty string
    gives one empty word. *)
Fixpoint split (sep : ascii) (s : string) : list string :=
  match s with
  | EmptyString => [EmptyString]
  | String c s' =>
      if Ascii.eqb c sep then EmptyString :: split sep s'
      else match split sep s' with
           | w :: ws => String c w :: ws
           | [] => [String c EmptyString]
           end
  end.

(** [needle in hay] on strings: substring test. *)
Fixpoint contains (needle hay : string) : bool :=
  String.prefix needle hay
  || match hay with
     | EmptyString => false
     | String _ hay' => contains needle hay'
     end.

(** [x in xs] on a list of strings. *)
Definition mem (x : string) (xs : list string) : bool :=
  existsb (String.eqb x) xs.

(** [any(...)] and [sum(...)] over booleans. *)
Definition any {A} (f : A -> bool) (xs : list A) : bool := existsb f xs.

Definition sum_bool {A} (f : A -> bool) (xs : list A) : nat :=
  List.length (List.filter f xs).

End Py.

(** ** Exceptions and results *)

Inductive exn : Type :=
| ZeroDivisionError
| ValueError (field : string)
| AttributeError (attr : string)
| PremiumRedirectError (max_attempts : nat)
| ApplyFailed (cause : exn)
| ExternalError (what : string).

Inductive outcome (A : Type) : Type :=
| Ok (a : A)
| Raised (e : exn).

Arguments Ok {A} a.
Arguments Raised {A} e.

Definition is_ok {A} (o : outcome A) : bool :=
  match o with Ok _ => true | Raised _ => false end.

(** ** A state and exception monad

    [M S A] is a computation on a state [S] that returns an [A] or raises.
    The state reached when an exception is raised is kept: Python does not
    roll back what was done before the [raise]. *)

Definition M (S A : Type) : Type := S -> outcome A * S.

Definition ret {S A} (a : A) : M S A := fun s => (Ok a, s).

Definition raise {S A} (e : exn) : M S A := fun s => (Raised e, s).

Definition bind {S A C} (m : M S A) (k : A -> M S C) : M S C :=
  fun s =>
    match m s with
    | (Ok a, s') => k a s'
    | (Raised e, s') => (Raised e, s')
    end.

(** [try: m except Exception as e: h e] *)
Definition try_except {S A} (m : M S A) (h : exn -> M S A) : M S A :=
  fun s =>
    match m s with
    | (Ok a, s') => (Ok a, s')
    | (Raised e, s') => h e s'
    end.

Definition modify {S} (f : S -> S) : M S unit := fun s => (Ok tt, f s).

Definition gets {S A} (f : S -> A) : M S A := fun s => (Ok (f s), s).

Declare Scope py_scope.
Delimit Scope py_scope with py.

Notation "x <- m ;; k" := (bind m (fun x => k))
  (at level 100, m at next level, right associativity) : py_scope.
Notation "m ;;; k" := (bind m (fun _ => k))
  (at level 100, right associativity) : py_scope.

(** [for x in xs: body x], stopping at the first exception. *)
Fixpoint for_each {S A} (xs : list A) (body : A -> M S unit) : M S unit :=
  match xs with
  | [] => ret tt
  | x :: xs' => bind (body x) (fun _ => for_each xs' body)
  end.

(** ** The Job record ([src/job.py]) *)

Record Job : Type := mkJob {
  title : string;
  company : string;
  location : string;
  link : string;
  apply_method : string;
  description : string;
  summarize_job_description : string;
  pdf_path : string;
  recruiter_link : string
}.

(** What [extract_job_information_from_tile] returns for one tile, in the
    order of its tuple. *)
Record tile : Type := mkTile {
  tile_title : string;
  tile_company : string;
  tile_location : string;
  tile_link : string;
  tile_apply_method : string
}.

Definition pytruthy (s : string) : bool :=
  match s with EmptyString => false | _ => true end.

(** [Job._validate_non_empty_fields]: the first empty required field, in
    the order of [required_fields], raises [ValueError]. *)
Definition _validate_non_empty_fields (j : Job) : outcome unit :=
  if negb (pytruthy (title j)) then Raised (ValueError "title")
  else if negb (pytruthy (company j)) then Raised (ValueError "company")
  else if negb (pytruthy (location j)) then Raised (ValueError "location")
  else if negb (pytruthy (link j)) then Raised (ValueError "link")
  else if negb (pytruthy (apply_method j)) then Raised (ValueError "apply_method")
  else Ok tt.

(** [Job] built from the unpacked tuple: the dataclass constructor followed
    by [__post_init__]. *)
Definition Job_init (t : tile) : outcome Job :=
  let j := mkJob (tile_title t) (tile_company t) (tile_location t)
                 (tile_link t) (tile_apply_method t) "" "" "" "" in
  match _validate_non_empty_fields j with
  | Ok _ => Ok j
  | Raised e => Raised e
  end.

Definition set_job_description (d : string) (j : Job) : Job :=
  mkJob (title j) (company j) (location j) (link j) (apply_method j)
        d (summarize_job_description j) (pdf_path j) (recruiter_link j).

Definition set_recruiter_link (r : string) (j : Job) : Job :=
  mkJob (title j) (company j) (location j) (link j) (apply_method j)
        (description j) (summarize_job_description j) (pdf_path j) r.

(** ** Outcome records and the output directory *)

Record outcome_record : Type := mkRecord {
  rec_company : string;
  rec_job_title : string;
  rec_link : string;
  rec_job_recruiter : string;
  rec_job_location : string;
  rec_pdf_path : string
}.

(** The content of a file of the output directory as [json.load] sees it:
    text that does not decode, or an array of outcome records.  A file
    that holds another JSON value (an object, a string, a number) is not
    modelled: [write_to_file] raises [AttributeError] on it at
    [existing_data.append], and the company check fails on its entries. *)
Inductive json_doc : Type :=
| Undecodable
| Records (rs : list outcome_record).

(** [existing_data] after the [try: json.load ... except JSONDecodeError]. *)
Definition load_records (d : json_doc) : list outcome_record :=
  match d with
  | Undecodable => []
  | Records rs => rs
  end.

(** The records a file name holds; none when the file does not exist. *)
Definition records_in (fs : gmap string json_doc) (name : string)
  : list outcome_record :=
  match fs !! name with
  | Some d => load_records d
  | None => []
  end.

(** ** Question/answer entries ([answers.json]) *)

Record qa_entry : Type := mkQA {
  question : string;
  answer : string
}.

(** ** The easy applier object and the job manager object *)

Record DreamBoosterEasyApplier : Type := mkApplier {
  all_data : list qa_entry;
  max_retries : nat
}.

Record DreamBoosterJobManager : Type := mkManager {
  company_blacklist : list string;
  title_blacklist : list string;
  positions : list string;
  locations : list string;
  apply_once_at_company : bool;
  seen_jobs : list string;
  match_threshold : Q;
  keywords : list string;
  easy_applier_component : option DreamBoosterEasyApplier
}.

(** The [parameters] dictionary of [set_parameters]: an absent key is
    [None]. *)
Record job_matching_algorithm_cfg : Type := mkJMA {
  cfg_match_threshold : option Q;
  cfg_keywords : option (list string)
}.

Record parameters : Type := mkParameters {
  p_company_blacklist : option (list string);
  p_title_blacklist : option (list string);
  p_positions : option (list string);
  p_locations : option (list string);
  p_apply_once_at_company : option bool;
  p_job_matching_algorithm : option job_matching_algorithm_cfg
}.

(** ** Observable effects

    The trace of a run: the entries into [_execute_job_apply], the
    navigations, the sleeps with the bounds of their duration, the calls of
    the external answerer, the selections in a dropdown and the writes to
    the outcome files, in the order in which they happen. *)

Inductive event : Type :=
| EvExecuteJobApply (job_link : string)
| EvGet (url : string)
| EvSleep (lo hi : Q)
| EvAnswerQuestion (q : string)
| EvSelectByVisibleText (text : string)
| EvWrite (file_name : string) (r : outcome_record).

(** ** The outside world

    The browser session, the page it shows, the clock, the random generator
    and the external answerer are one state [B].  The methods of the applier
    that only query the page ([_find_easy_apply_button],
    [_get_job_description], [_get_job_recruiter], [_click_button],
    [_fill_application_form], [_discard_application]) are operations of this
    interface: each returns or raises, and may change [B] at will.
    [_get_job_recruiter] and [_discard_application] catch every exception
    themselves, so they cannot raise. *)

Class driver (B : Type) : Type := mkDriver {
  (** [driver.current_url] *)
  drv_current_url : B -> string;
  (** [driver.get(url)] *)
  drv_get : string -> B -> outcome unit * B;
  (** [time.sleep(random.uniform(lo, hi))]; [time.sleep(d)] is [lo = hi = d] *)
  drv_sleep : Q -> Q -> B -> B;
  (** [driver.execute_script("document.activeElement.blur();")] *)
  drv_blur : B -> outcome unit * B;
  dom_find_easy_apply_button : Job -> B -> outcome nat * B;
  dom_get_job_description : B -> outcome string * B;
  dom_get_job_recruiter : B -> string * B;
  dom_click_button : nat -> B -> outcome unit * B;
  dom_fill_application_form : Job -> B -> outcome unit * B;
  dom_discard_application : B -> B;
  (** [Select.select_by_visible_text(text)] *)
  dom_select_by_visible_text : string -> B -> outcome unit * B;
  (** [gpt_answerer.set_job(job)] and [gpt_answerer.answer_question(q)] *)
  gpt_set_job : Job -> B -> outcome unit * B;
  gpt_answer_question : string -> B -> outcome string * B;
  (** [random.choice(seq)] is [seq[_randbelow(len(seq))]] *)
  rng_randbelow : nat -> B -> nat * B;
  rng_randbelow_lt : forall n b, 0 < n -> fst (rng_randbelow n b) < n;
  (** [Path(p).resolve().as_uri()] *)
  path_as_uri : string -> string
}.

Record world (B : Type) : Type := mkWorld {
  w_self : DreamBoosterJobManager;
  w_files : gmap string json_doc;
  w_browser : B;
  w_trace : list event
}.

Arguments mkWorld {B} _ _ _ _.
Arguments w_self {B} _.
Arguments w_files {B} _.
Arguments w_browser {B} _.
Arguments w_trace {B} _.

Section Model.

Context {B : Type} `{driver B}.

Local Open Scope py_scope.

Definition set_self (f : DreamBoosterJobManager -> DreamBoosterJobManager)
  : M (world B) unit :=
  modify (fun w => mkWorld (f (w_self w)) (w_files w) (w_browser w) (w_trace w)).

Definition emit (e : event) : M (world B) unit :=
  modify (fun w => mkWorld (w_self w) (w_files w) (w_browser w) (w_trace w ++ [e])).

(** An operation of the interface that may raise. *)
Definition call {A} (op : B -> outcome A * B) : M (world B) A :=
  fun w =>
    let (r, b) := op (w_browser w) in
    (r, mkWorld (w_self w) (w_files w) b (w_trace w)).

(** An operation of the interface that cannot raise. *)
Definition call_total {A} (op : B -> A * B) : M (world B) A :=
  fun w =>
    let (a, b) := op (w_browser w) in
    (Ok a, mkWorld (w_self w) (w_files w) b (w_trace w)).

Definition driver_get (url : string) : M (world B) unit :=
  emit (EvGet url);;; call (drv_get url).

Definition sleep_uniform (lo hi : Q) : M (world B) unit :=
  emit (EvSleep lo hi);;; call_total (fun b => (tt, drv_sleep lo hi b)).

Definition current_url : M (world B) string :=
  gets (fun w => drv_current_url (w_browser w)).

(** *** [DreamBoosterJobManager] *)

Definition or_default {A} (o : option A) (d : A) : A :=
  match o with Some a => a | None => d end.

(** [set_parameters]: the fields the session logic reads, on a dictionary
    that has its required key [outputFileDirectory].  [seen_jobs] is bound
    to a fresh empty list; [easy_applier_component] is left as it is. *)
Definition set_parameters (p : parameters) : M (world B) unit :=
  set_self (fun self =>
    let jma := or_default (p_job_matching_algorithm p) (mkJMA None None) in
    mkManager
      (or_default (p_company_blacklist p) [])
      (or_default (p_title_blacklist p) [])
      (or_default (p_positions p) [])
      (or_default (p_locations p) [])
      (or_default (p_apply_once_at_company p) false)
      []
      (or_default (cfg_match_threshold jma) (3 # 4)%Q)
      (or_default (cfg_keywords jma) [])
      (easy_applier_component self)).

Definition record_of (job : Job) : outcome_record :=
  mkRecord (company job) (title job) (link job) (recruiter_link job)
           (location job) (path_as_uri (pdf_path job)).

(** [write_to_file]: a new file holds the one record; an existing file is
    read (as no record when it does not decode), extended and rewritten. *)
Definition write_to_file (job : Job) (file_name : string) : M (world B) unit :=
  fun w =>
    let data := record_of job in
    let file_path := file_name ++ ".json" in
    let fs :=
      match w_files w !! file_path with
      | None => <[file_path := Records [data]]> (w_files w)
      | Some d => <[file_path := Records (load_records d ++ [data])]> (w_files w)
      end in
    (Ok tt, mkWorld (w_self w) fs (w_browser w)
                    (w_trace w ++ [EvWrite file_name data])).

Definition title_blacklisted (self : DreamBoosterJobManager) (job_title : string)
  : bool :=
  let job_title_words := Py.split " " (Py.lower job_title) in
  Py.any (fun word => Py.mem word job_title_words) (title_blacklist self).

Definition company_blacklisted (self : DreamBoosterJobManager) (company : string)
  : bool :=
  Py.mem (Py.lower (Py.strip company))
         (map (fun word => Py.lower (Py.strip word)) (company_blacklist self)).

Definition is_blacklisted (self : DreamBoosterJobManager)
           (job_title company link : string) : bool :=
  let link_seen := Py.mem link (seen_jobs self) in
  title_blacklisted self job_title || company_blacklisted self company || link_seen.

Definition is_already_applied_to_job (self : DreamBoosterJobManager)
           (job_title company link : string) : bool :=
  let link_seen := Py.mem link (seen_jobs self) in
  link_seen.

(** The test of [is_already_applied_to_company] on one record. *)
Definition same_company (company : string) (r : outcome_record) : bool :=
  String.eqb (Py.lower (Py.strip (rec_company r))) (Py.lower (Py.strip company)).

Definition is_already_applied_to_company (self : DreamBoosterJobManager)
           (fs : gmap string json_doc) (company : string) : bool :=
  if negb (apply_once_at_company self) then false
  else
    existsb
      (fun file_name =>
         match fs !! file_name with
         | Some d => Py.any (same_company company) (load_records d)
         | None => false
         end)
      ["success.json"].

Definition keyword_hit (job : Job) (keyword : string) : bool :=
  Py.contains (Py.lower keyword) (Py.lower (title job))
  || Py.contains (Py.lower keyword) (Py.lower (description job)).

(** [matches_job_criteria]: the sum is divided by [len(self.keywords)]
    with Python's true division, which raises on a zero divisor.  The
    quotient and the threshold are compared as exact rationals; Python
    rounds the quotient to a double first. *)
Definition matches_job_criteria (self : DreamBoosterJobManager) (job : Job)
  : outcome bool :=
  let hits := Py.sum_bool (keyword_hit job) (keywords self) in
  match List.length (keywords self) with
  | O => Raised ZeroDivisionError
  | S n =>
      let match_score := (Z.of_nat hits # Pos.of_succ_nat n)%Q in
      Ok (Qle_bool (match_threshold self) match_score)
  end.

Definition lift_outcome {S A} (o : outcome A) : M S A := fun s => (o, s).

Definition is_job_suitable (job : Job) : M (world B) bool :=
  self <- gets w_self;;
  if is_blacklisted self (title job) (company job) (link job) then
    write_to_file job "skipped";;; ret false
  else if is_already_applied_to_job self (title job) (company job) (link job) then
    write_to_file job "skipped";;; ret false
  else
    fs <- gets w_files;;
    if is_already_applied_to_company self fs (company job) then
      write_to_file job "skipped";;; ret false
    else
      matches <- lift_outcome (matches_job_criteria self job);;
      if negb matches then
        write_to_file job "skipped";;; ret false
      else ret true.

End Model.

(** ** [DreamBoosterEasyApplier] *)

Section Applier.

Context {B : Type} `{driver B}.

Local Open Scope py_scope.

Definition premium_pattern : string := "linkedin.com/premium".

(** The [while] loop of [check_for_premium_redirect], on the number of
    attempts still allowed ([max_attempts - attempts]); it returns the
    last [current_url] read. *)
Fixpoint premium_redirect_loop (job_link : string) (remaining : nat)
         (url : string) : M (world B) string :=
  if Py.contains premium_pattern url then
    match remaining with
    | O => ret url
    | S remaining' =>
        driver_get job_link;;;
        sleep_uniform 2 2;;;
        url' <- current_url;;
        premium_redirect_loop job_link remaining' url'
    end
  else ret url.

Definition check_for_premium_redirect (job : Job) (max_attempts : nat)
  : M (world B) unit :=
  url <- current_url;;
  url' <- premium_redirect_loop (link job) max_attempts url;;
  if Py.contains premium_pattern url' then
    raise (PremiumRedirectError max_attempts)
  else ret tt.

(** The applier's methods work on one job object, which they update in
    place: their state is the job together with the world. *)
Definition liftW {A} (m : M (world B) A) : M (Job * world B) A :=
  fun s =>
    let (r, w) := m (snd s) in (r, (fst s, w)).

Definition the_job : M (Job * world B) Job := gets fst.

Definition update_job (f : Job -> Job) : M (Job * world B) unit :=
  modify (fun s => (f (fst s), snd s)).

(** Runs a computation of the applier on [job]; the updated job object is
    returned with the result, also when the computation raises. *)
Definition on_job {A} (job : Job) (m : M (Job * world B) A)
  : world B -> (outcome A * Job) * world B :=
  fun w =>
    let (r, s) := m (job, w) in ((r, fst s), snd s).

Definition _execute_job_apply : M (Job * world B) unit :=
  job <- the_job;;
  liftW (emit (EvExecuteJobApply (link job)));;;
  try_except (liftW (driver_get (link job))) (fun e => raise e);;;
  liftW (sleep_uniform 3 5);;;
  liftW (check_for_premium_redirect job 3);;;
  try_except
    (liftW (call drv_blur);;;
     liftW (check_for_premium_redirect job 3);;;
     easy_apply_button <- liftW (call (dom_find_easy_apply_button job));;
     liftW (check_for_premium_redirect job 3);;;
     job_description <- liftW (call dom_get_job_description);;
     update_job (set_job_description job_description);;;
     recruiter <- liftW (call_total dom_get_job_recruiter);;
     update_job (set_recruiter_link recruiter);;;
     liftW (call (dom_click_button easy_apply_button));;;
     job1 <- the_job;;
     liftW (call (gpt_set_job job1));;;
     liftW (call (dom_fill_application_form job1)))
    (fun e =>
       liftW (call_total (fun b => (tt, dom_discard_application b)));;;
       raise (ApplyFailed e)).

(** The [for attempt in range(self.max_retries)] loop of [job_apply], on
    the attempts still to run. *)
Fixpoint job_apply_loop (self : DreamBoosterEasyApplier) (attempts : list nat)
  : M (Job * world B) unit :=
  match attempts with
  | [] => ret tt
  | attempt :: rest =>
      try_except _execute_job_apply
        (fun e =>
           if attempt =? max_retries self - 1 then raise e
           else liftW (sleep_uniform 2 5);;; job_apply_loop self rest)
  end.

Definition job_apply (self : DreamBoosterEasyApplier) : M (Job * world B) unit :=
  job_apply_loop self (seq 0 (max_retries self)).

(** [DreamBoosterEasyApplier.__init__] on the questions loaded from
    [answers.json]. *)
Definition DreamBoosterEasyApplier_init (loaded : list qa_entry)
  : DreamBoosterEasyApplier :=
  mkApplier loaded 3.

(** [_handle_dropdown_fields] on the texts of the [select]'s options. *)
Definition _handle_dropdown_fields (options : list string) : M (world B) unit :=
  if 1 <? List.length options then
    let candidates := tl options in
    k <- call_total (rng_randbelow (List.length candidates));;
    let selected_option := nth k candidates EmptyString in
    emit (EvSelectByVisibleText selected_option);;;
    call (dom_select_by_visible_text selected_option)
  else ret tt.

(** The [for item in self.all_data] loop of [_get_answer_for_question]:
    the answer of the first entry whose question matches. *)
Fixpoint lookup_answer (data : list qa_entry) (q : string) : option string :=
  match data with
  | [] => None
  | item :: rest =>
      if String.eqb (Py.lower (question item)) (Py.lower q)
      then Some (answer item)
      else lookup_answer rest q
  end.

Definition _get_answer_for_question (self : DreamBoosterEasyApplier)
           (q : string) : M (world B) string :=
  match lookup_answer (all_data self) q with
  | Some a => ret a
  | None => emit (EvAnswerQuestion q);;; call (gpt_answer_question q)
  end.

(** *** The apply loop of the job manager *)

Definition applied_labels : list string := ["Continue"; "Applied"; "Apply"].

(** [self.easy_applier_component.job_apply(job)]: the attribute is [None]
    until [start_applying] binds it. *)
Definition component_job_apply : M (Job * world B) unit :=
  c <- liftW (gets (fun w => easy_applier_component (w_self w)));;
  match c with
  | Some applier => job_apply applier
  | None => raise (AttributeError "job_apply")
  end.

Definition write_the_job (file_name : string) : M (Job * world B) unit :=
  job <- the_job;; liftW (write_to_file job file_name).

(** The body of the [for job in job_list] loop of [apply_jobs]. *)
Definition apply_jobs_body (job : Job) : M (world B) unit :=
  suitable <- is_job_suitable job;;
  if negb suitable then ret tt
  else
    fun w =>
      let (r, s) :=
        try_except
          (if negb (Py.mem (apply_method job) applied_labels) then
             component_job_apply;;;
             write_the_job "success"
           else ret tt)
          (fun e => write_the_job "failed")
          (job, w) in
      (r, snd s).

Fixpoint build_jobs (tiles : list tile) : outcome (list Job) :=
  match tiles with
  | [] => Ok []
  | t :: rest =>
      match Job_init t with
      | Raised e => Raised e
      | Ok j =>
          match build_jobs rest with
          | Raised e => Raised e
          | Ok js => Ok (j :: js)
          end
      end
  end.

Definition apply_jobs (job_list_elements : list tile) : M (world B) unit :=
  job_list <- lift_outcome (build_jobs job_list_elements);;
  for_each job_list apply_jobs_body.

(** [start_applying], once the answerer and the resume generator are set
    and [answers.json] is loaded: it binds the applier component, then
    reads [self.max_pages], an attribute no method of the class binds. *)
Definition start_applying (loaded : list qa_entry) : M (world B) unit :=
  set_self (fun self =>
    mkManager (company_blacklist self) (title_blacklist self)
              (positions self) (locations self)
              (apply_once_at_company self) (seen_jobs self)
              (match_threshold self) (keywords self)
              (Some (DreamBoosterEasyApplier_init loaded)));;;
  raise (AttributeError "max_pages").

End Applier.

(** ** Vocabulary of the properties *)

(** A computation respects a relation between the state it starts in and
    the state it ends in, whether it returns or raises. *)
Definition respects {S A} (R : S -> S -> Prop) (m : M S A) : Prop :=
  forall s, R s (snd (m s)).

(** The trace only grows, by events that satisfy [P]. *)
Definition extends_trace {B} (P : event -> Prop) (w w' : world B) : Prop :=
  exists t, w_trace w' = (w_trace w ++ t)%list /\ Forall P t.

(** The manager object and the output directory are untouched. *)
Definition quiet {B} (P : event -> Prop) (w w' : world B) : Prop :=
  w_self w' = w_self w /\ w_files w' = w_files w /\ extends_trace P w w'.

(** The fields of a job that an application never rebinds. *)
Definition same_listing (j j' : Job) : Prop :=
  title j' = title j /\ company j' = company j /\ location j' = location j
  /\ link j' = link j /\ apply_method j' = apply_method j
  /\ pdf_path j' = pdf_path j.

Definition quiet_on_job {B} (P : event -> Prop) (s s' : Job * world B) : Prop :=
  same_listing (fst s) (fst s') /\ quiet P (snd s) (snd s').

(** The manager's [seen_jobs] is the same list before and after. *)
Definition keeps_seen_jobs {B} (w w' : world B) : Prop :=
  seen_jobs (w_self w') = seen_jobs (w_self w).

(** Appending one record to an outcome file. *)
Definition append_record (fs : gmap string json_doc) (file_name : string)
           (r : outcome_record) : gmap string json_doc :=
  <[file_name ++ ".json" := Records (records_in fs (file_name ++ ".json") ++ [r])]> fs.

(** The world after [write_to_file job file_name]. *)
Definition written {B} `{driver B} (w : world B) (job : Job) (file_name : string)
  : world B :=
  mkWorld (w_self w) (append_record (w_files w) file_name (record_of job))
          (w_browser w) (w_trace w ++ [EvWrite file_name (record_of job)]).

(** An outcome record of the listing [job]: the record of the job object
    as an application may have updated it. *)
Definition record_for {B} `{driver B} (job : Job) (r : outcome_record) : Prop :=
  exists job', same_listing job job' /\ r = record_of job'.

(** Counting in a trace: entries into [_execute_job_apply], the back-off
    sleeps of [job_apply], navigations, calls of the answerer, writes. *)
Definition is_attempt (e : event) : bool :=
  match e with EvExecuteJobApply _ => true | _ => false end.

Definition is_backoff (e : event) : bool :=
  match e with
  | EvSleep lo hi => Qeq_bool lo 2 && Qeq_bool hi 5
  | _ => false
  end.

Definition is_get (e : event) : bool :=
  match e with EvGet _ => true | _ => false end.

Definition is_write (e : event) : bool :=
  match e with EvWrite _ _ => true | _ => false end.

Definition count (p : event -> bool) (t : list event) : nat :=
  List.length (List.filter p t).

(** Events of one attempt after its entry: neither a new attempt, nor a
    back-off sleep, nor a write. *)
Definition inside_attempt (e : event) : Prop :=
  is_attempt e = false /\ is_backoff e = false /\ is_write e = false.

(** Events of the premium-redirect check: navigations to [job_link] and the
    fixed two-second sleeps. *)
Definition premium_event (job_link : string) (e : event) : Prop :=
  e = EvGet job_link \/ e = EvSleep 2 2.

(** The state after the back-off sleep of [job_apply]. *)
Definition backoff {B} `{driver B} (s : Job * world B) : Job * world B :=
  snd (liftW (sleep_uniform 2 5) s).

(** The retry policy in the words of the specification: the whole apply
    sequence is attempted at most three times, with a back-off sleep between
    two attempts; the first attempt that succeeds ends the call, and the
    exception of the third failure is raised. *)
Definition spec_three_attempts {B} `{driver B} (s0 : Job * world B)
  : outcome unit * (Job * world B) :=
  match _execute_job_apply s0 with
  | (Ok _, s1) => (Ok tt, s1)
  | (Raised _, s1) =>
      match _execute_job_apply (backoff s1) with
      | (Ok _, s2) => (Ok tt, s2)
      | (Raised _, s2) =>
          match _execute_job_apply (backoff s2) with
          | (Ok _, s3) => (Ok tt, s3)
          | (Raised e3, s3) => (Raised e3, s3)
          end
      end
  end.

(** One return attempt of the premium check: the navigation to the job
    link and, when it goes through, the two-second sleep. *)
Definition return_to_job {B} `{driver B} (job_link : string) (w : world B)
  : outcome unit * world B :=
  match drv_get job_link (w_browser w) with
  | (Ok _, b) =>
      (Ok tt, mkWorld (w_self w) (w_files w) (drv_sleep 2 2 b)
                      (w_trace w ++ [EvGet job_link; EvSleep 2 2]))
  | (Raised e, b) =>
      (Raised e, mkWorld (w_self w) (w_files w) b (w_trace w ++ [EvGet job_link]))
  end.

Definition on_premium_page {B} `{driver B} (w : world B) : bool :=
  Py.contains premium_pattern (drv_current_url (w_browser w)).

(** The premium check in the words of the specification: while the browser
    shows a premium page it returns to the job link, up to three times;
    it ends as soon as the browser shows another page, and raises when the
    third return still ends on a premium page. *)
Definition spec_premium_check {B} `{driver B} (job : Job) (w0 : world B)
  : outcome unit * world B :=
  if on_premium_page w0 then
    match return_to_job (link job) w0 with
    | (Raised e, w1) => (Raised e, w1)
    | (Ok _, w1) =>
        if on_premium_page w1 then
          match return_to_job (link job) w1 with
          | (Raised e, w2) => (Raised e, w2)
          | (Ok _, w2) =>
              if on_premium_page w2 then
                match return_to_job (link job) w2 with
                | (Raised e, w3) => (Raised e, w3)
                | (Ok _, w3) =>
                    if on_premium_page w3
                    then (Raised (PremiumRedirectError 3), w3)
                    else (Ok tt, w3)
                end
              else (Ok tt, w2)
          end
        else (Ok tt, w1)
    end
  else (Ok tt, w0).

(** The state in which [_execute_job_apply] makes its first premium check:
    after the entry into the attempt, a first navigation that ended in the
    browser state [b], and the sleep that follows it. *)
Definition after_first_navigation {B} `{driver B} (job : Job) (w0 : world B) (b : B)
  : world B :=
  mkWorld (w_self w0) (w_files w0) (drv_sleep 3 5 b)
          (w_trace w0
           ++ [EvExecuteJobApply (link job); EvGet (link job); EvSleep 3 5]).

(** The world with the browser in the state [b], and the world after
    [_discard_application]. *)
Definition with_browser {B} (w : world B) (b : B) : world B :=
  mkWorld (w_self w) (w_files w) b (w_trace w).

Definition discarded {B} `{driver B} (w : world B) : world B :=
  with_browser w (dom_discard_application (w_browser w)).

(** ** The resolution of a visible text

    [Select.select_by_visible_text(text)] is Selenium's: on a [select] it
    sets the first option whose text is [text] (every such option when the
    [select] takes several values) and raises [NoSuchElementException]
    when there is none.  [index_of_text] is the index of that first
    option. *)
Fixpoint index_of_text (options : list string) (text : string) : option nat :=
  match options with
  | [] => None
  | o :: rest =>
      if String.eqb o text then Some 0 else option_map S (index_of_text rest text)
  end.

(** The eligibility filter in the words of the specification: three
    checks in the order blacklist, already applied to the company, keyword
    match; the first that fails writes one "skipped" record and answers
    [False]; when none fails nothing is written. *)
Definition spec_is_job_suitable {B} `{driver B} (job : Job) (w : world B)
  : outcome bool * world B :=
  if is_blacklisted (w_self w) (title job) (company job) (link job) then
    (Ok false, written w job "skipped")
  else if is_already_applied_to_company (w_self w) (w_files w) (company job) then
    (Ok false, written w job "skipped")
  else
    match matches_job_criteria (w_self w) job with
    | Raised e => (Raised e, w)
    | Ok true => (Ok true, w)
    | Ok false => (Ok false, written w job "skipped")
    end.

(** The calls a client can make on the job manager, and a session of such
    calls; a call that raises leaves the state it reached. *)
Inductive manager_call : Type :=
| CallSetParameters (p : parameters)
| CallStartApplying (loaded : list qa_entry)
| CallApplyJobs (job_list_elements : list tile)
| CallIsJobSuitable (job : Job)
| CallWriteToFile (job : Job) (file_name : string).

Definition run_call {B} `{driver B} (c : manager_call) (w : world B) : world B :=
  match c with
  | CallSetParameters p => snd (set_parameters p w)
  | CallStartApplying loaded => snd (start_applying loaded w)
  | CallApplyJobs tiles => snd (apply_jobs tiles w)
  | CallIsJobSuitable job => snd (is_job_suitable job w)
  | CallWriteToFile job file_name => snd (write_to_file job file_name w)
  end.

Definition run_calls {B} `{driver B} (cs : list manager_call) (w : world B)
  : world B :=
  fold_left (fun w c => run_call c w) cs w.

Definition same_self {B} (w w' : world B) : Prop := w_self w' = w_self w.

(** The three outcome files. *)
Definition outcome_names : list string := ["success"; "failed"; "skipped"].

(** The number of records the outcome files gained between two states of
    the output directory. *)
Definition gained (fs fs' : gmap string json_doc) (file_name : string) : nat :=
  List.length (records_in fs' (file_name ++ ".json"))
  - List.length (records_in fs (file_name ++ ".json")).

Definition gained_total (fs fs' : gmap string json_doc) : nat :=
  list_sum (map (gained fs fs') outcome_names).

(** Every outcome file keeps the records it has. *)
Definition grows (fs fs' : gmap string json_doc) : Prop :=
  forall file_name, In file_name outcome_names ->
    List.length (records_in fs (file_name ++ ".json"))
    <= List.length (records_in fs' (file_name ++ ".json")).


(** ** A scripted browser for closed examples

    [landings] are the URLs the browser ends on after each successive
    navigation (the requested URL once the script is exhausted);
    [form_results] tell whether each successive form filling goes through. *)

Record scripted : Type := mkScripted {
  shown : string;
  landings : list string;
  form_results : list bool;
  seed : nat
}.

Definition scripted_get (url : string) (b : scripted) : outcome unit * scripted :=
  (Ok tt, mkScripted (hd url (landings b)) (tl (landings b)) (form_results b) (seed b)).

Definition scripted_fill (job : Job) (b : scripted) : outcome unit * scripted :=
  let b' := mkScripted (shown b) (landings b) (tl (form_results b)) (seed b) in
  match form_results b with
  | false :: _ => (Raised (ExternalError "form"), b')
  | _ => (Ok tt, b')
  end.

Definition scripted_randbelow (n : nat) (b : scripted) : nat * scripted :=
  (seed b mod n, mkScripted (shown b) (landings b) (form_results b) (S (seed b))).

#[export] Instance scripted_driver : driver scripted := {|
  drv_current_url := shown;
  drv_get := scripted_get;
  drv_sleep := fun _ _ b => b;
  drv_blur := fun b => (Ok tt, b);
  dom_find_easy_apply_button := fun _ b => (Ok 0, b);
  dom_get_job_description := fun b => (Ok "We build data pipelines", b);
  dom_get_job_recruiter := fun b => ("https://www.linkedin.com/in/recruiter", b);
  dom_click_button := fun _ b => (Ok tt, b);
  dom_fill_application_form := scripted_fill;
  dom_discard_application := fun b => b;
  dom_select_by_visible_text := fun _ b => (Ok tt, b);
  gpt_set_job := fun _ b => (Ok tt, b);
  gpt_answer_question := fun q b => (Ok "generated answer", b);
  rng_randbelow := scripted_randbelow;
  rng_randbelow_lt := fun n b Hn =>
    Nat.mod_upper_bound (seed b) n (proj2 (Nat.neq_0_lt_0 n) Hn);
  path_as_uri := fun p => "file:///" ++ p
|}.

(** [DreamBoosterJobManager.__init__]: only [easy_applier_component] is
    bound (to [None]); the other fields stand for attributes that do not
    exist before [set_parameters]. *)
Definition DreamBoosterJobManager_init : DreamBoosterJobManager :=
  mkManager [] [] [] [] false [] (3 # 4)%Q [] None.

Definition fresh_world (b : scripted) : world scripted :=
  mkWorld DreamBoosterJobManager_init ∅ b [].

Definition idle_browser : scripted := mkScripted "about:blank" [] [] 0.

(** The world after [set_parameters p] on a new manager and the binding of
    the applier component by [start_applying]. *)
Definition session (p : parameters) (loaded : list qa_entry) (b : scripted)
  : world scripted :=
  snd (start_applying loaded (snd (set_parameters p (fresh_world b)))).

Definition example_parameters (titles : list string) (once : bool)
           (kws : option (list string)) : parameters :=
  mkParameters None (Some titles) None None (Some once)
               (Some (mkJMA (Some (1 # 2)%Q) kws)).

Definition python_tile (apply_label : string) : tile :=
  mkTile "Python Developer" "Acme" "Remote"
         "https://www.linkedin.com/jobs/view/1" apply_label.

Definition python_job (apply_label : string) : Job :=
  mkJob "Python Developer" "Acme" "Remote"
        "https://www.linkedin.com/jobs/view/1" apply_label "" "" "" "".

(** The configuration with every key absent: [set_parameters] falls back on
    its defaults. *)
Definition default_parameters : parameters :=
  mkParameters None None None None None None.

Definition keyword_session (b : scripted) : world scripted :=
  session (example_parameters [] true (Some ["python"])) [] b.

(** A browser whose first two form fillings fail and whose third goes
    through. *)
Definition flaky_browser : scripted :=
  mkScripted "about:blank" [] [false; false; true] 0.

(** A browser stuck on the premium page: every navigation lands there. *)
Definition premium_url : string := "https://www.linkedin.com/premium/products".

Definition stuck_browser : scripted :=
  mkScripted premium_url [premium_url; premium_url; premium_url; premium_url] [] 0.

(** A browser that leaves the premium page at the second navigation. *)
Definition redirected_browser : scripted :=
  mkScripted premium_url [premium_url] [] 0.

(** A success log that already holds an application at "ACME". *)
Definition acme_record : outcome_record :=
  mkRecord "  ACME " "Data Engineer" "https://www.linkedin.com/jobs/view/7"
           "" "Berlin" "file:///".

Definition acme_session : world scripted :=
  let w := keyword_session idle_browser in
  mkWorld (w_self w) (<["success.json" := Records [acme_record]]> (w_files w))
          (w_browser w) (w_trace w).

Definition placeholder_options : list string :=
  ["Select an option"; "Yes"; "No"].

Definition stored_answers : list qa_entry :=
  [mkQA "Years of experience?" "5"; mkQA "years of experience?" "7"].

(** ** The tiles of a result page

    What a result page shows of one tile, as far as
    [extract_job_information_from_tile] looks: the element of each class
    name, [None] when the page has none.  The title element carries its
    text and its [href] attribute, [None] when the attribute is absent. *)

Record tile_element : Type := mkTileElement {
  te_title : option (string * option string);
  te_company : option string;
  te_location : option string;
  te_apply_method : option string
}.

(** [href.split('?')[0]] *)
Definition strip_query (href : string) : string :=
  hd EmptyString (Py.split "?" href).

(** [extract_job_information_from_tile].  The first [try] reads the title,
    the link and the company in this order and stops at the first missing
    element, keeping what it has read; only [NoSuchElementException] is
    caught, so a title element without [href] raises [AttributeError]
    ([None] has no [split]). *)
Definition extract_job_information_from_tile (job_tile : tile_element)
  : outcome tile :=
  let job_location := or_default (te_location job_tile) EmptyString in
  let apply_method := or_default (te_apply_method job_tile) "Applied" in
  match te_title job_tile with
  | None => Ok (mkTile "" "" job_location "" apply_method)
  | Some (job_title, None) => Raised (AttributeError "split")
  | Some (job_title, Some href) =>
      let link := strip_query href in
      let company := or_default (te_company job_tile) EmptyString in
      Ok (mkTile job_title company job_location link apply_method)
  end.

(** The list comprehension of [apply_jobs]: each element is extracted and
    made a [Job] in turn; the first exception ends the comprehension. *)
Fixpoint jobs_of_elements (job_list_elements : list tile_element)
  : outcome (list Job) :=
  match job_list_elements with
  | [] => Ok []
  | e :: rest =>
      match extract_job_information_from_tile e with
      | Raised x => Raised x
      | Ok t =>
          match Job_init t with
          | Raised x => Raised x
          | Ok j =>
              match jobs_of_elements rest with
              | Raised x => Raised x
              | Ok js => Ok (j :: js)
              end
          end
      end
  end.

(** [apply_jobs] on the elements of the page. *)
Definition apply_jobs_on_page {B} `{driver B} (job_list_elements : list tile_element)
  : M (world B) unit :=
  bind (lift_outcome (jobs_of_elements job_list_elements))
       (fun job_list => for_each job_list apply_jobs_body).

(** The loop of [get_jobs_from_page] over the elements found: every tuple
    is kept (a tuple of five is never falsy). *)
Fixpoint extract_all (job_elements : list tile_element) : outcome (list tile) :=
  match job_elements with
  | [] => Ok []
  | e :: rest =>
      match extract_job_information_from_tile e with
      | Raised x => Raised x
      | Ok t =>
          match extract_all rest with
          | Raised x => Raised x
          | Ok ts => Ok (t :: ts)
          end
      end
  end.

(** [get_jobs_from_page] on what the lookup of the results list gives: the
    elements of the list, or the exception of the lookup or of the
    scrolling.  Every exception is answered with the empty list. *)
Definition get_jobs_from_page (found : outcome (list tile_element)) : list tile :=
  match found with
  | Raised _ => []
  | Ok job_elements =>
      match extract_all job_elements with
      | Ok jobs => jobs
      | Raised _ => []
      end
  end.

(** A character occurs in a string. *)
Fixpoint has_char (c : ascii) (s : string) : bool :=
  match s with
  | EmptyString => false
  | String c' s' => Ascii.eqb c' c || has_char c s'
  end.

(** An uppercase ASCII letter occurs in a string. *)
Fixpoint has_upper (s : string) : bool :=
  match s with
  | EmptyString => false
  | String c s' => Py.is_upper c || has_upper s'
  end.

(** The world after the jobs of a list were written to one file, in
    order. *)
Definition written_all {B} `{driver B} (w : world B) (jobs : list Job)
           (file_name : string) : world B :=
  fold_left (fun v job => written v job file_name) jobs w.

(** A tile that lacks its title, company or location element, or whose
    title element has no [href]. *)
Definition unreadable (e : tile_element) : Prop :=
  te_title e = None \/ te_company e = None \/ te_location e = None
  \/ (exists job_title, te_title e = Some (job_title, None)).

(** ** The sections of the application form

    A section of the form is the text it shows and its descendant elements
    in document order, each with its tag, its [type] attribute, its text
    and, for a [select], the texts of its options. *)

Record dom_node : Type := mkNode {
  node_tag : string;
  node_type : option string;
  node_text : string;
  node_options : list string
}.

Record form_element : Type := mkFormElement {
  el_text : string;
  el_nodes : list dom_node
}.

(** The operations of the form on the browser: typing into an element,
    clicking one ([_click_button]), locating the sections of the form and
    its primary button, unchecking the follow-company box
    ([_unfollow_company], which catches every exception) and reading the
    inline error messages. *)
Class form_driver (B : Type) : Type := mkFormDriver {
  dom_send_keys : dom_node -> string -> B -> outcome unit * B;
  dom_click_node : dom_node -> B -> outcome unit * B;
  dom_form_sections : B -> outcome (list form_element) * B;
  dom_primary_button : B -> outcome dom_node * B;
  dom_unfollow_company : B -> B;
  dom_error_texts : B -> outcome (list string) * B
}.

(** [element.find_elements(By.TAG_NAME, tag)] *)
Definition find_elements_by_tag (tag : string) (element : form_element)
  : list dom_node :=
  List.filter (fun n => String.eqb (node_tag n) tag) (el_nodes element).

(** [element.find_elements] for [input] elements of a given [type]: the
    XPath [.//input[@type="radio"]] and the CSS selector
    [input[type="file"]]. *)
Definition find_inputs_of_type (type : string) (element : form_element)
  : list dom_node :=
  List.filter
    (fun n => String.eqb (node_tag n) "input"
              && match node_type n with
                 | Some t => String.eqb t type
                 | None => false
                 end)
    (el_nodes element).

(** A Python list as a condition. *)
Definition nonempty {A} (l : list A) : bool :=
  match l with [] => false | _ => true end.

Definition no_such_element : exn := ExternalError "NoSuchElementException".

Section Form.

Context {B : Type} `{driver B} `{form_driver B}.

Local Open Scope py_scope.

(** [element.find_element(...)]: the first element found, or
    [NoSuchElementException]. *)
Definition first_or_raise (found : list dom_node) : M (world B) dom_node :=
  match found with
  | n :: _ => ret n
  | [] => raise no_such_element
  end.

Definition _is_upload_field (element : form_element) : bool :=
  Py.contains "upload" (Py.lower (el_text element)).

Definition _is_dropdown_field (element : form_element) : bool :=
  nonempty (find_elements_by_tag "select" element).

Definition _is_text_field (element : form_element) : bool :=
  nonempty (find_elements_by_tag "input" element)
  || nonempty (find_elements_by_tag "textarea" element).

Definition _is_radio_field (element : form_element) : bool :=
  nonempty (find_inputs_of_type "radio" element).

(** [_handle_upload_fields]: the file input is looked up first; the resume
    is typed into it when a resume path is set.  [resume_path] stands for
    [self.resume_path], which [__init__] binds to [None] or to the path of
    an existing directory. *)
Definition _handle_upload_fields (resume_path : option string)
           (element : form_element) : M (world B) unit :=
  upload_button <- first_or_raise (find_inputs_of_type "file" element);;
  match resume_path with
  | Some path => call (dom_send_keys upload_button path)
  | None => ret tt
  end.

(** [_handle_dropdown_fields] on the first [select] of the section. *)
Definition handle_dropdown_of (element : form_element) : M (world B) unit :=
  dropdown <- first_or_raise (find_elements_by_tag "select" element);;
  _handle_dropdown_fields (node_options dropdown).

(** [_handle_text_fields]: [find_element] for the [input] raises when there
    is none, and an element found is truthy, so the lookup of a
    [textarea] after the [or] is never evaluated. *)
Definition _handle_text_fields (self : DreamBoosterEasyApplier)
           (element : form_element) (q : string) : M (world B) unit :=
  input_field <- first_or_raise (find_elements_by_tag "input" element);;
  answer <- _get_answer_for_question self q;;
  call (dom_send_keys input_field answer).

(** [_handle_radio_fields]: [random.choice] of the radio inputs, clicked. *)
Definition _handle_radio_fields (element : form_element) (q : string)
  : M (world B) unit :=
  let radio_options := find_inputs_of_type "radio" element in
  match radio_options with
  | [] => raise (ExternalError "IndexError")
  | d :: _ =>
      k <- call_total (rng_randbelow (List.length radio_options));;
      call (dom_click_node (nth k radio_options d))
  end.

(** [_fill_additional_questions]: every exception is logged and dropped. *)
Definition _fill_additional_questions (self : DreamBoosterEasyApplier)
           (element : form_element) : M (world B) unit :=
  try_except
    (question_element <- first_or_raise (find_elements_by_tag "label" element);;
     let q := Py.strip (node_text question_element) in
     if _is_dropdown_field element then handle_dropdown_of element
     else if _is_text_field element then _handle_text_fields self element q
     else if _is_radio_field element then _handle_radio_fields element q
     else ret tt)
    (fun _ => ret tt).

Definition _process_form_element (self : DreamBoosterEasyApplier)
           (resume_path : option string) (element : form_element)
  : M (world B) unit :=
  if _is_upload_field element then _handle_upload_fields resume_path element
  else _fill_additional_questions self element.

(** The [for element in pb4_elements] loop of [fill_up]. *)
Definition fill_sections (self : DreamBoosterEasyApplier)
           (resume_path : option string) (sections : list form_element)
  : M (world B) unit :=
  for_each sections (_process_form_element self resume_path).

(** [fill_up]: every exception is logged and dropped. *)
Definition fill_up (self : DreamBoosterEasyApplier) (resume_path : option string)
  : M (world B) unit :=
  try_except
    (sections <- call dom_form_sections;;
     fill_sections self resume_path sections)
    (fun _ => ret tt).

Definition form_errors : exn := ExternalError "Failed answering or file upload.".

Definition _check_for_errors : M (world B) unit :=
  error_elements <- call dom_error_texts;;
  if nonempty error_elements then raise form_errors else ret tt.

Definition is_submit (button : dom_node) : bool :=
  Py.contains "submit application" (Py.lower (node_text button)).

(** [_next_or_submit]: [True] after the click on a submit button; after
    the click on any other button the errors are checked and the result is
    [None], which the caller reads as false. *)
Definition _next_or_submit : M (world B) bool :=
  next_button <- call dom_primary_button;;
  if is_submit next_button then
    call_total (fun b => (tt, dom_unfollow_company b));;;
    sleep_uniform (3 # 2) (5 # 2);;;
    call (dom_click_node next_button);;;
    sleep_uniform (3 # 2) (5 # 2);;;
    ret true
  else
    sleep_uniform (3 # 2) (5 # 2);;;
    call (dom_click_node next_button);;;
    sleep_uniform 3 5;;;
    _check_for_errors;;;
    ret false.

(** The [while True] loop of [_fill_application_form], run for at most
    [fuel] pages: [None] when the form is not submitted by then. *)
Fixpoint _fill_application_form (self : DreamBoosterEasyApplier)
         (resume_path : option string) (fuel : nat) : M (world B) (option unit) :=
  match fuel with
  | O => ret None
  | S fuel' =>
      fill_up self resume_path;;;
      submitted <- _next_or_submit;;
      if submitted then ret (Some tt)
      else _fill_application_form self resume_path fuel'
  end.

(** The dispatch of [_fill_additional_questions] with its radio branch
    removed. *)
Definition fill_additional_questions_without_radio
           (self : DreamBoosterEasyApplier) (element : form_element)
  : M (world B) unit :=
  try_except
    (question_element <- first_or_raise (find_elements_by_tag "label" element);;
     let q := Py.strip (node_text question_element) in
     if _is_dropdown_field element then handle_dropdown_of element
     else if _is_text_field element then _handle_text_fields self element q
     else ret tt)
    (fun _ => ret tt).

End Form.

(** ** Slow scrolling ([src/utils.py])

    What [scroll_slow] reads of the element it scrolls: the attributes
    [scrollHeight], [scrollTop] and [clientHeight] as integers, [None] when
    the attribute does not convert, and whether the element is displayed.
    Python integers are unbounded: positions and steps are in [Z]. *)

Record scroll_target : Type := mkScrollTarget {
  scroll_height : option Z;
  scroll_top : option Z;
  client_height : option Z;
  displayed : bool
}.

(** [is_scrollable]: an attribute that does not convert answers [False]. *)
Definition is_scrollable (element : scroll_target) : bool :=
  match scroll_height element, client_height element with
  | Some sh, Some ch => (ch <? sh)%Z
  | _, _ => false
  end.

(** The [while] loop of [scroll_slow]: the positions handed to the browser,
    in order; [None] when the loop is still running after [fuel] rounds.
    An error of the browser on a position is logged and the loop goes on. *)
Fixpoint scroll_loop (fuel : nat) (reverse : bool) (end_ position : Z)
         (previous_position : option Z) (step : Z) : option (list Z) :=
  if ((0 <? step)%Z && (position <? end_)%Z)
     || ((step <? 0)%Z && (end_ <? position)%Z)
  then
    if match previous_position with
       | Some p => (position =? p)%Z
       | None => false
       end
    then Some []
    else
      match fuel with
      | O => None
      | S fuel' =>
          let step' :=
            (Z.max 10 (Z.abs step - 10) * (if reverse then -1 else 1))%Z in
          match scroll_loop fuel' reverse end_ (position + step)%Z
                            (Some position) step' with
          | Some ps => Some (position :: ps)
          | None => None
          end
      end
  else Some [].

(** [scroll_slow]: the positions it asks the browser to scroll to, the last
    one being the end of the sweep.  A zero step raises [ValueError] before
    the element is read; every later exception is logged and dropped, and
    the sleeps between two positions are left out. *)
Definition scroll_slow (fuel : nat) (element : scroll_target)
           (start end_ step : Z) (reverse : bool) : option (outcome (list Z)) :=
  let start1 := if reverse then end_ else start in
  let end1 := if reverse then start else end_ in
  let step1 := if reverse then (- step)%Z else step in
  if (step1 =? 0)%Z then Some (Raised (ValueError "step"))
  else
    match scroll_height element, scroll_top element with
    | Some max_scroll_height, Some current_scroll_position =>
        let start2 := if reverse then Z.min start1 current_scroll_position else start1 in
        let end2 := if reverse then end1 else Z.min end1 max_scroll_height in
        if displayed element then
          if negb (is_scrollable element) then Some (Ok [])
          else
            match scroll_loop fuel reverse end2 start2 None step1 with
            | Some ps => Some (Ok (ps ++ [end2])%list)
            | None => None
            end
        else Some (Ok [])
    | _, _ => Some (Ok [])
    end.

(** A number of rounds that the loop cannot exceed. *)
Definition scroll_rounds (start end_ step : Z) : nat :=
  2 + Z.to_nat (Z.abs (end_ - start) + Z.abs step).

(** A list of integers goes up, or down, by at least [gap] at each entry. *)
Fixpoint climbs (gap : Z) (l : list Z) : Prop :=
  match l with
  | p :: (q :: _) as rest => (p + gap <= q)%Z /\ climbs gap rest
  | _ => True
  end.

(** ** The state of the bot and its facade
    ([src/dream_booster_bot_state.py], [src/dream_booster_bot_facade.py]) *)

Record DreamBoosterBotState : Type := mkBotState {
  credentials_set : bool;
  api_key_set : bool;
  job_application_profile_set : bool;
  gpt_answerer_set : bool;
  parameters_set : bool;
  logged_in : bool;
  application_process_active : bool
}.

(** [reset], which [__init__] calls. *)
Definition reset : DreamBoosterBotState :=
  mkBotState false false false false false false false.

(** The attribute names [validate_state] is called with. *)
Inductive state_key : Type :=
| credentials_set_key
| api_key_set_key
| job_application_profile_set_key
| gpt_answerer_set_key
| parameters_set_key
| logged_in_key
| application_process_active_key.

Definition key_name (key : state_key) : string :=
  match key with
  | credentials_set_key => "credentials_set"
  | api_key_set_key => "api_key_set"
  | job_application_profile_set_key => "job_application_profile_set"
  | gpt_answerer_set_key => "gpt_answerer_set"
  | parameters_set_key => "parameters_set"
  | logged_in_key => "logged_in"
  | application_process_active_key => "application_process_active"
  end.

(** [getattr(self, key)] *)
Definition state_attr (self : DreamBoosterBotState) (key : state_key) : bool :=
  match key with
  | credentials_set_key => credentials_set self
  | api_key_set_key => api_key_set self
  | job_application_profile_set_key => job_application_profile_set self
  | gpt_answerer_set_key => gpt_answerer_set self
  | parameters_set_key => parameters_set self
  | logged_in_key => logged_in self
  | application_process_active_key => application_process_active self
  end.

(** [validate_state]: the first key that is not set raises [ValueError]. *)
Fixpoint validate_state (self : DreamBoosterBotState) (required_keys : list state_key)
  : outcome unit :=
  match required_keys with
  | [] => Ok tt
  | key :: rest =>
      if negb (state_attr self key) then Raised (ValueError (key_name key))
      else validate_state self rest
  end.

(** A call on the facade, with what its arguments and its collaborators
    (the login component, the apply component, the answerer) give: whether
    an argument is truthy, and whether a collaborator returns or raises.
    For the two updates the collaborator is the answerer when one is bound
    and returns otherwise.  [delegate_to_apply_component] stands for
    [get_application_status], [pause_application_process],
    [resume_application_process] and [get_job_recommendations], which only
    call the apply component; the value they return is not modelled. *)
Inductive facade_call : Type :=
| set_job_application_profile_and_resume (profile_given resume_given : bool)
| set_gpt_answerer_and_resume_generator (components : outcome unit)
| facade_set_parameters (parameters_given : bool) (apply_component : outcome unit)
| start_login (login_component : outcome bool)
| start_apply (apply_component : outcome unit)
| update_job_application_profile (profile_given : bool) (answerer : outcome unit)
| update_resume (resume_given : bool) (answerer : outcome unit)
| refresh_login (login_component : outcome unit)
| delegate_to_apply_component (apply_component : outcome unit)
| logout (login_component : outcome unit).

Definition with_job_application_profile_set (s : DreamBoosterBotState)
  : DreamBoosterBotState :=
  mkBotState (credentials_set s) (api_key_set s) true (gpt_answerer_set s)
             (parameters_set s) (logged_in s) (application_process_active s).

Definition with_gpt_answerer_set (s : DreamBoosterBotState) : DreamBoosterBotState :=
  mkBotState (credentials_set s) (api_key_set s) (job_application_profile_set s)
             true (parameters_set s) (logged_in s) (application_process_active s).

Definition with_parameters_set (s : DreamBoosterBotState) : DreamBoosterBotState :=
  mkBotState true (api_key_set s) (job_application_profile_set s)
             (gpt_answerer_set s) true (logged_in s) (application_process_active s).

Definition with_logged_in (v : bool) (s : DreamBoosterBotState)
  : DreamBoosterBotState :=
  mkBotState (credentials_set s) (api_key_set s) (job_application_profile_set s)
             (gpt_answerer_set s) (parameters_set s) v
             (application_process_active s).

(** The keys [start_apply] requires, in its order. *)
Definition start_apply_keys : list state_key :=
  [logged_in_key; job_application_profile_set_key; gpt_answerer_set_key;
   parameters_set_key].

(** One call on the facade: its result and the state it leaves. *)
Definition facade_step (s : DreamBoosterBotState) (c : facade_call)
  : outcome unit * DreamBoosterBotState :=
  match c with
  | set_job_application_profile_and_resume profile_given resume_given =>
      if negb profile_given then (Raised (ValueError "Job application profile"), s)
      else if negb resume_given then (Raised (ValueError "Resume"), s)
      else (Ok tt, with_job_application_profile_set s)
  | set_gpt_answerer_and_resume_generator components =>
      if negb (job_application_profile_set s)
      then (Raised (ValueError "Job application profile and resume"), s)
      else match components with
           | Raised x => (Raised x, s)
           | Ok _ => (Ok tt, with_gpt_answerer_set s)
           end
  | facade_set_parameters parameters_given apply_component =>
      if negb parameters_given then (Raised (ValueError "Parameters"), s)
      else match apply_component with
           | Raised x => (Raised x, s)
           | Ok _ => (Ok tt, with_parameters_set s)
           end
  | start_login login_component =>
      match validate_state s [credentials_set_key] with
      | Raised x => (Raised x, s)
      | Ok _ =>
          match login_component with
          | Ok started => (Ok tt, with_logged_in started s)
          | Raised x => (Raised x, with_logged_in false s)
          end
      end
  | start_apply apply_component =>
      match validate_state s start_apply_keys with
      | Raised x => (Raised x, s)
      | Ok _ => (apply_component, s)
      end
  | update_job_application_profile profile_given answerer =>
      if negb profile_given
      then (Raised (ValueError "New job application profile"), s)
      else (answerer, s)
  | update_resume resume_given answerer =>
      if negb resume_given then (Raised (ValueError "New resume"), s)
      else (answerer, s)
  | refresh_login login_component => (login_component, s)
  | delegate_to_apply_component apply_component => (apply_component, s)
  | logout login_component =>
      match login_component with
      | Raised x => (Raised x, s)
      | Ok _ => (Ok tt, reset)
      end
  end.

(** A session of calls on a new facade; a call that raises leaves the
    state it reached and the session goes on. *)
Definition facade_run (calls : list facade_call) (s : DreamBoosterBotState)
  : DreamBoosterBotState :=
  fold_left (fun s c => snd (facade_step s c)) calls s.

(** The flags of the state in every state a facade reaches. *)
Definition facade_invariant (s : DreamBoosterBotState) : Prop :=
  credentials_set s = parameters_set s
  /\ (gpt_answerer_set s = true -> job_application_profile_set s = true)
  /\ (logged_in s = true -> parameters_set s = true)
  /\ api_key_set s = false
  /\ application_process_active s = false.


(** ** A page with one dropdown

    A browser whose page holds one [select]: the texts of its options, the
    index of the option selected and the seed of the random generator.
    [select_by_visible_text] resolves a text as Selenium does. *)

Record select_page : Type := mkSelectPage {
  page_options : list string;
  page_selected : option nat;
  page_seed : nat
}.

Definition select_page_select (text : string) (b : select_page)
  : outcome unit * select_page :=
  match index_of_text (page_options b) text with
  | Some i => (Ok tt, mkSelectPage (page_options b) (Some i) (page_seed b))
  | None => (Raised no_such_element, b)
  end.

Definition select_page_randbelow (n : nat) (b : select_page) : nat * select_page :=
  (page_seed b mod n,
   mkSelectPage (page_options b) (page_selected b) (S (page_seed b))).

#[export] Instance select_page_driver : driver select_page := {|
  drv_current_url := fun _ => "about:blank";
  drv_get := fun _ b => (Ok tt, b);
  drv_sleep := fun _ _ b => b;
  drv_blur := fun b => (Ok tt, b);
  dom_find_easy_apply_button := fun _ b => (Ok 0, b);
  dom_get_job_description := fun b => (Ok "", b);
  dom_get_job_recruiter := fun b => ("", b);
  dom_click_button := fun _ b => (Ok tt, b);
  dom_fill_application_form := fun _ b => (Ok tt, b);
  dom_discard_application := fun b => b;
  dom_select_by_visible_text := select_page_select;
  gpt_set_job := fun _ b => (Ok tt, b);
  gpt_answer_question := fun q b => (Ok "", b);
  rng_randbelow := select_page_randbelow;
  rng_randbelow_lt := fun n b Hn =>
    Nat.mod_upper_bound (page_seed b) n (proj2 (Nat.neq_0_lt_0 n) Hn);
  path_as_uri := fun p => "file:///" ++ p
|}.

(** The section of a question answered from a dropdown with the given
    options, and the page that shows it. *)
Definition dropdown_question (options : list string) : form_element :=
  mkFormElement "Will you require sponsorship?"
    [mkNode "label" None "Will you require sponsorship?" [];
     mkNode "select" None "" options].

Definition dropdown_page (options : list string) (seed : nat) : world select_page :=
  mkWorld DreamBoosterJobManager_init ∅ (mkSelectPage options None seed) [].

(** ** Closed instances for the form and for scrolling *)

(** A form whose primary button always reads "Next", with no sections and
    no inline errors. *)
Definition next_form : form_driver scripted := {|
  dom_send_keys := fun _ _ b => (Ok tt, b);
  dom_click_node := fun _ b => (Ok tt, b);
  dom_form_sections := fun b => (Ok [], b);
  dom_primary_button := fun b => (Ok (mkNode "button" None "Next" []), b);
  dom_unfollow_company := fun b => b;
  dom_error_texts := fun b => (Ok [], b)
|}.

(** A form on its last page. *)
Definition submit_form : form_driver scripted := {|
  dom_send_keys := fun _ _ b => (Ok tt, b);
  dom_click_node := fun _ b => (Ok tt, b);
  dom_form_sections := fun b => (Ok [], b);
  dom_primary_button :=
    fun b => (Ok (mkNode "button" None "Submit Application" []), b);
  dom_unfollow_company := fun b => b;
  dom_error_texts := fun b => (Ok [], b)
|}.

(** A form that shows an inline error after each click. *)
Definition error_form : form_driver scripted := {|
  dom_send_keys := fun _ _ b => (Ok tt, b);
  dom_click_node := fun _ b => (Ok tt, b);
  dom_form_sections := fun b => (Ok [], b);
  dom_primary_button := fun b => (Ok (mkNode "button" None "Next" []), b);
  dom_unfollow_company := fun b => b;
  dom_error_texts := fun b => (Ok ["Please enter a valid answer"], b)
|}.

Definition textarea_question : form_element :=
  mkFormElement "Why do you want this job?"
    [mkNode "label" None "Why do you want this job?" [];
     mkNode "textarea" None "" []].

Definition upload_without_input : form_element :=
  mkFormElement "Upload resume" [mkNode "label" None "Upload resume" []].

Definition text_question : form_element :=
  mkFormElement "Years of experience?"
    [mkNode "label" None "Years of experience?" [];
     mkNode "input" (Some "text") "" []].

Definition listed_tile : tile_element :=
  mkTileElement
    (Some ("Python Developer",
           Some "https://www.linkedin.com/jobs/view/1?refId=abc&trk=flagship"))
    (Some "Acme") (Some "Remote") None.

Definition tile_without_location : tile_element :=
  mkTileElement
    (Some ("Data Engineer", Some "https://www.linkedin.com/jobs/view/2"))
    (Some "Initech") None (Some "Easy Apply").

Definition tall_page : scroll_target :=
  mkScrollTarget (Some 1000%Z) (Some 1000%Z) (Some 500%Z) true.

(** * Properties *)

(** ** Computations that respect a preorder on states *)

Section Respects.

Context {S : Type} (R : S -> S -> Prop) `{!PreOrder R}.

Lemma respects_ret {A} (a : A) : respects R (ret a).
Proof. intros s; simpl; reflexivity. Qed.

Lemma respects_raise {A} (e : exn) : respects R (@raise S A e).
Proof. intros s; simpl; reflexivity. Qed.

Lemma respects_gets {A} (f : S -> A) : respects R (gets f).
Proof. intros s; simpl; reflexivity. Qed.

Lemma respects_lift_outcome {A} (o : outcome A) : respects R (lift_outcome o).
Proof. intros s; simpl; reflexivity. Qed.

Lemma respects_bind {A C} (m : M S A) (k : A -> M S C) :
  respects R m -> (forall a, respects R (k a)) -> respects R (bind m k).
Proof.
  intros Hm Hk s. unfold bind. specialize (Hm s).
  destruct (m s) as [[a | e] s1]; simpl in *; [ | exact Hm ].
  etransitivity; [ exact Hm | apply Hk ].
Qed.

Lemma respects_try_except {A} (m : M S A) (h : exn -> M S A) :
  respects R m -> (forall e, respects R (h e)) -> respects R (try_except m h).
Proof.
  intros Hm Hh s. unfold try_except. specialize (Hm s).
  destruct (m s) as [[a | e] s1]; simpl in *; [ exact Hm | ].
  etransitivity; [ exact Hm | apply Hh ].
Qed.

Lemma respects_for_each {A} (xs : list A) (body : A -> M S unit) :
  (forall x, respects R (body x)) -> respects R (for_each xs body).
Proof.
  intros Hbody. induction xs as [ | x xs IH]; simpl.
  - apply respects_ret.
  - apply respects_bind; auto.
Qed.

End Respects.

Lemma respects_weaken {S A} (R R' : S -> S -> Prop) (m : M S A) :
  (forall s s', R s s' -> R' s s') -> respects R m -> respects R' m.
Proof. intros Himp Hm s. apply Himp, Hm. Qed.

(** ** The frame of the browser operations *)

Section Frames.

Context {B : Type} `{driver B}.

#[local] Instance extends_trace_preorder (P : event -> Prop) :
  PreOrder (@extends_trace B P).
Proof.
  split.
  - intros w. exists []. split; [ symmetry; apply app_nil_r | constructor ].
  - intros w1 w2 w3 [t1 [E1 F1]] [t2 [E2 F2]].
    exists (t1 ++ t2)%list. split.
    + rewrite E2, E1. symmetry. apply app_assoc.
    + apply Forall_app; auto.
Qed.

#[local] Instance quiet_preorder (P : event -> Prop) : PreOrder (@quiet B P).
Proof.
  split.
  - intros w. repeat split; reflexivity.
  - intros w1 w2 w3 (S1 & F1 & T1) (S2 & F2 & T2).
    repeat split; try congruence. etransitivity; eauto.
Qed.

Lemma respects_emit (P : event -> Prop) (e : event) :
  P e -> respects (@quiet B P) (emit e).
Proof.
  intros He w. simpl. repeat split. exists [e]. split; [ reflexivity | auto ].
Qed.

Lemma respects_call {A} (P : event -> Prop) (op : B -> outcome A * B) :
  respects (@quiet B P) (call op).
Proof.
  intros w. unfold call. destruct (op (w_browser w)) as [r b]. simpl.
  repeat split. exists []. split; [ symmetry; apply app_nil_r | constructor ].
Qed.

Lemma respects_call_total {A} (P : event -> Prop) (op : B -> A * B) :
  respects (@quiet B P) (call_total op).
Proof.
  intros w. unfold call_total. destruct (op (w_browser w)) as [r b]. simpl.
  repeat split. exists []. split; [ symmetry; apply app_nil_r | constructor ].
Qed.

Lemma respects_driver_get (P : event -> Prop) (url : string) :
  P (EvGet url) -> respects (@quiet B P) (driver_get url).
Proof.
  intros He. apply respects_bind; [ apply _ | apply respects_emit, He | intros _; apply respects_call ].
Qed.

Lemma respects_sleep_uniform (P : event -> Prop) (lo hi : Q) :
  P (EvSleep lo hi) -> respects (@quiet B P) (sleep_uniform lo hi).
Proof.
  intros He. apply respects_bind; [ apply _ | apply respects_emit, He | intros _; apply respects_call_total ].
Qed.

Lemma respects_current_url (P : event -> Prop) : respects (@quiet B P) current_url.
Proof. apply respects_gets, _. Qed.

(** [write_to_file] returns, and appends the job's record to the one file
    it names. *)
Lemma write_to_file_written (job : Job) (file_name : string) (w : world B) :
  write_to_file job file_name w = (Ok tt, written w job file_name).
Proof.
  unfold write_to_file, written, append_record, records_in.
  destruct (w_files w !! (file_name ++ ".json")) as [d | ]; reflexivity.
Qed.

(** ** The frame of the applier's methods *)

#[local] Instance same_listing_preorder : PreOrder same_listing.
Proof.
  split.
  - intros j. repeat split.
  - intros j1 j2 j3 (A1 & A2 & A3 & A4 & A5 & A6) (C1 & C2 & C3 & C4 & C5 & C6).
    repeat split; congruence.
Qed.

#[local] Instance quiet_on_job_preorder (P : event -> Prop) :
  PreOrder (@quiet_on_job B P).
Proof.
  split.
  - intros s. split; reflexivity.
  - intros s1 s2 s3 [J1 Q1] [J2 Q2]. split; etransitivity; eauto.
Qed.

Lemma respects_liftW {A} (P : event -> Prop) (m : M (world B) A) :
  respects (@quiet B P) m -> respects (@quiet_on_job B P) (liftW m).
Proof.
  intros Hm [j w]. unfold liftW. simpl. specialize (Hm w).
  destruct (m w) as [r w']. simpl in *. split; [ reflexivity | exact Hm ].
Qed.

Lemma respects_update_job (P : event -> Prop) (f : Job -> Job) :
  (forall j, same_listing j (f j)) ->
  respects (@quiet_on_job B P) (update_job f).
Proof. intros Hf [j w]. simpl. split; [ apply Hf | reflexivity ]. Qed.

Lemma quiet_mono (P P' : event -> Prop) (w w' : world B) :
  (forall e, P e -> P' e) -> quiet P w w' -> quiet P' w w'.
Proof.
  intros Himp (Hs & Hf & t & Et & Ft). repeat split; auto.
  exists t. split; [ exact Et | ]. eapply Forall_impl; eauto.
Qed.

Lemma premium_event_inside (job_link : string) (e : event) :
  premium_event job_link e -> inside_attempt e.
Proof. intros [-> | ->]; repeat split. Qed.

Lemma respects_premium_redirect_loop (job_link : string) (remaining : nat)
      (url : string) :
  respects (@quiet B (premium_event job_link))
           (premium_redirect_loop job_link remaining url).
Proof.
  revert url. induction remaining as [ | n IH]; intros url; simpl;
    destruct (Py.contains premium_pattern url); try (apply respects_ret, _).
  apply respects_bind; [ apply _ | apply respects_driver_get; left; reflexivity | intros _ ].
  apply respects_bind; [ apply _ | apply respects_sleep_uniform; right; reflexivity | intros _ ].
  apply respects_bind; [ apply _ | apply respects_current_url | exact IH ].
Qed.

Lemma respects_check_for_premium_redirect (job : Job) (max_attempts : nat) :
  respects (@quiet B (premium_event (link job)))
           (check_for_premium_redirect job max_attempts).
Proof.
  apply respects_bind; [ apply _ | apply respects_current_url | intros url ].
  apply respects_bind; [ apply _ | apply respects_premium_redirect_loop | intros url' ].
  destruct (Py.contains premium_pattern url'); [ apply respects_raise | apply respects_ret ]; apply _.
Qed.

Lemma respects_check_inside (job : Job) (max_attempts : nat) :
  respects (@quiet_on_job B inside_attempt)
           (liftW (check_for_premium_redirect job max_attempts)).
Proof.
  apply respects_liftW.
  eapply respects_weaken; [ | apply respects_check_for_premium_redirect ].
  intros w w'. apply quiet_mono. apply premium_event_inside.
Qed.

Lemma same_listing_set_job_description (d : string) (j : Job) :
  same_listing j (set_job_description d j).
Proof. repeat split. Qed.

Lemma same_listing_set_recruiter_link (r : string) (j : Job) :
  same_listing j (set_recruiter_link r j).
Proof. repeat split. Qed.

Ltac frame_step :=
  first
    [ apply respects_check_inside
    | apply respects_driver_get; repeat split
    | apply respects_sleep_uniform; repeat split
    | apply respects_emit; repeat split
    | apply respects_ret; apply _
    | apply respects_raise; apply _
    | apply respects_gets; apply _
    | apply respects_bind; [ apply _ | | intros ? ]
    | apply respects_try_except; [ apply _ | | intros ? ]
    | apply respects_update_job; first [ apply same_listing_set_job_description
                                       | apply same_listing_set_recruiter_link ]
    | apply respects_liftW
    | apply respects_call
    | apply respects_call_total ].

Lemma bind_the_job {A} (k : Job -> M (Job * world B) A) (s : Job * world B) :
  bind the_job k s = k (fst s) s.
Proof. reflexivity. Qed.

Lemma bind_liftW_emit {A} (e : event) (k : unit -> M (Job * world B) A)
      (s : Job * world B) :
  bind (liftW (emit e)) k s =
  k tt (fst s, mkWorld (w_self (snd s)) (w_files (snd s)) (w_browser (snd s))
                       (w_trace (snd s) ++ [e])).
Proof. reflexivity. Qed.

(** One attempt leaves the manager and the output directory alone, keeps
    the listing, and logs its entry once. *)
Lemma execute_job_apply_frame (s : Job * world B) :
  let s' := snd (_execute_job_apply s) in
  same_listing (fst s) (fst s')
  /\ w_self (snd s') = w_self (snd s)
  /\ w_files (snd s') = w_files (snd s)
  /\ exists t,
      w_trace (snd s') = (w_trace (snd s) ++ EvExecuteJobApply (link (fst s)) :: t)%list
      /\ Forall inside_attempt t.
Proof.
  unfold _execute_job_apply. rewrite bind_the_job, bind_liftW_emit.
  match goal with
  | |- context [snd (?m (fst s, ?w1))] =>
      set (rest := m); set (s1 := (fst s, w1));
      assert (Hr : respects (@quiet_on_job B inside_attempt) rest)
        by (subst rest; repeat frame_step)
  end.
  pose proof (Hr s1) as Hs1. clear Hr. destruct (rest s1) as [r s']. rename Hs1 into Hr.
  simpl in *. destruct Hr as (Hj & Hs & Hf & t & Et & Ft). simpl in *.
  split; [ exact Hj | split; [ exact Hs | split; [ exact Hf | ] ] ].
  exists t. split; [ | exact Ft ].
  rewrite Et, <- app_assoc. reflexivity.
Qed.

Lemma count_app (p : event -> bool) (t1 t2 : list event) :
  count p (t1 ++ t2) = count p t1 + count p t2.
Proof. unfold count. rewrite List.filter_app, List.length_app. reflexivity. Qed.

Lemma count_inside_attempt (t : list event) :
  Forall inside_attempt t ->
  count is_attempt t = 0 /\ count is_backoff t = 0 /\ count is_write t = 0.
Proof.
  unfold count. induction 1 as [ | e t (Ha & Hb & Hw) _ (IHa & IHb & IHw)]; simpl.
  - auto.
  - rewrite Ha, Hb, Hw. auto.
Qed.

(** The trace of one attempt: one entry, no back-off sleep, no write. *)
Lemma execute_job_apply_counts (s : Job * world B) :
  let s' := snd (_execute_job_apply s) in
  exists t,
    w_trace (snd s') = (w_trace (snd s) ++ t)%list
    /\ count is_attempt t = 1 /\ count is_backoff t = 0 /\ count is_write t = 0.
Proof.
  destruct (execute_job_apply_frame s) as (_ & _ & _ & t & Et & Ft).
  destruct (count_inside_attempt t Ft) as (Ca & Cb & Cw).
  exists (EvExecuteJobApply (link (fst s)) :: t). split; [ exact Et | ].
  unfold count in *. simpl. rewrite Ca, Cb, Cw. auto.
Qed.

Lemma backoff_frame (s : Job * world B) :
  backoff s =
  (fst s, mkWorld (w_self (snd s)) (w_files (snd s))
                  (drv_sleep 2 5 (w_browser (snd s)))
                  (w_trace (snd s) ++ [EvSleep 2 5])).
Proof. reflexivity. Qed.

(** The frame of the retry loop, for any number of attempts. *)
Lemma job_apply_loop_frame (self : DreamBoosterEasyApplier) (attempts : list nat)
      (s : Job * world B) :
  let s' := snd (job_apply_loop self attempts s) in
  same_listing (fst s) (fst s')
  /\ w_self (snd s') = w_self (snd s)
  /\ w_files (snd s') = w_files (snd s)
  /\ exists t,
      w_trace (snd s') = (w_trace (snd s) ++ t)%list
      /\ count is_attempt t <= List.length attempts
      /\ count is_write t = 0.
Proof.
  revert s. induction attempts as [ | attempt rest IH]; intros s; simpl.
  - split; [ reflexivity | ]. split; [ reflexivity | ]. split; [ reflexivity | ].
    exists []. split; [ symmetry; apply app_nil_r | auto ].
  - unfold try_except.
    destruct (execute_job_apply_frame s) as (Hj & Hs & Hf & _).
    destruct (execute_job_apply_counts s) as (t & Et & Ca & _ & Cw).
    destruct (_execute_job_apply s) as [[u | e] s1]; simpl in *.
    + split; [ exact Hj | ]. split; [ exact Hs | ]. split; [ exact Hf | ].
      exists t. split; [ exact Et | ]. split; [ lia | exact Cw ].
    + destruct (attempt =? max_retries self - 1); simpl.
      * split; [ exact Hj | ]. split; [ exact Hs | ]. split; [ exact Hf | ].
        exists t. split; [ exact Et | ]. split; [ lia | exact Cw ].
      * change (bind (liftW (sleep_uniform 2 5)) (fun _ => job_apply_loop self rest) s1)
          with (job_apply_loop self rest (backoff s1)).
        specialize (IH (backoff s1)). rewrite backoff_frame in IH. simpl in IH.
        destruct IH as (Hj' & Hs' & Hf' & t' & Et' & Ca' & Cw').
        rewrite backoff_frame.
        split; [ etransitivity; eauto | ].
        split; [ congruence | ]. split; [ congruence | ].
        exists (t ++ EvSleep 2 5 :: t')%list. split.
        -- rewrite Et', Et, <- !app_assoc. reflexivity.
        -- rewrite !count_app. unfold count in *. simpl. lia.
Qed.

Lemma job_apply_is_three_attempts (loaded : list qa_entry) (s0 : Job * world B) :
  job_apply (DreamBoosterEasyApplier_init loaded) s0 = spec_three_attempts s0.
Proof.
  unfold job_apply, spec_three_attempts. simpl. unfold try_except.
  destruct (_execute_job_apply s0) as [[[] | e1] s1]; [ reflexivity | ].
  change (bind (liftW (sleep_uniform 2 5)) ?k s1) with (k tt (backoff s1)).
  cbv beta.
  destruct (_execute_job_apply (backoff s1)) as [[[] | e2] s2]; [ reflexivity | ].
  change (bind (liftW (sleep_uniform 2 5)) ?k s2) with (k tt (backoff s2)).
  cbv beta.
  destruct (_execute_job_apply (backoff s2)) as [[[] | e3] s3]; reflexivity.
Qed.

Lemma spec_three_attempts_trace (s0 : Job * world B) :
  exists t,
    w_trace (snd (snd (spec_three_attempts s0))) = (w_trace (snd s0) ++ t)%list
    /\ 1 <= count is_attempt t <= 3
    /\ count is_backoff t = count is_attempt t - 1
    /\ (is_ok (fst (spec_three_attempts s0)) = false -> count is_attempt t = 3).
Proof.
  unfold spec_three_attempts.
  destruct (execute_job_apply_counts s0) as (t1 & E1 & A1 & K1 & _).
  destruct (_execute_job_apply s0) as [[[] | e1] s1]; simpl in *.
  { exists t1. rewrite A1, K1. repeat split; auto; discriminate. }
  destruct (execute_job_apply_counts (backoff s1)) as (t2 & E2 & A2 & K2 & _).
  rewrite backoff_frame in E2 at 2. simpl in E2.
  destruct (_execute_job_apply (backoff s1)) as [[[] | e2] s2]; simpl in *.
  { exists (t1 ++ EvSleep 2 5 :: t2)%list. split.
    - rewrite E2, E1, <- !List.app_assoc. reflexivity.
    - rewrite !count_app. unfold count in *. simpl. rewrite A1, K1, A2, K2.
      repeat split; auto; discriminate. }
  destruct (execute_job_apply_counts (backoff s2)) as (t3 & E3 & A3 & K3 & _).
  rewrite backoff_frame in E3 at 2. simpl in E3.
  exists (t1 ++ EvSleep 2 5 :: t2 ++ EvSleep 2 5 :: t3)%list.
  assert (Hc : count is_attempt (t1 ++ EvSleep 2 5 :: t2 ++ EvSleep 2 5 :: t3) = 3
               /\ count is_backoff (t1 ++ EvSleep 2 5 :: t2 ++ EvSleep 2 5 :: t3) = 2).
  { rewrite !count_app. unfold count in *. simpl.
    rewrite !List.filter_app, !List.length_app. simpl. rewrite A1, K1, A2, K2, A3, K3. auto. }
  destruct Hc as [Ha Hk]. rewrite Ha, Hk.
  destruct (_execute_job_apply (backoff s2)) as [[[] | e3] s3]; simpl in *;
    (split; [ rewrite E3, E2, E1, <- !List.app_assoc; simpl; rewrite <- ?List.app_assoc; reflexivity
            | repeat split; auto ]).
Qed.

(** ** The eligibility filter *)

Lemma link_seen_implies_blacklisted (self : DreamBoosterJobManager)
      (job_title company link : string) :
  is_blacklisted self job_title company link = false ->
  is_already_applied_to_job self job_title company link = false.
Proof.
  unfold is_blacklisted, is_already_applied_to_job.
  intros Hb. apply orb_false_iff in Hb. tauto.
Qed.

(** The code's four checks are the specification's three: the second check
    of the code can never fire after the first has passed. *)
Lemma bind_gets {S A C} (f : S -> A) (k : A -> M S C) (s : S) :
  bind (gets f) k s = k (f s) s.
Proof. reflexivity. Qed.

Lemma bind_write_to_file {A} (job : Job) (file_name : string)
      (k : unit -> M (world B) A) (w : world B) :
  bind (write_to_file job file_name) k w = k tt (written w job file_name).
Proof. unfold bind. rewrite write_to_file_written. reflexivity. Qed.

Lemma is_job_suitable_spec (job : Job) (w : world B) :
  is_job_suitable job w = spec_is_job_suitable job w.
Proof.
  unfold is_job_suitable, spec_is_job_suitable. rewrite bind_gets.
  destruct (is_blacklisted (w_self w) (title job) (company job) (link job)) eqn:Hb.
  - rewrite bind_write_to_file. reflexivity.
  - rewrite (link_seen_implies_blacklisted _ _ _ _ Hb), bind_gets.
    destruct (is_already_applied_to_company (w_self w) (w_files w) (company job)).
    + rewrite bind_write_to_file. reflexivity.
    + unfold bind at 1, lift_outcome.
      destruct (matches_job_criteria (w_self w) job) as [[ | ] | e];
        cbv beta iota; cbn [negb]; try reflexivity.
      rewrite bind_write_to_file. reflexivity.
Qed.

Lemma matches_job_criteria_returns (self : DreamBoosterJobManager) (job : Job) :
  keywords self <> [] -> exists b, matches_job_criteria self job = Ok b.
Proof.
  unfold matches_job_criteria. destruct (keywords self) as [ | k ks]; [ congruence | ].
  intros _. simpl. eauto.
Qed.

(** With at least one configured keyword the filter returns a boolean,
    writes one "skipped" record exactly when it answers [False] and touches
    nothing when it answers [True]. *)
Lemma is_job_suitable_frame (job : Job) (w : world B) :
  keywords (w_self w) <> [] ->
  exists b : bool, is_job_suitable job w
            = (Ok b, if b then w else written w job "skipped").
Proof.
  intros Hk. rewrite is_job_suitable_spec. unfold spec_is_job_suitable.
  destruct (is_blacklisted _ _ _ _); [ exists false; reflexivity | ].
  destruct (is_already_applied_to_company _ _ _); [ exists false; reflexivity | ].
  destruct (matches_job_criteria_returns (w_self w) job Hk) as [b ->].
  exists b. destruct b; reflexivity.
Qed.

Lemma is_job_suitable_same_self (job : Job) :
  respects (@same_self B) (is_job_suitable job).
Proof.
  intros w. rewrite is_job_suitable_spec. unfold spec_is_job_suitable, same_self.
  destruct (is_blacklisted _ _ _ _); [ reflexivity | ].
  destruct (is_already_applied_to_company _ _ _); [ reflexivity | ].
  destruct (matches_job_criteria _ _) as [[ | ] | e]; reflexivity.
Qed.

(** ** The apply loop *)

Lemma component_job_apply_frame (s : Job * world B) :
  let s' := snd (component_job_apply s) in
  same_listing (fst s) (fst s')
  /\ w_self (snd s') = w_self (snd s)
  /\ w_files (snd s') = w_files (snd s)
  /\ exists t,
      w_trace (snd s') = (w_trace (snd s) ++ t)%list /\ count is_write t = 0.
Proof.
  unfold component_job_apply, bind, liftW, gets. simpl.
  destruct (easy_applier_component (w_self (snd s))) as [applier | ].
  - destruct s as [j w]. simpl.
    destruct (job_apply_loop_frame applier (seq 0 (max_retries applier)) (j, w))
      as (Hj & Hs & Hf & t & Et & _ & Cw).
    unfold job_apply. simpl in *. repeat (split; [ assumption | ]).
    exists t. auto.
  - destruct s as [j w]. simpl. repeat (split; [ reflexivity | ]).
    exists []. split; [ symmetry; apply app_nil_r | reflexivity ].
Qed.

(** The loop body, case by case. *)
Lemma apply_jobs_body_cases (job : Job) (w : world B) :
  apply_jobs_body job w =
  match is_job_suitable job w with
  | (Raised e, w') => (Raised e, w')
  | (Ok false, w') => (Ok tt, w')
  | (Ok true, w') =>
      if Py.mem (apply_method job) applied_labels then (Ok tt, w')
      else
        match on_job job component_job_apply w' with
        | ((Ok _, job'), w1) => (Ok tt, written w1 job' "success")
        | ((Raised _, job'), w1) => (Ok tt, written w1 job' "failed")
        end
  end.
Proof.
  unfold apply_jobs_body. unfold bind at 1.
  destruct (is_job_suitable job w) as [[[ | ] | e] w']; cbn [negb]; try reflexivity.
  destruct (Py.mem (apply_method job) applied_labels); cbn [negb]; [ reflexivity | ].
  unfold try_except, on_job. unfold bind at 1.
  destruct (component_job_apply (job, w')) as [[[] | e] [job' w1]]; cbn [fst snd].
  - unfold write_the_job. rewrite bind_the_job. unfold liftW. cbn [fst snd].
    rewrite write_to_file_written. reflexivity.
  - unfold write_the_job. rewrite bind_the_job. unfold liftW. cbn [fst snd].
    rewrite write_to_file_written. reflexivity.
Qed.

Lemma gained_total_same (fs : gmap string json_doc) : gained_total fs fs = 0.
Proof. unfold gained_total, gained. simpl. lia. Qed.

Lemma gained_total_append (fs : gmap string json_doc) (file_name : string)
      (r : outcome_record) :
  In file_name outcome_names ->
  gained_total fs (append_record fs file_name r) = 1.
Proof.
  intros [<- | [<- | [<- | []]]];
    unfold gained_total, gained, append_record, records_in; simpl;
    rewrite lookup_insert_eq, !lookup_insert_ne by done;
    simpl; rewrite List.length_app; simpl; lia.
Qed.

(** One pass of the apply loop that returns: either one record of the job
    is appended to one outcome file, or the job is eligible, carries one of
    the three labels and nothing is written. *)
Lemma apply_jobs_body_outcome (job : Job) (w w' : world B) :
  apply_jobs_body job w = (Ok tt, w') ->
  (exists file_name r,
      In file_name outcome_names
      /\ record_for job r
      /\ w_files w' = append_record (w_files w) file_name r
      /\ gained_total (w_files w) (w_files w') = 1
      /\ (fst (is_job_suitable job w) = Ok false /\ file_name = "skipped"
          \/ fst (is_job_suitable job w) = Ok true
             /\ Py.mem (apply_method job) applied_labels = false
             /\ file_name <> "skipped"))
  \/ (fst (is_job_suitable job w) = Ok true
      /\ Py.mem (apply_method job) applied_labels = true
      /\ w_files w' = w_files w
      /\ gained_total (w_files w) (w_files w') = 0).
Proof.
  rewrite apply_jobs_body_cases, is_job_suitable_spec.
  unfold spec_is_job_suitable.
  assert (Hskip : forall v : world B,
             (Ok tt, written w job "skipped") = (Ok tt, v) ->
             exists file_name r,
               In file_name outcome_names /\ record_for job r
               /\ w_files v = append_record (w_files w) file_name r
               /\ gained_total (w_files w) (w_files v) = 1
               /\ file_name = "skipped").
  { intros v Ev. injection Ev as <-. exists "skipped", (record_of job).
    split; [ simpl; auto | ]. split; [ exists job; split; reflexivity | ].
    split; [ reflexivity | ]. split; [ | reflexivity ].
    apply gained_total_append. simpl. auto. }
  destruct (is_blacklisted _ _ _ _).
  { intros Ev. left. destruct (Hskip _ Ev) as (n & r & ? & ? & ? & ? & ?).
    exists n, r. simpl. auto 10. }
  destruct (is_already_applied_to_company _ _ _).
  { intros Ev. left. destruct (Hskip _ Ev) as (n & r & ? & ? & ? & ? & ?).
    exists n, r. simpl. auto 10. }
  destruct (matches_job_criteria (w_self w) job) as [[ | ] | e]; cbn [fst].
  - destruct (Py.mem (apply_method job) applied_labels) eqn:Hlabel.
    + intros Ev. injection Ev as <-. right.
      repeat (split; [ reflexivity | ]). apply gained_total_same.
    + unfold on_job.
      pose proof (component_job_apply_frame (job, w)) as Hframe.
      destruct (component_job_apply (job, w)) as [r [job' w1]].
      cbn [fst snd] in *. destruct Hframe as (Hj & _ & Hf & _).
      assert (Hrec : forall name, In name outcome_names -> name <> "skipped" ->
                 forall v : world B, (Ok tt, written w1 job' name) = (Ok tt, v) ->
                 exists file_name r0,
                   In file_name outcome_names /\ record_for job r0
                   /\ w_files v = append_record (w_files w) file_name r0
                   /\ gained_total (w_files w) (w_files v) = 1
                   /\ file_name <> "skipped").
      { intros name Hin Hne v Ev. injection Ev as <-.
        exists name, (record_of job'). split; [ exact Hin | ].
        split; [ exists job'; split; [ exact Hj | reflexivity ] | ].
        cbn [written w_files]. rewrite Hf. split; [ reflexivity | ].
        split; [ apply gained_total_append, Hin | exact Hne ]. }
      intros Ev. left. destruct r as [[] | e].
      * destruct (Hrec "success" ltac:(simpl; auto) ltac:(discriminate) _ Ev)
          as (n & r0 & ? & ? & ? & ? & ?).
        exists n, r0. auto 10.
      * destruct (Hrec "failed" ltac:(simpl; auto) ltac:(discriminate) _ Ev)
          as (n & r0 & ? & ? & ? & ? & ?).
        exists n, r0. auto 10.
  - intros Ev. left. destruct (Hskip _ Ev) as (n & r & ? & ? & ? & ? & ?).
    exists n, r. simpl. auto 10.
  - discriminate.
Qed.

(** A pass of the loop raises only when the filter does. *)
Lemma apply_jobs_body_raises (job : Job) (w w' : world B) (e : exn) :
  apply_jobs_body job w = (Raised e, w') ->
  is_job_suitable job w = (Raised e, w').
Proof.
  rewrite apply_jobs_body_cases.
  destruct (is_job_suitable job w) as [[[ | ] | e0] w0]; try discriminate.
  - destruct (Py.mem (apply_method job) applied_labels); [ discriminate | ].
    destruct (on_job job component_job_apply w0) as [[[[] | e1] job'] w1];
      discriminate.
  - intros Heq. injection Heq as -> ->. reflexivity.
Qed.

(** The division of [matches_job_criteria] by an empty keyword list. *)
Lemma matches_job_criteria_empty (self : DreamBoosterJobManager) (job : Job) :
  keywords self = [] ->
  matches_job_criteria self job = Raised ZeroDivisionError.
Proof. unfold matches_job_criteria. intros ->. reflexivity. Qed.

(** C1.  With no configured keyword the keyword check divides by zero: it
    raises [ZeroDivisionError] for every job instead of passing it.  This
    is the case of the default configuration, where [set_parameters] binds
    [keywords] to the empty list. *)
Theorem keyword_check_raises_without_keywords :
  (forall (self : DreamBoosterJobManager) (job : Job),
      keywords self = [] ->
      matches_job_criteria self job = Raised ZeroDivisionError)
  /\ (forall (p : parameters) (w : world B) (job : Job),
         match p_job_matching_algorithm p with
         | None => True
         | Some jma => cfg_keywords jma = None \/ cfg_keywords jma = Some []
         end ->
         matches_job_criteria (w_self (snd (set_parameters p w))) job
         = Raised ZeroDivisionError).
Proof.
  split.
  - intros self job Hk. unfold matches_job_criteria. rewrite Hk. reflexivity.
  - intros p w job Hp. unfold matches_job_criteria. simpl.
    destruct (p_job_matching_algorithm p) as [[th kws] | ]; simpl in *.
    + destruct Hp as [-> | ->]; reflexivity.
    + reflexivity.
Qed.

(** C4.  The filter does not return for every job: with no configured
    keyword, a job that passes the blacklist and the company check makes
    it raise [ZeroDivisionError], with no record written. *)
Theorem is_job_suitable_no_keywords (job : Job) (w : world B) :
  keywords (w_self w) = [] ->
  is_blacklisted (w_self w) (title job) (company job) (link job) = false ->
  is_already_applied_to_company (w_self w) (w_files w) (company job) = false ->
  is_job_suitable job w = (Raised ZeroDivisionError, w).
Proof.
  intros Hk Hb Hc. rewrite is_job_suitable_spec. unfold spec_is_job_suitable.
  rewrite Hb, Hc, (matches_job_criteria_empty _ _ Hk). reflexivity.
Qed.

(** ** The company check *)

Lemma any_same_company (company : string) (rs : list outcome_record)
      (r : outcome_record) :
  In r rs -> same_company company r = true ->
  Py.any (same_company company) rs = true.
Proof.
  intros Hin Hr. unfold Py.any. apply existsb_exists. exists r. auto.
Qed.

Lemma is_already_applied_to_company_hit (self : DreamBoosterJobManager)
      (fs : gmap string json_doc) (company : string) (r : outcome_record) :
  apply_once_at_company self = true ->
  In r (records_in fs "success.json") ->
  same_company company r = true ->
  is_already_applied_to_company self fs company = true.
Proof.
  unfold is_already_applied_to_company, records_in. intros -> Hin Hr. simpl.
  destruct (fs !! "success.json") as [d | ]; [ | destruct Hin ].
  rewrite (any_same_company _ _ _ Hin Hr). reflexivity.
Qed.

(** C5.  With [apply_once_at_company] set, a job whose company is, up to
    case and surrounding whitespace, the company of a record of the success
    log is rejected and recorded as skipped; with the flag unset the company
    check blocks no job. *)
Theorem company_dedup :
  (forall (job : Job) (w : world B) (r : outcome_record),
      apply_once_at_company (w_self w) = true ->
      In r (records_in (w_files w) "success.json") ->
      Py.lower (Py.strip (rec_company r)) = Py.lower (Py.strip (company job)) ->
      is_job_suitable job w = (Ok false, written w job "skipped"))
  /\ (forall (self : DreamBoosterJobManager) (fs : gmap string json_doc)
             (company : string),
         apply_once_at_company self = false ->
         is_already_applied_to_company self fs company = false).
Proof.
  split.
  - intros job w r Honce Hin Hsame.
    rewrite is_job_suitable_spec. unfold spec_is_job_suitable.
    destruct (is_blacklisted _ _ _ _); [ reflexivity | ].
    rewrite (is_already_applied_to_company_hit _ _ _ r Honce Hin); [ reflexivity | ].
    unfold same_company. rewrite Hsame. apply String.eqb_refl.
  - intros self fs company Honce. unfold is_already_applied_to_company.
    rewrite Honce. reflexivity.
Qed.

(** ** The premium-redirect check *)

Lemma premium_redirect_loop_done (job_link : string) (remaining : nat)
      (url : string) (w : world B) :
  Py.contains premium_pattern url = false ->
  premium_redirect_loop job_link remaining url w = (Ok url, w).
Proof. intros Hu. destruct remaining; simpl; rewrite Hu; reflexivity. Qed.

Lemma premium_redirect_loop_step (job_link : string) (remaining : nat)
      (url : string) (w : world B) :
  Py.contains premium_pattern url = true ->
  premium_redirect_loop job_link (S remaining) url w =
  match drv_get job_link (w_browser w) with
  | (Ok _, b1) =>
      let w2 := mkWorld (w_self w) (w_files w) (drv_sleep 2 2 b1)
                        (w_trace w ++ [EvGet job_link; EvSleep 2 2]) in
      premium_redirect_loop job_link remaining (drv_current_url (w_browser w2)) w2
  | (Raised e, b1) =>
      (Raised e, mkWorld (w_self w) (w_files w) b1 (w_trace w ++ [EvGet job_link]))
  end.
Proof.
  intros Hu. simpl. rewrite Hu.
  unfold driver_get, sleep_uniform, current_url, bind, emit, call, call_total,
    modify, gets. simpl.
  destruct (drv_get job_link (w_browser w)) as [[[] | e] b1]; simpl;
    [ rewrite <- List.app_assoc | ]; reflexivity.
Qed.

Lemma premium_redirect_loop_spec (job_link : string) (remaining : nat) :
  forall (url : string) (w : world B),
    url = drv_current_url (w_browser w) ->
    let r := premium_redirect_loop job_link remaining url w in
    exists t,
      w_trace (snd r) = (w_trace w ++ t)%list
      /\ count is_get t <= remaining
      /\ (Py.contains premium_pattern url = true -> 0 < remaining ->
          1 <= count is_get t)
      /\ match fst r with
         | Ok u =>
             u = drv_current_url (w_browser (snd r))
             /\ (Py.contains premium_pattern u = true -> count is_get t = remaining)
         | Raised e => exists b, fst (drv_get job_link b) = Raised e
         end.
Proof.
  induction remaining as [ | n IH]; intros url w Hurl.
  - exists []. simpl.
    destruct (Py.contains premium_pattern url); simpl;
      (split; [ symmetry; apply app_nil_r | ]); (split; [ reflexivity | ]);
      (split; [ lia | ]); auto.
  - destruct (Py.contains premium_pattern url) eqn:Hu.
    + rewrite (premium_redirect_loop_step _ _ _ _ Hu).
      destruct (drv_get job_link (w_browser w)) as [[[] | e] b1] eqn:Hget.
      * cbv zeta.
        set (w2 := mkWorld (w_self w) (w_files w) (drv_sleep 2 2 b1)
                           (w_trace w ++ [EvGet job_link; EvSleep 2 2])).
        destruct (IH (drv_current_url (w_browser w2)) w2 eq_refl)
          as (t & Et & Cn & _ & Hr).
        exists (EvGet job_link :: EvSleep 2 2 :: t).
        split; [ rewrite Et; subst w2; simpl; rewrite <- List.app_assoc; reflexivity | ].
        change (count is_get (EvGet job_link :: EvSleep 2 2 :: t))
          with (S (count is_get t)).
        split; [ lia | ]. split; [ lia | ].
        destruct (fst (premium_redirect_loop job_link n
                         (drv_current_url (w_browser w2)) w2)) as [u | e].
        -- destruct Hr as [Hu' Hn]. split; [ exact Hu' | ].
           intros Hc. rewrite (Hn Hc). reflexivity.
        -- exact Hr.
      * exists [EvGet job_link]. simpl.
        split; [ reflexivity | ]. split; [ unfold count; simpl; lia | ].
        split; [ unfold count; simpl; lia | ].
        exists (w_browser w). rewrite Hget. reflexivity.
    + rewrite (premium_redirect_loop_done _ _ _ _ Hu). exists []. simpl.
      split; [ symmetry; apply app_nil_r | ]. split; [ unfold count; simpl; lia | ].
      split; [ discriminate | ]. split; [ exact Hurl | ].
      rewrite Hu. discriminate.
Qed.

Lemma premium_redirect_loop_return (job_link : string) (remaining : nat)
      (url : string) (w : world B) :
  Py.contains premium_pattern url = true ->
  premium_redirect_loop job_link (S remaining) url w =
  match return_to_job job_link w with
  | (Ok _, w2) =>
      premium_redirect_loop job_link remaining (drv_current_url (w_browser w2)) w2
  | (Raised e, w1) => (Raised e, w1)
  end.
Proof.
  intros Hu. rewrite (premium_redirect_loop_step _ _ _ _ Hu). unfold return_to_job.
  destruct (drv_get job_link (w_browser w)) as [[[] | e] b1]; reflexivity.
Qed.

Lemma check_for_premium_redirect_is_spec (job : Job) (w : world B) :
  check_for_premium_redirect job 3 w = spec_premium_check job w.
Proof.
  unfold check_for_premium_redirect, current_url. rewrite bind_gets. unfold bind.
  unfold spec_premium_check, on_premium_page.
  destruct (Py.contains premium_pattern (drv_current_url (w_browser w))) eqn:H0.
  2:{ rewrite (premium_redirect_loop_done _ _ _ _ H0), H0. reflexivity. }
  rewrite (premium_redirect_loop_return _ _ _ _ H0).
  destruct (return_to_job (link job) w) as [[[] | e1] w1]; [ | reflexivity ].
  destruct (Py.contains premium_pattern (drv_current_url (w_browser w1))) eqn:H1.
  2:{ rewrite (premium_redirect_loop_done _ _ _ _ H1), H1. reflexivity. }
  rewrite (premium_redirect_loop_return _ _ _ _ H1).
  destruct (return_to_job (link job) w1) as [[[] | e2] w2]; [ | reflexivity ].
  destruct (Py.contains premium_pattern (drv_current_url (w_browser w2))) eqn:H2.
  2:{ rewrite (premium_redirect_loop_done _ _ _ _ H2), H2. reflexivity. }
  rewrite (premium_redirect_loop_return _ _ _ _ H2).
  destruct (return_to_job (link job) w2) as [[[] | e3] w3]; [ | reflexivity ].
  simpl.
  destruct (Py.contains premium_pattern (drv_current_url (w_browser w3))) eqn:H3;
    simpl; rewrite H3; reflexivity.
Qed.

(** The first premium check of an attempt is made outside every [try]:
    its error is the error of the attempt, raised in the state the check
    left, with no discard and no wrapper. *)
Lemma execute_job_apply_first_check (job : Job) (w0 : world B) (b1 : B) (e : exn) :
  drv_get (link job) (w_browser w0) = (Ok tt, b1) ->
  fst (check_for_premium_redirect job 3 (after_first_navigation job w0 b1)) = Raised e ->
  _execute_job_apply (job, w0)
  = (Raised e,
     (job, snd (check_for_premium_redirect job 3 (after_first_navigation job w0 b1)))).
Proof.
  intros Hget Hck. unfold _execute_job_apply.
  rewrite bind_the_job, bind_liftW_emit. cbn [fst snd].
  unfold bind at 1. unfold try_except at 1, liftW at 1, driver_get, bind at 1.
  unfold emit, modify, call. cbn [fst snd w_browser w_self w_files w_trace].
  rewrite Hget. cbn [fst snd].
  unfold bind at 1. unfold liftW at 1, sleep_uniform, bind at 1.
  unfold emit, modify, call_total. cbn [fst snd w_browser w_self w_files w_trace].
  unfold bind at 1. unfold liftW at 1. cbn [fst snd].
  repeat rewrite <- List.app_assoc. cbn [List.app].
  fold (after_first_navigation job w0 b1).
  destruct (check_for_premium_redirect job 3 (after_first_navigation job w0 b1))
    as [[[] | x] w'] eqn:Hrun; cbn [fst snd] in *; [ discriminate Hck | ].
  injection Hck as ->. reflexivity.
Qed.

(** The two later premium checks of an attempt are made inside the
    [try]: their error is raised wrapped, after the application was
    discarded. *)
Lemma execute_job_apply_second_check (job : Job) (w0 w2 : world B) (b1 b3 : B)
      (e : exn) :
  drv_get (link job) (w_browser w0) = (Ok tt, b1) ->
  check_for_premium_redirect job 3 (after_first_navigation job w0 b1) = (Ok tt, w2) ->
  drv_blur (w_browser w2) = (Ok tt, b3) ->
  fst (check_for_premium_redirect job 3 (with_browser w2 b3)) = Raised e ->
  _execute_job_apply (job, w0)
  = (Raised (ApplyFailed e),
     (job, discarded (snd (check_for_premium_redirect job 3 (with_browser w2 b3))))).
Proof.
  intros Hget Hck1 Hblur Hck2. unfold _execute_job_apply.
  rewrite bind_the_job, bind_liftW_emit. cbn [fst snd].
  unfold bind at 1. unfold try_except at 1, liftW at 1, driver_get, bind at 1.
  unfold emit, modify, call. cbn [fst snd w_browser w_self w_files w_trace].
  rewrite Hget. cbn [fst snd].
  unfold bind at 1. unfold liftW at 1, sleep_uniform, bind at 1.
  unfold emit, modify, call_total. cbn [fst snd w_browser w_self w_files w_trace].
  unfold bind at 1. unfold liftW at 1. cbn [fst snd].
  repeat rewrite <- List.app_assoc. cbn [List.app].
  fold (after_first_navigation job w0 b1). rewrite Hck1.
  unfold try_except. unfold bind at 1. unfold liftW at 1.
  cbn [fst snd w_browser w_self w_files w_trace]. rewrite Hblur.
  fold (with_browser w2 b3). unfold bind at 1. unfold liftW at 1. cbn [fst snd].
  destruct (check_for_premium_redirect job 3 (with_browser w2 b3))
    as [[[] | x] w4] eqn:Hrun; cbn [fst snd] in *; [ discriminate Hck2 | ].
  injection Hck2 as ->. reflexivity.
Qed.

Lemma execute_job_apply_third_check (job : Job) (w0 w2 w4 : world B)
      (b1 b3 b5 : B) (easy_apply_button : nat) (e : exn) :
  drv_get (link job) (w_browser w0) = (Ok tt, b1) ->
  check_for_premium_redirect job 3 (after_first_navigation job w0 b1) = (Ok tt, w2) ->
  drv_blur (w_browser w2) = (Ok tt, b3) ->
  check_for_premium_redirect job 3 (with_browser w2 b3) = (Ok tt, w4) ->
  dom_find_easy_apply_button job (w_browser w4) = (Ok easy_apply_button, b5) ->
  fst (check_for_premium_redirect job 3 (with_browser w4 b5)) = Raised e ->
  _execute_job_apply (job, w0)
  = (Raised (ApplyFailed e),
     (job, discarded (snd (check_for_premium_redirect job 3 (with_browser w4 b5))))).
Proof.
  intros Hget Hck1 Hblur Hck2 Hfind Hck3. unfold _execute_job_apply.
  rewrite bind_the_job, bind_liftW_emit. cbn [fst snd].
  unfold bind at 1. unfold try_except at 1, liftW at 1, driver_get, bind at 1.
  unfold emit, modify, call. cbn [fst snd w_browser w_self w_files w_trace].
  rewrite Hget. cbn [fst snd].
  unfold bind at 1. unfold liftW at 1, sleep_uniform, bind at 1.
  unfold emit, modify, call_total. cbn [fst snd w_browser w_self w_files w_trace].
  unfold bind at 1. unfold liftW at 1. cbn [fst snd].
  repeat rewrite <- List.app_assoc. cbn [List.app].
  fold (after_first_navigation job w0 b1). rewrite Hck1.
  unfold try_except. unfold bind at 1. unfold liftW at 1.
  cbn [fst snd w_browser w_self w_files w_trace]. rewrite Hblur.
  fold (with_browser w2 b3). unfold bind at 1. unfold liftW at 1. cbn [fst snd].
  rewrite Hck2. unfold bind at 1. unfold liftW at 1.
  cbn [fst snd w_browser w_self w_files w_trace]. rewrite Hfind.
  fold (with_browser w4 b5). unfold bind at 1. unfold liftW at 1. cbn [fst snd].
  destruct (check_for_premium_redirect job 3 (with_browser w4 b5))
    as [[[] | x] w6] eqn:Hrun; cbn [fst snd] in *; [ discriminate Hck3 | ].
  injection Hck3 as ->. reflexivity.
Qed.

(** C7.  The premium-redirect check with its default of three attempts is
    the cascade of the specification: while the browser shows a premium
    page it navigates to the job link and sleeps two seconds, up to three
    times.  It does nothing when the current URL is not a premium page; it
    returns only on a URL that is not a premium page; it raises when the
    URL is still a premium page after the third navigation (or when a
    navigation itself raises).  The error reaches the caller and is not
    swallowed by the attempt: raised by the first check of an attempt it
    is the error of that attempt, raised by one of the two later checks it
    is wrapped after the application was discarded.  It ends the attempt,
    not the job: after a failed first attempt [job_apply] backs off and
    runs the attempt again, and raises only what the third attempt
    raises. *)
Theorem check_for_premium_redirect_outcome (job : Job) (w : world B) :
  let r := check_for_premium_redirect job 3 w in
  r = spec_premium_check job w
  /\ (on_premium_page w = false -> r = (Ok tt, w))
  /\ w_self (snd r) = w_self w
  /\ w_files (snd r) = w_files w
  /\ (exists t,
      w_trace (snd r) = (w_trace w ++ t)%list
      /\ Forall (premium_event (link job)) t
      /\ count is_get t <= 3
      /\ (on_premium_page w = true -> 1 <= count is_get t)
      /\ match fst r with
         | Ok _ => on_premium_page (snd r) = false
         | Raised e =>
             (e = PremiumRedirectError 3
              /\ count is_get t = 3
              /\ on_premium_page (snd r) = true)
             \/ (exists b, fst (drv_get (link job) b) = Raised e)
         end)
  /\ (forall (w0 : world B) (b1 : B) (e : exn),
         drv_get (link job) (w_browser w0) = (Ok tt, b1) ->
         w = after_first_navigation job w0 b1 ->
         fst r = Raised e ->
         _execute_job_apply (job, w0) = (Raised e, (job, snd r)))
  /\ (forall (w0 w2 : world B) (b1 b3 : B) (e : exn),
         drv_get (link job) (w_browser w0) = (Ok tt, b1) ->
         check_for_premium_redirect job 3 (after_first_navigation job w0 b1)
         = (Ok tt, w2) ->
         drv_blur (w_browser w2) = (Ok tt, b3) ->
         w = with_browser w2 b3 ->
         fst r = Raised e ->
         _execute_job_apply (job, w0)
         = (Raised (ApplyFailed e), (job, discarded (snd r))))
  /\ (forall (w0 w2 w4 : world B) (b1 b3 b5 : B) (easy_apply_button : nat)
             (e : exn),
         drv_get (link job) (w_browser w0) = (Ok tt, b1) ->
         check_for_premium_redirect job 3 (after_first_navigation job w0 b1)
         = (Ok tt, w2) ->
         drv_blur (w_browser w2) = (Ok tt, b3) ->
         check_for_premium_redirect job 3 (with_browser w2 b3) = (Ok tt, w4) ->
         dom_find_easy_apply_button job (w_browser w4) = (Ok easy_apply_button, b5) ->
         w = with_browser w4 b5 ->
         fst r = Raised e ->
         _execute_job_apply (job, w0)
         = (Raised (ApplyFailed e), (job, discarded (snd r))))
  /\ (forall (loaded : list qa_entry) (s : Job * world B) (e : exn),
         fst (_execute_job_apply s) = Raised e ->
         job_apply (DreamBoosterEasyApplier_init loaded) s
         = match _execute_job_apply (backoff (snd (_execute_job_apply s))) with
           | (Ok _, s2) => (Ok tt, s2)
           | (Raised _, s2) =>
               match _execute_job_apply (backoff s2) with
               | (Ok _, s3) => (Ok tt, s3)
               | (Raised e3, s3) => (Raised e3, s3)
               end
           end).
Proof.
  intros r.
  destruct (respects_check_for_premium_redirect job 3 w)
    as (Hself & Hfiles & t0 & Et0 & Ft0).
  fold r in Hself, Hfiles, Et0.
  split; [ apply check_for_premium_redirect_is_spec | ].
  split.
  { intros Hu. subst r. rewrite check_for_premium_redirect_is_spec.
    unfold spec_premium_check. rewrite Hu. reflexivity. }
  split; [ exact Hself | ]. split; [ exact Hfiles | ].
  split.
  { unfold on_premium_page.
    destruct (premium_redirect_loop_spec (link job) 3 _ w eq_refl)
      as (t & Et & Cn & Hfirst & Hr).
    assert (Hrun : r = match premium_redirect_loop (link job) 3
                               (drv_current_url (w_browser w)) w with
                       | (Ok u, w') =>
                           if Py.contains premium_pattern u
                           then (Raised (PremiumRedirectError 3), w')
                           else (Ok tt, w')
                       | (Raised e, w') => (Raised e, w')
                       end).
    { subst r. unfold check_for_premium_redirect, current_url.
      rewrite bind_gets. unfold bind.
      destruct (premium_redirect_loop (link job) 3 _ w) as [[u | e] w']; [ | reflexivity ].
      destruct (Py.contains premium_pattern u); reflexivity. }
    destruct (premium_redirect_loop (link job) 3 (drv_current_url (w_browser w)) w)
      as [[u | e] w'] eqn:Hloop; cbn [fst snd] in *.
    - destruct Hr as [Hu Hn].
      destruct (Py.contains premium_pattern u) eqn:Hc; rewrite Hrun; cbn [fst snd];
        exists t; (split; [ exact Et | ]).
      + assert (t0 = t) as ->.
        { rewrite Hrun in Et0. cbn [snd] in Et0. rewrite Et in Et0.
          apply app_inv_head in Et0. auto. }
        split; [ exact Ft0 | ]. split; [ exact Cn | ].
        split; [ intros Hw; apply Hfirst; [ exact Hw | lia ] | ].
        left. split; [ reflexivity | ]. split; [ auto | ]. rewrite <- Hu. exact Hc.
      + assert (t0 = t) as ->.
        { rewrite Hrun in Et0. cbn [snd] in Et0. rewrite Et in Et0.
          apply app_inv_head in Et0. auto. }
        split; [ exact Ft0 | ]. split; [ exact Cn | ].
        split; [ intros Hw; apply Hfirst; [ exact Hw | lia ] | ].
        rewrite <- Hu. exact Hc.
    - rewrite Hrun; cbn [fst snd]. exists t. split; [ exact Et | ].
      assert (t0 = t) as ->.
      { rewrite Hrun in Et0. cbn [snd] in Et0. rewrite Et in Et0.
        apply app_inv_head in Et0. auto. }
      split; [ exact Ft0 | ]. split; [ exact Cn | ].
      split; [ intros Hw; apply Hfirst; [ exact Hw | lia ] | ].
      right. exact Hr. }
  split.
  { intros w0 b1 e Hget -> He. apply execute_job_apply_first_check; assumption. }
  split.
  { intros w0 w2 b1 b3 e Hget Hck1 Hblur -> He.
    apply (execute_job_apply_second_check job w0 w2 b1 b3 e); assumption. }
  split.
  { intros w0 w2 w4 b1 b3 b5 button e Hget Hck1 Hblur Hck2 Hfind -> He.
    apply (execute_job_apply_third_check job w0 w2 w4 b1 b3 b5 button e); assumption. }
  intros loaded s e He. rewrite job_apply_is_three_attempts. unfold spec_three_attempts.
  destruct (_execute_job_apply s) as [[[] | e1] s1]; cbn [fst snd] in *;
    [ discriminate He | reflexivity ].
Qed.

(** ** The form fillers *)

Lemma nth_tl {A} (k : nat) (l : list A) (d : A) : nth k (tl l) d = nth (S k) l d.
Proof. destruct l as [ | x l]; [ destruct k | ]; reflexivity. Qed.

Lemma length_tl {A} (l : list A) : List.length (tl l) = List.length l - 1.
Proof. destruct l; simpl; lia. Qed.

Lemma index_of_text_nth (options : list string) :
  forall k, k < List.length options ->
    exists i,
      index_of_text options (nth k options EmptyString) = Some i
      /\ i <= k
      /\ nth i options EmptyString = nth k options EmptyString
      /\ (forall j, j < i -> nth j options EmptyString <> nth k options EmptyString).
Proof.
  induction options as [ | o rest IH]; intros k Hk; simpl in Hk; [ lia | ].
  destruct k as [ | k].
  - exists 0. simpl. rewrite String.eqb_refl.
    split; [ reflexivity | ]. split; [ lia | ]. split; [ reflexivity | ].
    intros j Hj. lia.
  - cbn [nth index_of_text].
    destruct (String.eqb_spec o (nth k rest EmptyString)) as [Heq | Hne].
    + exists 0. split; [ reflexivity | ]. split; [ lia | ]. split; [ exact Heq | ].
      intros j Hj. lia.
    + destruct (IH k ltac:(lia)) as (i & Hi & Hle & Hnth & Hbefore).
      exists (S i). rewrite Hi. split; [ reflexivity | ]. split; [ lia | ].
      split; [ exact Hnth | ].
      intros [ | j] Hj; [ exact Hne | ]. apply Hbefore. lia.
Qed.

Lemma index_of_text_nodup (options : list string) (k : nat) :
  List.NoDup options -> k < List.length options ->
  index_of_text options (nth k options EmptyString) = Some k.
Proof.
  intros Hnd Hk. destruct (index_of_text_nth options k Hk) as (i & Hi & Hle & Hnth & _).
  rewrite Hi. f_equal.
  apply (proj1 (List.NoDup_nth options EmptyString) Hnd); [ lia | exact Hk | exact Hnth ].
Qed.

Lemma handle_dropdown_fields_run (options : list string) (w : world B) :
  2 <= List.length options ->
  let draw := rng_randbelow (List.length options - 1) (w_browser w) in
  let selected_option := nth (S (fst draw)) options EmptyString in
  let selection := dom_select_by_visible_text selected_option (snd draw) in
  _handle_dropdown_fields options w
  = (fst selection,
     mkWorld (w_self w) (w_files w) (snd selection)
             (w_trace w ++ [EvSelectByVisibleText selected_option])).
Proof.
  intros Hlen. cbv zeta. unfold _handle_dropdown_fields.
  destruct (Nat.ltb_spec 1 (List.length options)) as [_ | Hle]; [ | lia ].
  unfold bind, call_total, call, emit, modify. rewrite length_tl.
  destruct (rng_randbelow (List.length options - 1) (w_browser w)) as [k b1].
  cbn [fst snd w_browser w_self w_files w_trace]. rewrite nth_tl.
  destruct (dom_select_by_visible_text (nth (S k) options EmptyString) b1)
    as [r b2].
  reflexivity.
Qed.

(** C8.  [_handle_dropdown_fields] looks up the first [select] of the
    section (and raises when there is none).  With at most one option it
    selects nothing.  With two or more it makes one draw [k] below the
    number of options after the first and hands the text of the option at
    index [k + 1] to [select_by_visible_text].  The browser resolves that
    text to the first option that shows it: this is index 0, the
    placeholder, exactly when the placeholder shows the text drawn.  When
    the texts of the options are pairwise distinct the option selected is
    the one at index [k + 1], and every index from 1 on is selected for
    exactly one value of the draw. *)
Theorem handle_dropdown_fields_choice (element : form_element) (w : world B) :
  (find_elements_by_tag "select" element = [] ->
   handle_dropdown_of element w = (Raised no_such_element, w))
  /\ (forall dropdown others,
        find_elements_by_tag "select" element = dropdown :: others ->
        let options := node_options dropdown in
        (List.length options <= 1 -> handle_dropdown_of element w = (Ok tt, w))
        /\ (2 <= List.length options ->
            let draw := rng_randbelow (List.length options - 1) (w_browser w) in
            let k := fst draw in
            let selected_option := nth (S k) options EmptyString in
            let selection := dom_select_by_visible_text selected_option (snd draw) in
            S k < List.length options
            /\ handle_dropdown_of element w
               = (fst selection,
                  mkWorld (w_self w) (w_files w) (snd selection)
                          (w_trace w ++ [EvSelectByVisibleText selected_option]))
            /\ exists i,
                 index_of_text options selected_option = Some i
                 /\ i <= S k
                 /\ nth i options EmptyString = selected_option
                 /\ (forall j, j < i -> nth j options EmptyString <> selected_option)
                 /\ (i = 0 <-> nth 0 options EmptyString = selected_option)
                 /\ (List.NoDup options -> i = S k)))
  /\ (forall options : list string,
        List.NoDup options ->
        forall i, 1 <= i < List.length options ->
          exists k,
            k < List.length options - 1
            /\ index_of_text options (nth (S k) options EmptyString) = Some i
            /\ (forall k', k' < List.length options - 1 ->
                   index_of_text options (nth (S k') options EmptyString) = Some i ->
                   k' = k)).
Proof.
  split; [ | split ].
  - intros Hnone. unfold handle_dropdown_of, bind. rewrite Hnone. reflexivity.
  - intros dropdown others Hfound options.
    assert (Hrun : handle_dropdown_of element w = _handle_dropdown_fields options w).
    { unfold handle_dropdown_of, bind. rewrite Hfound. reflexivity. }
    split.
    + intros Hlen. rewrite Hrun. unfold _handle_dropdown_fields.
      destruct (Nat.ltb_spec 1 (List.length options)) as [Hlt | _];
        [ lia | reflexivity ].
    + intros Hlen. cbv zeta.
      assert (Hk : fst (rng_randbelow (List.length options - 1) (w_browser w))
                   < List.length options - 1)
        by (apply rng_randbelow_lt; lia).
      set (k := fst (rng_randbelow (List.length options - 1) (w_browser w))) in *.
      split; [ lia | ].
      split; [ rewrite Hrun; apply (handle_dropdown_fields_run options w Hlen) | ].
      destruct (index_of_text_nth options (S k) ltac:(lia))
        as (i & Hi & Hle & Hnth & Hbefore).
      exists i. split; [ exact Hi | ]. split; [ exact Hle | ].
      split; [ exact Hnth | ]. split; [ exact Hbefore | ]. split.
      * split.
        -- intros ->. exact Hnth.
        -- intros H0. destruct i as [ | i]; [ reflexivity | ].
           exfalso. apply (Hbefore 0); [ lia | exact H0 ].
      * intros Hnd. rewrite (index_of_text_nodup options (S k) Hnd) in Hi by lia.
        injection Hi as <-. reflexivity.
  - intros options Hnd i Hi. exists (i - 1).
    split; [ lia | ]. split.
    + replace (S (i - 1)) with i by lia. apply index_of_text_nodup; [ exact Hnd | lia ].
    + intros k' Hk' Hsel.
      rewrite (index_of_text_nodup options (S k') Hnd) in Hsel by lia.
      injection Hsel as <-. lia.
Qed.

Lemma lookup_answer_some (data : list qa_entry) (q a : string) :
  lookup_answer data q = Some a ->
  exists pre item post,
    data = (pre ++ item :: post)%list
    /\ (forall x, In x pre -> Py.lower (question x) <> Py.lower q)
    /\ Py.lower (question item) = Py.lower q
    /\ answer item = a.
Proof.
  induction data as [ | x data IH]; simpl; [ discriminate | ].
  destruct (String.eqb_spec (Py.lower (question x)) (Py.lower q)) as [Heq | Hne].
  - intros [= <-]. exists [], x, data.
    split; [ reflexivity | ]. split; [ intros y [] | ]. split; [ exact Heq | reflexivity ].
  - intros Hl. destruct (IH Hl) as (pre & item & post & -> & Hpre & Hq & Ha).
    exists (x :: pre), item, post.
    split; [ reflexivity | ]. split; [ | split; [ exact Hq | exact Ha ] ].
    intros y [<- | Hy]; auto.
Qed.

Lemma lookup_answer_none (data : list qa_entry) (q : string) :
  lookup_answer data q = None <->
  (forall item, In item data -> Py.lower (question item) <> Py.lower q).
Proof.
  induction data as [ | x data IH]; simpl.
  - split; [ intros _ item [] | reflexivity ].
  - destruct (String.eqb_spec (Py.lower (question x)) (Py.lower q)) as [Heq | Hne].
    + split; [ discriminate | ]. intros Hall. destruct (Hall x); auto.
    + rewrite IH. split.
      * intros Hall item [<- | Hin]; auto.
      * intros Hall item Hin. apply Hall. auto.
Qed.

(** C9.  A question that equals, up to case, the question of a stored
    entry is answered with the answer of a stored entry, in an unchanged
    world: the external answerer is not called.  On ASCII text, where the
    comparison of the model is that of [str.lower], the entry is the first
    one that matches, and the answerer is called, once and with the
    question, exactly when no entry matches. *)
Theorem get_answer_for_question_lookup (self : DreamBoosterEasyApplier)
        (q : string) (w : world B) :
  let r := _get_answer_for_question self q w in
  ((exists item, In item (all_data self)
                 /\ Py.lower (question item) = Py.lower q) ->
   snd r = w
   /\ exists item, In item (all_data self) /\ fst r = Ok (answer item))
  /\ (Py.isascii q = true ->
      (forall item, In item (all_data self) -> Py.isascii (question item) = true) ->
      ((exists item, In item (all_data self)
                     /\ Py.lower (question item) = Py.lower q) ->
       exists pre item post,
         all_data self = (pre ++ item :: post)%list
         /\ (forall x, In x pre -> Py.lower (question x) <> Py.lower q)
         /\ Py.lower (question item) = Py.lower q
         /\ r = (Ok (answer item), w))
      /\ ((forall item, In item (all_data self) ->
                        Py.lower (question item) <> Py.lower q) ->
          let reply := gpt_answer_question q (w_browser w) in
          r = (fst reply,
               mkWorld (w_self w) (w_files w) (snd reply)
                       (w_trace w ++ [EvAnswerQuestion q])))
      /\ (w_trace (snd r) <> w_trace w <->
          (forall item, In item (all_data self) ->
                        Py.lower (question item) <> Py.lower q))).
Proof.
  cbv zeta. unfold _get_answer_for_question.
  destruct (lookup_answer (all_data self) q) as [a | ] eqn:Hl.
  - destruct (lookup_answer_some _ _ _ Hl) as (pre & item & post & Hd & Hpre & Hq & <-).
    assert (Hin : In item (all_data self)).
    { rewrite Hd. apply in_or_app. right. left. reflexivity. }
    split; [ intros _; split; [ reflexivity | exists item; split; [ exact Hin | reflexivity ] ] | ].
    intros _ _.
    split; [ intros _; exists pre, item, post; auto | ].
    assert (Hno : ~ (forall x, In x (all_data self) ->
                         Py.lower (question x) <> Py.lower q)).
    { intros Hall. apply (Hall item); [ exact Hin | exact Hq ]. }
    split; [ intros Hall; contradiction | ].
    split; [ intros Hne; exfalso; apply Hne; reflexivity | intros Hall; contradiction ].
  - pose proof (proj1 (lookup_answer_none _ _) Hl) as Hall.
    split; [ intros (item & Hin & Hq); destruct (Hall item Hin Hq) | ].
    intros _ _.
    split; [ intros (item & Hin & Hq); destruct (Hall item Hin Hq) | ].
    assert (Hrun : bind (emit (EvAnswerQuestion q)) (fun _ => call (gpt_answer_question q)) w
                   = (fst (gpt_answer_question q (w_browser w)),
                      mkWorld (w_self w) (w_files w)
                              (snd (gpt_answer_question q (w_browser w)))
                              (w_trace w ++ [EvAnswerQuestion q]))).
    { unfold bind, emit, call, modify. cbn [w_browser w_self w_files w_trace].
      destruct (gpt_answer_question q (w_browser w)); reflexivity. }
    rewrite Hrun. split; [ intros _; reflexivity | ].
    split; [ intros _; exact Hall | ]. intros _. cbn [snd w_trace].
    intros Heq. apply (f_equal (@List.length event)) in Heq.
    rewrite List.length_app in Heq. simpl in Heq. lia.
Qed.

(** ** The retry loop *)

(** The caller of [job_apply]: an eligible job whose apply method is not
    one of the three labels gets one record, "success" when [job_apply]
    returns and "failed" when it raises, whatever the number of attempts. *)
Lemma apply_jobs_body_after_job_apply (self : DreamBoosterEasyApplier)
      (job : Job) (w : world B) :
  is_job_suitable job w = (Ok true, w) ->
  Py.mem (apply_method job) applied_labels = false ->
  easy_applier_component (w_self w) = Some self ->
  let r := on_job job (job_apply self) w in
  apply_jobs_body job w
  = (Ok tt, written (snd r) (snd (fst r))
                    (if is_ok (fst (fst r)) then "success" else "failed")).
Proof.
  intros Hs Hl Hc. cbv zeta. rewrite apply_jobs_body_cases, Hs, Hl.
  unfold on_job, component_job_apply, bind, liftW, gets. cbn [fst snd].
  rewrite Hc.
  destruct (job_apply self (job, w)) as [[[] | e] [job' w1]]; reflexivity.
Qed.

(** C6.  [job_apply] of an applier as [__init__] builds it runs the apply
    sequence at most three times: it returns at the first attempt that
    succeeds, sleeps a random two to five seconds after a failed first or
    second attempt, and raises the exception of the third failed attempt.
    It writes no outcome record itself; its caller in the apply loop then
    writes exactly one, "success" when [job_apply] returned. *)
Theorem job_apply_three_attempts (loaded : list qa_entry) (s0 : Job * world B) :
  let self := DreamBoosterEasyApplier_init loaded in
  job_apply self s0 = spec_three_attempts s0
  /\ w_files (snd (snd (job_apply self s0))) = w_files (snd s0)
  /\ (exists t,
         w_trace (snd (snd (job_apply self s0))) = (w_trace (snd s0) ++ t)%list
         /\ 1 <= count is_attempt t <= 3
         /\ count is_backoff t = count is_attempt t - 1
         /\ count is_write t = 0
         /\ (is_ok (fst (job_apply self s0)) = false -> count is_attempt t = 3))
  /\ (is_job_suitable (fst s0) (snd s0) = (Ok true, snd s0) ->
       Py.mem (apply_method (fst s0)) applied_labels = false ->
       easy_applier_component (w_self (snd s0)) = Some self ->
       is_ok (fst (job_apply self s0)) = true ->
       let w' := snd (apply_jobs_body (fst s0) (snd s0)) in
       (exists t,
           w_trace w' = (w_trace (snd s0) ++ t)%list /\ count is_write t = 1)
       /\ gained (w_files (snd s0)) (w_files w') "success" = 1
       /\ gained_total (w_files (snd s0)) (w_files w') = 1).
Proof.
  cbv zeta. split; [ apply job_apply_is_three_attempts | ].
  destruct (job_apply_loop_frame (DreamBoosterEasyApplier_init loaded)
              (seq 0 3) s0) as (_ & _ & Hf & t' & Et' & _ & Cw).
  change (job_apply_loop (DreamBoosterEasyApplier_init loaded) (seq 0 3))
    with (job_apply (DreamBoosterEasyApplier_init loaded)) in *.
  split; [ exact Hf | ].
  split.
  { rewrite job_apply_is_three_attempts in *.
    destruct (spec_three_attempts_trace s0) as (t & Et & Ca & Ck & Hfail).
    assert (t' = t) as -> by (rewrite Et in Et'; apply app_inv_head in Et'; auto).
    exists t. auto. }
  intros Hs Hl Hc Hok.
  rewrite (apply_jobs_body_after_job_apply _ _ _ Hs Hl Hc).
  unfold on_job. destruct s0 as [job w]. cbn [fst snd] in *.
  destruct (job_apply (DreamBoosterEasyApplier_init loaded) (job, w))
    as [r [job' w1]]. cbn [fst snd] in *. rewrite Hok.
  cbn [written w_trace w_files]. rewrite Hf. split; [ | split ].
  - exists (t' ++ [EvWrite "success" (record_of job')])%list.
    rewrite Et', <- List.app_assoc. split; [ reflexivity | ].
    rewrite count_app, Cw. reflexivity.
  - unfold gained, append_record, records_in. rewrite lookup_insert_eq.
    simpl. rewrite List.length_app. simpl. lia.
  - apply gained_total_append. simpl. auto.
Qed.

(** ** The session's seen-jobs list *)

#[local] Instance same_self_preorder : PreOrder (@same_self B).
Proof.
  split.
  - intros w. reflexivity.
  - intros w1 w2 w3 H1 H2. unfold same_self in *. congruence.
Qed.

Lemma apply_jobs_body_same_self (job : Job) :
  respects (@same_self B) (apply_jobs_body job).
Proof.
  intros w. rewrite apply_jobs_body_cases.
  pose proof (is_job_suitable_same_self job w) as Hs.
  destruct (is_job_suitable job w) as [[[ | ] | e] w0]; cbn [snd] in *; auto.
  destruct (Py.mem (apply_method job) applied_labels); cbn [snd]; auto.
  pose proof (component_job_apply_frame (job, w0)) as (_ & Hc & _).
  unfold on_job. destruct (component_job_apply (job, w0)) as [[[] | e] [job' w1]];
    cbn [fst snd] in *; unfold same_self in *; cbn [written w_self]; congruence.
Qed.

Lemma apply_jobs_same_self (tiles : list tile) :
  respects (@same_self B) (apply_jobs tiles).
Proof.
  apply respects_bind; [ apply _ | apply respects_lift_outcome, _ | intros jobs ].
  apply respects_for_each; [ apply _ | apply apply_jobs_body_same_self ].
Qed.

(** No call on the manager adds a link to [seen_jobs]. *)
Lemma run_call_seen_jobs (c : manager_call) (w : world B) (l : string) :
  In l (seen_jobs (w_self (run_call c w))) -> In l (seen_jobs (w_self w)).
Proof.
  destruct c as [p | loaded | tiles | job | job file_name]; unfold run_call.
  - simpl. intros [].
  - simpl. auto.
  - rewrite (apply_jobs_same_self tiles w). auto.
  - rewrite (is_job_suitable_same_self job w). auto.
  - rewrite write_to_file_written. auto.
Qed.

Lemma run_calls_seen_jobs (cs : list manager_call) (w : world B) :
  seen_jobs (w_self w) = [] -> seen_jobs (w_self (run_calls cs w)) = [].
Proof.
  revert w. induction cs as [ | c cs IH]; intros w Hw; simpl; [ exact Hw | ].
  apply IH. destruct (seen_jobs (w_self (run_call c w))) as [ | l ls] eqn:Hs;
    [ reflexivity | ].
  exfalso. assert (Hin : In l (seen_jobs (w_self w))).
  { apply (run_call_seen_jobs c). rewrite Hs. left. reflexivity. }
  rewrite Hw in Hin. destruct Hin.
Qed.

(** C10.  [set_parameters] leaves [seen_jobs] empty and no later call adds
    a link to it: in every state a session reaches, the seen-link tests of
    [is_blacklisted] and [is_already_applied_to_job] are false for every
    job, and the blacklist verdict rests on the title and the company
    alone. *)
Theorem seen_jobs_stays_empty (p : parameters) (cs : list manager_call)
        (w : world B) :
  let w' := run_calls cs (snd (set_parameters p w)) in
  seen_jobs (w_self w') = []
  /\ (forall job_title company link,
         Py.mem link (seen_jobs (w_self w')) = false
         /\ is_already_applied_to_job (w_self w') job_title company link = false
         /\ is_blacklisted (w_self w') job_title company link
            = title_blacklisted (w_self w') job_title
              || company_blacklisted (w_self w') company)
  /\ (forall (c : manager_call) (v : world B) (l : string),
         In l (seen_jobs (w_self (run_call c v))) -> In l (seen_jobs (w_self v))).
Proof.
  cbv zeta.
  assert (Hempty : seen_jobs (w_self (run_calls cs (snd (set_parameters p w)))) = [])
    by (apply run_calls_seen_jobs; reflexivity).
  split; [ exact Hempty | ]. split.
  - intros job_title company link.
    unfold is_already_applied_to_job, is_blacklisted. rewrite Hempty. simpl.
    rewrite orb_false_r. auto.
  - intros c v l. apply run_call_seen_jobs.
Qed.

End Frames.

(** ** The title check, word by word *)

Lemma mem_In (x : string) (xs : list string) : Py.mem x xs = true <-> In x xs.
Proof.
  unfold Py.mem. rewrite existsb_exists. split.
  - intros (y & Hin & Heq). apply String.eqb_eq in Heq. subst. exact Hin.
  - intros Hin. exists x. split; [ exact Hin | apply String.eqb_refl ].
Qed.

(** A title is flagged exactly when a blacklist entry, taken as it is
    written, is one of the words of the lowercased title. *)
Lemma title_blacklisted_iff (self : DreamBoosterJobManager) (job_title : string) :
  title_blacklisted self job_title = true <->
  exists entry, In entry (title_blacklist self)
                /\ In entry (Py.split " " (Py.lower job_title)).
Proof.
  unfold title_blacklisted, Py.any. rewrite existsb_exists.
  split; intros (entry & Hin & Hw); exists entry; (split; [ exact Hin | ]);
    apply mem_In; exact Hw.
Qed.

(** ** The whole apply loop *)

Section Loop.

Context {B : Type} `{driver B}.

Lemma grows_refl (fs : gmap string json_doc) : grows fs fs.
Proof. intros n _. lia. Qed.

Lemma grows_append (fs : gmap string json_doc) (file_name : string)
      (r : outcome_record) :
  In file_name outcome_names -> grows fs (append_record fs file_name r).
Proof.
  intros [<- | [<- | [<- | []]]] n [<- | [<- | [<- | []]]];
    unfold append_record, records_in;
    rewrite ?lookup_insert_eq, ?lookup_insert_ne by done;
    simpl; rewrite ?List.length_app; simpl; lia.
Qed.

Lemma gained_total_trans (fs1 fs2 fs3 : gmap string json_doc) :
  grows fs1 fs2 -> grows fs2 fs3 ->
  grows fs1 fs3
  /\ gained_total fs1 fs3 = gained_total fs1 fs2 + gained_total fs2 fs3.
Proof.
  intros H12 H23. split.
  - intros n Hn. specialize (H12 n Hn). specialize (H23 n Hn). lia.
  - pose proof (H12 "success" ltac:(simpl; auto)).
    pose proof (H12 "failed" ltac:(simpl; auto)).
    pose proof (H12 "skipped" ltac:(simpl; auto)).
    pose proof (H23 "success" ltac:(simpl; auto)).
    pose proof (H23 "failed" ltac:(simpl; auto)).
    pose proof (H23 "skipped" ltac:(simpl; auto)).
    unfold gained_total, gained. simpl in *. lia.
Qed.

Lemma apply_jobs_body_grows (job : Job) (w w' : world B) :
  apply_jobs_body job w = (Ok tt, w') ->
  grows (w_files w) (w_files w')
  /\ gained_total (w_files w) (w_files w') <= 1.
Proof.
  intros Hrun.
  destruct (apply_jobs_body_outcome job w w' Hrun)
    as [(n & r & Hn & _ & -> & Hg & _) | (_ & _ & -> & Hg)].
  - split; [ apply grows_append, Hn | lia ].
  - split; [ apply grows_refl | lia ].
Qed.

Lemma build_jobs_length (tiles : list tile) (jobs : list Job) :
  build_jobs tiles = Ok jobs -> List.length jobs = List.length tiles.
Proof.
  revert jobs. induction tiles as [ | t tiles IH]; intros jobs; simpl.
  - intros [= <-]. reflexivity.
  - destruct (Job_init t) as [j | e]; [ | discriminate ].
    destruct (build_jobs tiles) as [js | e]; [ | discriminate ].
    intros [= <-]. simpl. rewrite (IH js eq_refl). reflexivity.
Qed.

(** Over a whole run of the loop that returns, the three outcome files
    gain at most one record per job. *)
Lemma for_each_body_records (jobs : list Job) (w w' : world B) :
  for_each jobs apply_jobs_body w = (Ok tt, w') ->
  grows (w_files w) (w_files w')
  /\ gained_total (w_files w) (w_files w') <= List.length jobs.
Proof.
  revert w. induction jobs as [ | job jobs IH]; intros w; simpl.
  - intros [= <-]. split; [ apply grows_refl | rewrite gained_total_same; lia ].
  - unfold bind. destruct (apply_jobs_body job w) as [[[] | e] w1] eqn:Hbody;
      [ | discriminate ].
    intros Hrest. destruct (apply_jobs_body_grows _ _ _ Hbody) as [G1 B1].
    destruct (IH _ Hrest) as [G2 B2].
    destruct (gained_total_trans _ _ _ G1 G2) as [G ->]. split; [ exact G | lia ].
Qed.

(** C2 (as amended).  Every pass of the apply loop that returns appends at
    most one outcome record: exactly one, of the job, to "skipped" when the
    filter rejects the job and to "success" or "failed" when the job is
    eligible and its apply method is none of "Continue", "Applied", "Apply";
    an eligible job with one of these labels gets no record at all.  Over a
    whole run that returns, the files gain at most one record per job. *)
Theorem apply_jobs_records :
  (forall (job : Job) (w w' : world B),
      apply_jobs_body job w = (Ok tt, w') ->
      (exists file_name r,
          In file_name outcome_names
          /\ record_for job r
          /\ w_files w' = append_record (w_files w) file_name r
          /\ gained_total (w_files w) (w_files w') = 1
          /\ (fst (is_job_suitable job w) = Ok false /\ file_name = "skipped"
              \/ fst (is_job_suitable job w) = Ok true
                 /\ Py.mem (apply_method job) applied_labels = false
                 /\ file_name <> "skipped"))
      \/ (fst (is_job_suitable job w) = Ok true
          /\ Py.mem (apply_method job) applied_labels = true
          /\ w_files w' = w_files w
          /\ gained_total (w_files w) (w_files w') = 0))
  /\ (forall (job_list_elements : list tile) (w w' : world B),
         apply_jobs job_list_elements w = (Ok tt, w') ->
         gained_total (w_files w) (w_files w') <= List.length job_list_elements).
Proof.
  split; [ exact apply_jobs_body_outcome | ].
  intros tiles w w'. unfold apply_jobs, bind, lift_outcome.
  destruct (build_jobs tiles) as [jobs | e] eqn:Hb; [ | discriminate ].
  intros Hrun. destruct (for_each_body_records _ _ _ Hrun) as [_ Hle].
  rewrite <- (build_jobs_length _ _ Hb). exact Hle.
Qed.

End Loop.

(** ** Closed instances on the scripted browser *)

Lemma keyword_check_raises_default_config :
  keywords (w_self (session default_parameters [] idle_browser)) = []
  /\ matches_job_criteria (w_self (session default_parameters [] idle_browser))
                          (python_job "Easy Apply")
     = Raised ZeroDivisionError.
Proof.
  split; [ reflexivity | ].
  apply (proj1 (keyword_check_raises_without_keywords (B := scripted))).
  reflexivity.
Defined.

(** The default configuration ends the apply loop at its first eligible
    job. *)
Lemma default_config_ends_apply_jobs :
  apply_jobs [python_tile "Easy Apply"] (session default_parameters [] idle_browser)
  = (Raised ZeroDivisionError, session default_parameters [] idle_browser).
Proof. vm_compute. reflexivity. Qed.

Lemma is_job_suitable_no_keywords_witness :
  is_job_suitable (python_job "Easy Apply")
                  (session default_parameters [] idle_browser)
  = (Raised ZeroDivisionError, session default_parameters [] idle_browser).
Proof. apply is_job_suitable_no_keywords; reflexivity. Defined.

(** C2 (counterexample).  A tile without an apply-method element is read
    as "Applied"; its job passes the filter, the loop returns, and none of
    the three outcome files receives a record. *)
Lemma applied_label_leaves_no_record :
  let w := keyword_session idle_browser in
  let w' := snd (apply_jobs [python_tile "Applied"] w) in
  fst (apply_jobs [python_tile "Applied"] w) = Ok tt
  /\ is_job_suitable (python_job "Applied") w = (Ok true, w)
  /\ map (fun file_name => records_in (w_files w') (file_name ++ ".json"))
         outcome_names
     = [[]; []; []]
  /\ gained_total (w_files w) (w_files w') = 0.
Proof. vm_compute. repeat split. Qed.

Lemma apply_jobs_records_witness :
  let job := python_job "Easy Apply" in
  let w := keyword_session flaky_browser in
  let w' := snd (apply_jobs_body job w) in
  apply_jobs_body job w = (Ok tt, w')
  /\ gained_total (w_files w) (w_files w') = 1.
Proof.
  intros job w w'.
  assert (Hrun : apply_jobs_body job w = (Ok tt, w')) by (vm_compute; reflexivity).
  split; [ exact Hrun | ].
  destruct (proj1 apply_jobs_records job w w' Hrun)
    as [(file_name & r & _ & _ & _ & Hg & _) | (_ & Hlabel & _)].
  - exact Hg.
  - discriminate Hlabel.
Defined.

(** C3.  The title check lowercases the title but not the blacklist
    entries: the two examples of the specification hold for the entry
    "lead", and the entry "Lead" does not flag the title "Lead Engineer".
    The company check lowercases both sides. *)
Theorem title_blacklist_entries_compared_verbatim :
  let lead := w_self (session (example_parameters ["lead"] false None) [] idle_browser) in
  let Lead := w_self (session (example_parameters ["Lead"] false None) [] idle_browser) in
  let ACME := mkManager ["ACME"] [] [] [] false [] (3 # 4)%Q [] None in
  title_blacklisted lead "Team Leader Wanted" = false
  /\ title_blacklisted lead "Lead Engineer" = true
  /\ title_blacklisted Lead "Lead Engineer" = false
  /\ company_blacklisted ACME "acme" = true.
Proof. vm_compute. repeat split. Qed.

Lemma company_dedup_witness :
  In acme_record (records_in (w_files acme_session) "success.json")
  /\ is_job_suitable (python_job "Easy Apply") acme_session
     = (Ok false, written acme_session (python_job "Easy Apply") "skipped").
Proof.
  split; [ left; reflexivity | ].
  apply (proj1 (company_dedup (B := scripted))) with (r := acme_record).
  - reflexivity.
  - left. reflexivity.
  - reflexivity.
Defined.

(** Two failed attempts, then a success: three entries, two back-off
    sleeps, and the loop writes one "success" record. *)
Lemma job_apply_three_attempts_witness :
  let job := python_job "Easy Apply" in
  let w := keyword_session flaky_browser in
  let w' := snd (apply_jobs_body job w) in
  count is_attempt (w_trace w') = 3
  /\ count is_backoff (w_trace w') = 2
  /\ gained (w_files w) (w_files w') "success" = 1
  /\ gained_total (w_files w) (w_files w') = 1.
Proof.
  intros job w w'.
  split; [ reflexivity | ]. split; [ reflexivity | ].
  destruct (job_apply_three_attempts [] (job, w)) as (_ & _ & _ & Hcaller).
  destruct Hcaller as (_ & Hs & Ht); try reflexivity.
  split; [ exact Hs | exact Ht ].
Defined.

Lemma check_for_premium_redirect_outcome_witness :
  let r := check_for_premium_redirect (python_job "Easy Apply") 3
                                      (keyword_session stuck_browser) in
  fst r = Raised (PremiumRedirectError 3)
  /\ w_browser (snd r) = mkScripted premium_url [premium_url] [] 0
  /\ count is_get (w_trace (snd r)) = 3.
Proof.
  intros r. subst r.
  rewrite (proj1 (check_for_premium_redirect_outcome
                    (python_job "Easy Apply") (keyword_session stuck_browser))).
  vm_compute. repeat split.
Defined.

(** The premium error does not end the job.  The first attempt lands on
    the premium page and stays there through the three returns of the
    check, which raises; [job_apply] backs off, the second attempt goes
    through, and the job is recorded as a success: the error reached
    neither the manager nor a log. *)
Lemma premium_error_is_retried :
  let job := python_job "Easy Apply" in
  let w := keyword_session stuck_browser in
  fst (_execute_job_apply (job, w)) = Raised (PremiumRedirectError 3)
  /\ fst (job_apply (DreamBoosterEasyApplier_init []) (job, w)) = Ok tt
  /\ fst (apply_jobs_body job w) = Ok tt
  /\ List.length (records_in (w_files (snd (apply_jobs_body job w))) "success.json") = 1
  /\ records_in (w_files (snd (apply_jobs_body job w))) "failed.json" = [].
Proof. vm_compute. repeat split. Qed.

(** Stuck on the premium page: three navigations, then the error. *)
Lemma stuck_on_premium_raises :
  let r := check_for_premium_redirect (python_job "Easy Apply") 3
                                      (keyword_session stuck_browser) in
  fst r = Raised (PremiumRedirectError 3)
  /\ w_trace (snd r)
     = [EvGet "https://www.linkedin.com/jobs/view/1"; EvSleep 2 2;
        EvGet "https://www.linkedin.com/jobs/view/1"; EvSleep 2 2;
        EvGet "https://www.linkedin.com/jobs/view/1"; EvSleep 2 2].
Proof. vm_compute. split; reflexivity. Qed.

(** Back on the job page at the second navigation: the check returns. *)
Lemma leaves_premium_returns :
  let r := check_for_premium_redirect (python_job "Easy Apply") 3
                                      (keyword_session redirected_browser) in
  fst r = Ok tt /\ count is_get (w_trace (snd r)) = 2.
Proof. vm_compute. split; reflexivity. Qed.

Lemma handle_dropdown_fields_choice_witness :
  let options := ["No"; "Yes"; "No"] in
  let r := handle_dropdown_of (dropdown_question options) (dropdown_page options 1) in
  fst r = Ok tt
  /\ w_trace (snd r) = [EvSelectByVisibleText "No"]
  /\ page_selected (w_browser (snd r)) = Some 0.
Proof.
  intros options r.
  destruct (proj1 (proj2 (handle_dropdown_fields_choice
                            (dropdown_question options) (dropdown_page options 1)))
              (mkNode "select" None "" options) [] eq_refl) as [_ Hsel].
  destruct Hsel as (_ & Hrun & _); [ simpl; lia | ].
  subst r. rewrite Hrun. vm_compute. repeat split.
Defined.

(** With distinct texts the option drawn is the option selected. *)
Lemma distinct_texts_select_past_the_placeholder :
  let r := handle_dropdown_of (dropdown_question placeholder_options)
                              (dropdown_page placeholder_options 5) in
  fst r = Ok tt
  /\ w_trace (snd r) = [EvSelectByVisibleText "No"]
  /\ page_selected (w_browser (snd r)) = Some 2.
Proof. vm_compute. repeat split. Qed.

Lemma get_answer_for_question_lookup_witness :
  _get_answer_for_question (mkApplier stored_answers 3) "YEARS OF EXPERIENCE?"
                           (keyword_session idle_browser)
  = (Ok "5", keyword_session idle_browser).
Proof.
  destruct (proj2 (get_answer_for_question_lookup
                     (mkApplier stored_answers 3) "YEARS OF EXPERIENCE?"
                     (keyword_session idle_browser)))
    as [Hhit _].
  - reflexivity.
  - intros item [<- | [<- | []]]; reflexivity.
  - destruct Hhit as (pre & item & post & Hd & Hpre & Hq & Hrun).
    + exists (mkQA "Years of experience?" "5"). split; [ left | ]; reflexivity.
    + rewrite Hrun. f_equal. f_equal.
      destruct pre as [ | x pre].
      * injection Hd as <- _. reflexivity.
      * injection Hd as <- _. exfalso. apply (Hpre _ (or_introl eq_refl)). reflexivity.
Defined.

(** A question no entry matches goes to the answerer, once. *)
Lemma unknown_question_asks_answerer :
  let r := _get_answer_for_question (mkApplier stored_answers 3) "Salary?"
                                    (keyword_session idle_browser) in
  fst r = Ok "generated answer" /\ w_trace (snd r) = [EvAnswerQuestion "Salary?"].
Proof. vm_compute. split; reflexivity. Qed.


(** * Further properties of the session code *)

(** ** Strings *)

Lemma split_nonempty (sep : ascii) (s : string) : Py.split sep s <> [].
Proof.
  induction s as [ | c s IH]; simpl; [ discriminate | ].
  destruct (Ascii.eqb c sep); [ discriminate | ].
  destruct (Py.split sep s); discriminate.
Qed.

Lemma split_words_no_sep (sep : ascii) (s w : string) :
  In w (Py.split sep s) -> has_char sep w = false.
Proof.
  revert w. induction s as [ | c s IH]; simpl; intros w.
  - intros [<- | []]. reflexivity.
  - destruct (Ascii.eqb c sep) eqn:Hc.
    + intros [<- | Hin]; [ reflexivity | apply IH, Hin ].
    + destruct (Py.split sep s) as [ | w0 ws] eqn:Hs.
      * intros [<- | []]. simpl. rewrite Hc. reflexivity.
      * intros [<- | Hin].
        -- simpl. rewrite Hc. apply IH. left. reflexivity.
        -- apply IH. right. exact Hin.
Qed.

Lemma split_words_no_upper (sep : ascii) (s w : string) :
  has_upper s = false -> In w (Py.split sep s) -> has_upper w = false.
Proof.
  revert w. induction s as [ | c s IH]; simpl; intros w Hs.
  - intros [<- | []]. reflexivity.
  - apply orb_false_iff in Hs. destruct Hs as [Hc Hs].
    destruct (Ascii.eqb c sep).
    + intros [<- | Hin]; [ reflexivity | apply IH; assumption ].
    + destruct (Py.split sep s) as [ | w0 ws] eqn:Hsplit.
      * intros [<- | []]. simpl. rewrite Hc. reflexivity.
      * intros [<- | Hin].
        -- simpl. rewrite Hc. apply IH; [ exact Hs | left; reflexivity ].
        -- apply IH; [ exact Hs | right; exact Hin ].
Qed.

Lemma lower_char_not_upper (c : ascii) : Py.is_upper (Py.lower_char c) = false.
Proof. destruct c as [[] [] [] [] [] [] [] []]; reflexivity. Qed.

Lemma lower_no_upper (s : string) : has_upper (Py.lower s) = false.
Proof.
  induction s as [ | c s IH]; simpl; [ reflexivity | ].
  rewrite lower_char_not_upper, IH. reflexivity.
Qed.

Lemma contains_empty_needle (hay : string) : Py.contains EmptyString hay = true.
Proof. destruct hay; reflexivity. Qed.

Lemma contains_in_empty (needle : string) :
  Py.contains needle EmptyString = true -> needle = EmptyString.
Proof. destruct needle; simpl; [ reflexivity | discriminate ]. Qed.

Lemma string_length_append (a b : string) :
  String.length (a ++ b) = String.length a + String.length b.
Proof. induction a as [ | c a IH]; simpl; [ reflexivity | rewrite IH; reflexivity ]. Qed.

Lemma json_name_inj (n1 n2 : string) : n1 ++ ".json" = n2 ++ ".json" -> n1 = n2.
Proof.
  revert n2. induction n1 as [ | c n1 IH]; intros n2; destruct n2 as [ | d n2]; simpl.
  - reflexivity.
  - intros Heq. apply (f_equal String.length) in Heq. simpl in Heq.
    rewrite string_length_append in Heq. simpl in Heq. lia.
  - intros Heq. apply (f_equal String.length) in Heq. simpl in Heq.
    rewrite string_length_append in Heq. simpl in Heq. lia.
  - intros [= -> Heq]. f_equal. apply IH, Heq.
Qed.

(** ** The blacklists *)

(** X1.  A title-blacklist entry that holds a space or an uppercase letter
    is inert: the title is cut at its spaces after lowercasing, so no word
    of it equals such an entry.  A blacklist made of such entries flags no
    title at all. *)
Theorem title_blacklist_inert_entries (self : DreamBoosterJobManager)
        (job_title : string) :
  (forall entry, In entry (title_blacklist self) ->
                 has_char " " entry = true \/ has_upper entry = true) ->
  title_blacklisted self job_title = false.
Proof.
  intros Hall. destruct (title_blacklisted self job_title) eqn:Ht; [ | reflexivity ].
  apply title_blacklisted_iff in Ht. destruct Ht as (entry & Hin & Hword).
  destruct (Hall entry Hin) as [Hsp | Hup].
  - rewrite (split_words_no_sep _ _ _ Hword) in Hsp. discriminate.
  - rewrite (split_words_no_upper _ _ _ (lower_no_upper job_title) Hword) in Hup.
    discriminate.
Qed.

(** ** The keyword check *)

Lemma sum_bool_le {A} (f : A -> bool) (xs : list A) :
  Py.sum_bool f xs <= List.length xs.
Proof.
  unfold Py.sum_bool. induction xs as [ | x xs IH]; simpl; [ lia | ].
  destruct (f x); simpl; lia.
Qed.

Lemma sum_bool_all {A} (f : A -> bool) (xs : list A) :
  (forall x, In x xs -> f x = true) -> Py.sum_bool f xs = List.length xs.
Proof.
  unfold Py.sum_bool. induction xs as [ | x xs IH]; intros Hall; simpl; [ reflexivity | ].
  rewrite (Hall x (or_introl eq_refl)). simpl. f_equal. apply IH.
  intros y Hy. apply Hall. right. exact Hy.
Qed.

Lemma sum_bool_none {A} (f : A -> bool) (xs : list A) :
  (forall x, In x xs -> f x = false) -> Py.sum_bool f xs = 0.
Proof.
  unfold Py.sum_bool. induction xs as [ | x xs IH]; intros Hall; simpl; [ reflexivity | ].
  rewrite (Hall x (or_introl eq_refl)). apply IH.
  intros y Hy. apply Hall. right. exact Hy.
Qed.

(** X3.  With at least one keyword the check returns a boolean, whatever
    the threshold.  A threshold of zero or less passes every job; a
    threshold above one passes none.  A job that every keyword hits passes
    every threshold up to one; a job that no keyword hits fails every
    threshold above zero. *)
Theorem matches_job_criteria_threshold_bounds (self : DreamBoosterJobManager)
        (job : Job) :
  keywords self <> [] ->
  (exists b, matches_job_criteria self job = Ok b)
  /\ ((match_threshold self <= 0)%Q -> matches_job_criteria self job = Ok true)
  /\ ((1 < match_threshold self)%Q -> matches_job_criteria self job = Ok false)
  /\ ((forall keyword, In keyword (keywords self) -> keyword_hit job keyword = true) ->
      (match_threshold self <= 1)%Q -> matches_job_criteria self job = Ok true)
  /\ ((forall keyword, In keyword (keywords self) -> keyword_hit job keyword = false) ->
      (0 < match_threshold self)%Q -> matches_job_criteria self job = Ok false).
Proof.
  intros Hk. split; [ apply matches_job_criteria_returns, Hk | ].
  unfold matches_job_criteria.
  pose proof (sum_bool_le (keyword_hit job) (keywords self)) as Hle.
  pose proof (sum_bool_all (keyword_hit job) (keywords self)) as Hall.
  pose proof (sum_bool_none (keyword_hit job) (keywords self)) as Hnone.
  destruct (keywords self) as [ | k ks] eqn:Hks; [ congruence | ].
  set (hits := Py.sum_bool (keyword_hit job) (k :: ks)) in *.
  cbn [List.length] in *.
  assert (Hfalse : forall score : Q,
             (score < match_threshold self)%Q ->
             Qle_bool (match_threshold self) score = false).
  { intros score Hlt. destruct (Qle_bool (match_threshold self) score) eqn:Hb;
      [ | reflexivity ].
    exfalso. apply Qle_bool_iff in Hb. apply (Qlt_irrefl score).
    eapply Qlt_le_trans; eassumption. }
  split; [ | split; [ | split ] ].
  - intros Hth. f_equal. apply Qle_bool_iff. eapply Qle_trans; [ exact Hth | ].
    unfold Qle. simpl. lia.
  - intros Hth. f_equal. apply Hfalse. eapply Qle_lt_trans; [ | exact Hth ].
    unfold Qle. simpl. rewrite Zpos_P_of_succ_nat. lia.
  - intros Hhit Hth. f_equal. apply Qle_bool_iff. eapply Qle_trans; [ exact Hth | ].
    rewrite (Hall Hhit). unfold Qle. simpl. rewrite Zpos_P_of_succ_nat. lia.
  - intros Hmiss Hth. f_equal. apply Hfalse. rewrite (Hnone Hmiss).
    eapply Qle_lt_trans; [ | exact Hth ]. unfold Qle. simpl. lia.
Qed.

(** X4.  A job as [apply_jobs] builds it from a tile has an empty
    description when it meets the filter, so a keyword hits it exactly when
    it occurs, lowercased, in the lowercased title: the keyword check of the
    filter looks at titles only. *)
Theorem keyword_check_sees_title_only (t : tile) (job : Job) :
  Job_init t = Ok job ->
  description job = EmptyString
  /\ (forall keyword,
         keyword_hit job keyword
         = Py.contains (Py.lower keyword) (Py.lower (title job))).
Proof.
  unfold Job_init. destruct (_validate_non_empty_fields _); [ | discriminate ].
  intros [= <-]. split; [ reflexivity | ].
  intros keyword. unfold keyword_hit. cbn [description title Py.lower].
  destruct (Py.contains (Py.lower keyword) EmptyString) eqn:He.
  - apply contains_in_empty in He. rewrite He, contains_empty_needle. reflexivity.
  - apply orb_false_r.
Qed.

(** ** Jobs and tiles *)

Lemma pytruthy_nonempty (s : string) : pytruthy s = true <-> s <> EmptyString.
Proof. destruct s; simpl; split; congruence. Qed.

(** X5.  The constructor of [Job] succeeds exactly on five non-empty
    required fields, and the job it builds has the fields of the tile and
    empty description, summary, PDF path and recruiter link; otherwise it
    raises [ValueError]. *)
Theorem Job_init_required_fields (t : tile) :
  (tile_title t <> EmptyString /\ tile_company t <> EmptyString
   /\ tile_location t <> EmptyString /\ tile_link t <> EmptyString
   /\ tile_apply_method t <> EmptyString
   <-> Job_init t
       = Ok (mkJob (tile_title t) (tile_company t) (tile_location t)
                   (tile_link t) (tile_apply_method t) "" "" "" ""))
  /\ (forall job, Job_init t = Ok job ->
        title job <> EmptyString /\ company job <> EmptyString
        /\ location job <> EmptyString /\ link job <> EmptyString
        /\ apply_method job <> EmptyString)
  /\ (forall e, Job_init t = Raised e -> exists field, e = ValueError field).
Proof.
  unfold Job_init, _validate_non_empty_fields. cbn [title company location link apply_method].
  destruct (tile_title t) as [ | c1 s1]; cbn [pytruthy negb].
  { split; [ split; [ intros (H & _); congruence | discriminate ] | ].
    split; [ discriminate | intros e [= <-]; eauto ]. }
  destruct (tile_company t) as [ | c2 s2]; cbn [pytruthy negb].
  { split; [ split; [ intros (_ & H & _); congruence | discriminate ] | ].
    split; [ discriminate | intros e [= <-]; eauto ]. }
  destruct (tile_location t) as [ | c3 s3]; cbn [pytruthy negb].
  { split; [ split; [ intros (_ & _ & H & _); congruence | discriminate ] | ].
    split; [ discriminate | intros e [= <-]; eauto ]. }
  destruct (tile_link t) as [ | c4 s4]; cbn [pytruthy negb].
  { split; [ split; [ intros (_ & _ & _ & H & _); congruence | discriminate ] | ].
    split; [ discriminate | intros e [= <-]; eauto ]. }
  destruct (tile_apply_method t) as [ | c5 s5]; cbn [pytruthy negb].
  { split; [ split; [ intros (_ & _ & _ & _ & H); congruence | discriminate ] | ].
    split; [ discriminate | intros e [= <-]; eauto ]. }
  split; [ split; [ reflexivity | intros _; repeat split; discriminate ] | ].
  split; [ | discriminate ].
  intros job [= <-]. cbn. repeat split; discriminate.
Qed.

Lemma strip_query_no_mark (href : string) : has_char "?" (strip_query href) = false.
Proof.
  unfold strip_query. pose proof (split_nonempty "?" href) as Hne.
  destruct (Py.split "?" href) as [ | w ws] eqn:Hs; [ congruence | ].
  apply (split_words_no_sep "?" href). rewrite Hs. left. reflexivity.
Qed.

(** X6.  What the extraction returns for a tile it can read: the link
    never holds a question mark (the query string is cut), a tile without
    an apply-method element is labelled "Applied", and a tile without a
    title element has an empty title, link and company, whatever the page
    shows of the company. *)
Theorem extract_job_information_from_tile_fields (job_tile : tile_element)
        (t : tile) :
  extract_job_information_from_tile job_tile = Ok t ->
  has_char "?" (tile_link t) = false
  /\ (te_apply_method job_tile = None -> tile_apply_method t = "Applied")
  /\ (te_title job_tile = None ->
      tile_title t = EmptyString /\ tile_link t = EmptyString
      /\ tile_company t = EmptyString).
Proof.
  unfold extract_job_information_from_tile.
  destruct (te_title job_tile) as [[job_title [href | ]] | ]; intros [= <-];
    cbn [tile_link tile_apply_method tile_title tile_company].
  - split; [ apply strip_query_no_mark | ].
    split; [ intros ->; reflexivity | discriminate ].
  - split; [ reflexivity | ].
    split; [ intros ->; reflexivity | auto ].
Qed.

(** The apply loop on a job with one of the three labels is the filter
    alone. *)
Lemma apply_jobs_body_labelled {B} `{driver B} (job : Job) (w : world B) :
  Py.mem (apply_method job) applied_labels = true ->
  apply_jobs_body job w
  = (match fst (is_job_suitable job w) with
     | Ok _ => Ok tt
     | Raised x => Raised x
     end, snd (is_job_suitable job w)).
Proof.
  intros Hl. rewrite apply_jobs_body_cases, Hl.
  destruct (is_job_suitable job w) as [[[ | ] | x] w']; reflexivity.
Qed.

(** X7.  A tile without an apply-method element is never applied to: its
    job carries the label "Applied", and a pass of the apply loop on it is
    the eligibility filter alone; no attempt is made and neither "success"
    nor "failed" gains a record. *)
Theorem tile_without_apply_method_never_applied {B} `{driver B}
        (job_tile : tile_element) (t : tile) (job : Job) (w : world B) :
  te_apply_method job_tile = None ->
  extract_job_information_from_tile job_tile = Ok t ->
  Job_init t = Ok job ->
  let r := apply_jobs_body job w in
  apply_method job = "Applied"
  /\ snd r = snd (is_job_suitable job w)
  /\ (exists tr, w_trace (snd r) = (w_trace w ++ tr)%list /\ count is_attempt tr = 0)
  /\ gained (w_files w) (w_files (snd r)) "success" = 0
  /\ gained (w_files w) (w_files (snd r)) "failed" = 0.
Proof.
  intros Hnone Hext Hjob. cbv zeta.
  assert (Hlabel : apply_method job = "Applied").
  { unfold extract_job_information_from_tile in Hext. rewrite Hnone in Hext.
    unfold Job_init in Hjob.
    destruct (_validate_non_empty_fields _); [ | discriminate ].
    injection Hjob as <-.
    destruct (te_title job_tile) as [[job_title [href | ]] | ];
      try discriminate; injection Hext as <-; reflexivity. }
  split; [ exact Hlabel | ].
  rewrite apply_jobs_body_labelled by (rewrite Hlabel; reflexivity).
  cbn [snd]. split; [ reflexivity | ].
  rewrite is_job_suitable_spec. unfold spec_is_job_suitable.
  assert (Hw : forall v : world B,
             v = w \/ v = written w job "skipped" ->
             (exists tr, w_trace v = (w_trace w ++ tr)%list /\ count is_attempt tr = 0)
             /\ gained (w_files w) (w_files v) "success" = 0
             /\ gained (w_files w) (w_files v) "failed" = 0).
  { intros v [-> | ->].
    - split; [ exists []; split; [ symmetry; apply app_nil_r | reflexivity ] | ].
      unfold gained. lia.
    - split; [ eexists; split; [ reflexivity | reflexivity ] | ].
      unfold gained, written, append_record, records_in. cbn [w_files].
      rewrite !lookup_insert_ne by done. lia. }
  destruct (is_blacklisted _ _ _ _); [ apply Hw; auto | ].
  destruct (is_already_applied_to_company _ _ _); [ apply Hw; auto | ].
  destruct (matches_job_criteria _ _) as [[ | ] | x]; apply Hw; auto.
Qed.

Lemma unreadable_no_job (e : tile_element) :
  unreadable e ->
  match extract_job_information_from_tile e with
  | Raised _ => True
  | Ok t => exists x, Job_init t = Raised x
  end.
Proof.
  unfold extract_job_information_from_tile, Job_init, _validate_non_empty_fields.
  intros [Ht | [Hc | [Hl | (job_title & Ht)]]].
  - rewrite Ht. cbn. eauto.
  - rewrite Hc. destruct (te_title e) as [[job_title [href | ]] | ]; cbn; eauto.
    destruct job_title; cbn; eauto.
  - rewrite Hl. destruct (te_title e) as [[job_title [href | ]] | ]; cbn; eauto.
    destruct job_title; cbn; eauto.
    destruct (or_default (te_company e) ""); cbn; eauto.
  - rewrite Ht. exact I.
Qed.

Lemma jobs_of_elements_unreadable (els : list tile_element) (e : tile_element) :
  In e els -> unreadable e -> exists x, jobs_of_elements els = Raised x.
Proof.
  intros Hin Hbad. induction els as [ | e0 els IH]; [ destruct Hin | ].
  simpl. destruct Hin as [-> | Hin].
  - pose proof (unreadable_no_job e Hbad) as Hno.
    destruct (extract_job_information_from_tile e) as [t | x]; [ | eauto ].
    destruct Hno as [x ->]. eauto.
  - destruct (extract_job_information_from_tile e0) as [t | x]; [ | eauto ].
    destruct (Job_init t) as [j | x]; [ | eauto ].
    destruct (IH Hin) as [x ->]. eauto.
Qed.

(** X8.  All the jobs of a page are built before the first is processed:
    one tile without its title, company or location element, or without
    the [href] of its title, makes [apply_jobs] raise and leave the world
    as it was, so that no job of the page is filtered, applied to or
    recorded. *)
Theorem apply_jobs_on_page_unreadable_tile {B} `{driver B}
        (job_list_elements : list tile_element) (e : tile_element) (w : world B) :
  In e job_list_elements ->
  unreadable e ->
  exists x, apply_jobs_on_page job_list_elements w = (Raised x, w).
Proof.
  intros Hin Hbad. destruct (jobs_of_elements_unreadable _ _ Hin Hbad) as [x Hx].
  exists x. unfold apply_jobs_on_page, bind, lift_outcome. rewrite Hx. reflexivity.
Qed.

Lemma extract_all_length (els : list tile_element) (ts : list tile) :
  extract_all els = Ok ts -> List.length ts = List.length els.
Proof.
  revert ts. induction els as [ | e els IH]; intros ts; simpl.
  - intros [= <-]. reflexivity.
  - destruct (extract_job_information_from_tile e); [ | discriminate ].
    destruct (extract_all els) as [ts' | ]; [ | discriminate ].
    intros [= <-]. simpl. rewrite (IH ts' eq_refl). reflexivity.
Qed.

Lemma extract_all_ok (els : list tile_element) :
  (forall e job_title, In e els -> te_title e <> Some (job_title, None)) ->
  exists ts, extract_all els = Ok ts.
Proof.
  induction els as [ | e els IH]; intros Hall; simpl; [ eauto | ].
  assert (He : exists t, extract_job_information_from_tile e = Ok t).
  { unfold extract_job_information_from_tile.
    destruct (te_title e) as [[job_title [href | ]] | ] eqn:Ht; eauto.
    destruct (Hall e job_title (or_introl eq_refl)). exact Ht. }
  destruct He as [t ->].
  destruct IH as [ts ->]; [ | eauto ].
  intros e' jt Hin. apply Hall. right. exact Hin.
Qed.

Lemma extract_all_raises (els : list tile_element) (e : tile_element)
      (job_title : string) :
  In e els -> te_title e = Some (job_title, None) ->
  exists x, extract_all els = Raised x.
Proof.
  intros Hin Ht. induction els as [ | e0 els IH]; [ destruct Hin | ].
  simpl. destruct Hin as [-> | Hin].
  - unfold extract_job_information_from_tile. rewrite Ht. eauto.
  - destruct (extract_job_information_from_tile e0); [ | eauto ].
    destruct (IH Hin) as [x ->]. eauto.
Qed.

(** X9.  [get_jobs_from_page] never raises and never filters: it returns
    one tuple per tile of the page, also for tiles with missing elements,
    unless the lookup fails or some title element has no [href], in which
    case it returns the empty list and every tile of the page is lost. *)
Theorem get_jobs_from_page_all_or_nothing :
  (forall x, get_jobs_from_page (Raised x) = [])
  /\ (forall els,
         (forall e job_title, In e els -> te_title e <> Some (job_title, None)) ->
         List.length (get_jobs_from_page (Ok els)) = List.length els)
  /\ (forall els e job_title,
         In e els -> te_title e = Some (job_title, None) ->
         get_jobs_from_page (Ok els) = []).
Proof.
  split; [ reflexivity | ]. split.
  - intros els Hall. unfold get_jobs_from_page.
    destruct (extract_all_ok els Hall) as [ts Hts]. rewrite Hts.
    apply extract_all_length, Hts.
  - intros els e job_title Hin Ht. unfold get_jobs_from_page.
    destruct (extract_all_raises els e job_title Hin Ht) as [x ->]. reflexivity.
Qed.

(** ** The outcome files *)

Section OutcomeFiles.

Context {B : Type} `{driver B}.

(** X10.  [write_to_file] on the files of the model.  When the file it
    names does not exist, or holds text that does not decode, it returns
    and the file then holds the record of the job alone: what did not
    decode is gone.  When the file holds an array it returns and the file
    holds the array followed by the record.  No other file, and nothing of
    the manager or the browser, changes.  (A file that holds any other
    JSON value is outside the model: the code raises on it.) *)
Theorem write_to_file_appends (job : Job) (file_name : string) (w : world B) :
  let path := file_name ++ ".json" in
  let r := write_to_file job file_name w in
  (w_files w !! path = None ->
   fst r = Ok tt /\ w_files (snd r) !! path = Some (Records [record_of job]))
  /\ (w_files w !! path = Some Undecodable ->
      fst r = Ok tt /\ w_files (snd r) !! path = Some (Records [record_of job]))
  /\ (forall rs,
         w_files w !! path = Some (Records rs) ->
         fst r = Ok tt
         /\ w_files (snd r) !! path = Some (Records (rs ++ [record_of job])))
  /\ (forall other, other <> path -> w_files (snd r) !! other = w_files w !! other)
  /\ w_self (snd r) = w_self w
  /\ w_browser (snd r) = w_browser w.
Proof.
  cbv zeta. rewrite write_to_file_written. cbn [fst snd written w_files w_self w_browser].
  unfold append_record.
  split; [ | split; [ | split ] ].
  - intros Hf. split; [ reflexivity | ].
    rewrite lookup_insert_eq. unfold records_in. rewrite Hf. reflexivity.
  - intros Hf. split; [ reflexivity | ].
    rewrite lookup_insert_eq. unfold records_in. rewrite Hf. reflexivity.
  - intros rs Hf. split; [ reflexivity | ].
    rewrite lookup_insert_eq. unfold records_in. rewrite Hf. reflexivity.
  - split; [ | split; reflexivity ].
    intros other Hne. apply lookup_insert_ne. congruence.
Qed.

Lemma for_each_write_to_file (jobs : list Job) (file_name : string) (w : world B) :
  for_each jobs (fun job => write_to_file job file_name) w
  = (Ok tt, written_all w jobs file_name).
Proof.
  revert w. induction jobs as [ | job jobs IH]; intros w; simpl; [ reflexivity | ].
  unfold bind. rewrite write_to_file_written. apply IH.
Qed.

Lemma written_all_records (jobs : list Job) (file_name : string) (w : world B) :
  records_in (w_files (written_all w jobs file_name)) (file_name ++ ".json")
  = (records_in (w_files w) (file_name ++ ".json") ++ map record_of jobs)%list.
Proof.
  revert w. induction jobs as [ | job jobs IH]; intros w; simpl.
  - symmetry. apply app_nil_r.
  - unfold written_all in *. simpl. rewrite IH. cbn [written w_files].
    unfold append_record. unfold records_in at 1. rewrite lookup_insert_eq.
    cbn [load_records]. rewrite <- List.app_assoc. reflexivity.
Qed.

(** X11.  Outcome files are append-only logs: writing a list of jobs to
    one file, one after the other, leaves the records the file held
    followed by the records of the jobs, in the order of the writes. *)
Theorem write_to_file_keeps_order (jobs : list Job) (file_name : string)
        (w : world B) :
  let r := for_each jobs (fun job => write_to_file job file_name) w in
  fst r = Ok tt
  /\ records_in (w_files (snd r)) (file_name ++ ".json")
     = (records_in (w_files w) (file_name ++ ".json") ++ map record_of jobs)%list.
Proof.
  cbv zeta. rewrite for_each_write_to_file. cbn [fst snd].
  split; [ reflexivity | apply written_all_records ].
Qed.

(** X12.  Writes to two different outcome files do not interfere: in
    either order they leave the same output directory. *)
Theorem write_to_file_commutes (job1 job2 : Job) (name1 name2 : string)
        (w : world B) :
  name1 <> name2 ->
  w_files (snd (write_to_file job2 name2 (snd (write_to_file job1 name1 w))))
  = w_files (snd (write_to_file job1 name1 (snd (write_to_file job2 name2 w)))).
Proof.
  intros Hne.
  assert (Hp : name1 ++ ".json" <> name2 ++ ".json")
    by (intros Heq; apply Hne, json_name_inj, Heq).
  rewrite !write_to_file_written. cbn [snd written w_files].
  unfold append_record, records_in.
  rewrite (lookup_insert_ne _ (name1 ++ ".json") (name2 ++ ".json")) by exact Hp.
  rewrite (lookup_insert_ne _ (name2 ++ ".json") (name1 ++ ".json")) by congruence.
  apply insert_insert_ne. congruence.
Qed.

(** ** The company check across a session *)

(** X13.  The company check reads the success log only, and a success log
    that is missing or does not decode blocks no company: the records of
    "failed" and "skipped", and whatever the lost log held, never count. *)
Theorem is_already_applied_to_company_reads_success_log
        (self : DreamBoosterJobManager) (company : string) :
  (forall fs fs' : gmap string json_doc,
      fs !! "success.json" = fs' !! "success.json" ->
      is_already_applied_to_company self fs company
      = is_already_applied_to_company self fs' company)
  /\ (forall fs : gmap string json_doc,
         fs !! "success.json" = None \/ fs !! "success.json" = Some Undecodable ->
         is_already_applied_to_company self fs company = false).
Proof.
  unfold is_already_applied_to_company. split.
  - intros fs fs' Heq. simpl. rewrite Heq. reflexivity.
  - intros fs [Hf | Hf]; simpl; rewrite Hf; destruct (apply_once_at_company self);
      reflexivity.
Qed.

(** X14.  The company rule holds inside a session: once a pass of the
    apply loop has applied to a job with success, every later job of the
    same company (up to case and surrounding whitespace) is rejected and
    recorded as skipped; after a pass that failed, the company check
    answers as it did before. *)
Theorem company_blocked_after_success (self : DreamBoosterEasyApplier)
        (job1 job2 : Job) (w : world B) :
  apply_once_at_company (w_self w) = true ->
  is_job_suitable job1 w = (Ok true, w) ->
  Py.mem (apply_method job1) applied_labels = false ->
  easy_applier_component (w_self w) = Some self ->
  let applied := on_job job1 (job_apply self) w in
  let w' := snd (apply_jobs_body job1 w) in
  (is_ok (fst (fst applied)) = true ->
   Py.lower (Py.strip (company job2)) = Py.lower (Py.strip (company job1)) ->
   is_job_suitable job2 w' = (Ok false, written w' job2 "skipped"))
  /\ (is_ok (fst (fst applied)) = false ->
      is_already_applied_to_company (w_self w') (w_files w') (company job2)
      = is_already_applied_to_company (w_self w) (w_files w) (company job2)).
Proof.
  intros Honce Hs Hl Hc. cbv zeta.
  rewrite (apply_jobs_body_after_job_apply _ _ _ Hs Hl Hc).
  pose proof (job_apply_loop_frame self (seq 0 (max_retries self)) (job1, w))
    as (Hj & Hself & Hfiles & _).
  change (job_apply_loop self (seq 0 (max_retries self))) with (job_apply self) in *.
  unfold on_job. destruct (job_apply self (job1, w)) as [r [job' w1]].
  cbn [fst snd] in *. split; intros Hok; rewrite Hok.
  - intros Hsame. rewrite is_job_suitable_spec. unfold spec_is_job_suitable.
    destruct (is_blacklisted _ _ _ _); [ reflexivity | ].
    rewrite (is_already_applied_to_company_hit _ _ _ (record_of job'));
      [ reflexivity | | | ].
    + cbn [written w_self]. rewrite Hself. exact Honce.
    + cbn [written w_files]. unfold append_record, records_in.
      rewrite lookup_insert_eq. cbn [load_records]. apply in_or_app. right. left.
      reflexivity.
    + unfold same_company. cbn [record_of rec_company].
      destruct Hj as (_ & Hcomp & _). rewrite Hcomp, Hsame. apply String.eqb_refl.
  - cbn [written w_self w_files]. rewrite Hself, Hfiles.
    unfold is_already_applied_to_company. simpl.
    unfold append_record. rewrite lookup_insert_ne by done. reflexivity.
Qed.

End OutcomeFiles.

(** ** The sections of the form *)

Section FormProperties.

Context {B : Type} `{driver B} `{form_driver B}.

Lemma nonempty_filter_impl {A} (p q : A -> bool) (l : list A) :
  (forall x, p x = true -> q x = true) ->
  nonempty (List.filter p l) = true -> nonempty (List.filter q l) = true.
Proof.
  intros Hpq. induction l as [ | x l IH]; simpl; [ discriminate | ].
  destruct (p x) eqn:Hp.
  - rewrite (Hpq x Hp). reflexivity.
  - intros Hl. destruct (q x); [ reflexivity | apply IH, Hl ].
Qed.

Lemma radio_inputs_are_inputs (element : form_element) :
  _is_radio_field element = true -> _is_text_field element = true.
Proof.
  unfold _is_radio_field, _is_text_field, find_inputs_of_type, find_elements_by_tag.
  intros Hr. apply orb_true_iff. left.
  revert Hr. apply nonempty_filter_impl.
  intros n Hn. apply andb_true_iff in Hn. tauto.
Qed.

(** X15.  The radio handler is unreachable: radio buttons are [input]
    elements, so a section that holds one passes the text-field test that
    comes first, and [_fill_additional_questions] behaves as if its radio
    branch were not there. *)
Theorem radio_branch_never_taken (self : DreamBoosterEasyApplier)
        (element : form_element) (w : world B) :
  (_is_radio_field element = true -> _is_text_field element = true)
  /\ _fill_additional_questions self element w
     = fill_additional_questions_without_radio self element w.
Proof.
  split; [ apply radio_inputs_are_inputs | ].
  unfold _fill_additional_questions, fill_additional_questions_without_radio.
  destruct (_is_dropdown_field element); [ reflexivity | ].
  destruct (_is_text_field element) eqn:Ht; [ reflexivity | ].
  destruct (_is_radio_field element) eqn:Hr; [ | reflexivity ].
  rewrite (radio_inputs_are_inputs _ Hr) in Ht. discriminate.
Qed.

(** X16.  A question whose only field is a [textarea] is never answered:
    it counts as a text field, but the handler looks for an [input] first
    and the exception of that lookup is dropped.  The world is left as it
    was: nothing is typed and no answer is looked up or asked for. *)
Theorem textarea_question_left_blank (self : DreamBoosterEasyApplier)
        (element : form_element) (w : world B) :
  find_elements_by_tag "select" element = [] ->
  find_elements_by_tag "input" element = [] ->
  find_elements_by_tag "textarea" element <> [] ->
  _is_text_field element = true
  /\ _fill_additional_questions self element w = (Ok tt, w).
Proof.
  intros Hsel Hin Hta. split.
  - unfold _is_text_field. rewrite Hin.
    destruct (find_elements_by_tag "textarea" element); [ congruence | reflexivity ].
  - unfold _fill_additional_questions, try_except, bind.
    destruct (find_elements_by_tag "label" element) as [ | l ls]; [ reflexivity | ].
    cbn [first_or_raise ret].
    unfold _is_dropdown_field, _is_text_field. rewrite Hsel, Hin. cbn [nonempty orb].
    destruct (find_elements_by_tag "textarea" element); [ congruence | ].
    cbn [nonempty]. unfold _handle_text_fields, bind. rewrite Hin. reflexivity.
Qed.

Lemma fill_additional_questions_returns (self : DreamBoosterEasyApplier)
      (element : form_element) (w : world B) :
  fst (_fill_additional_questions self element w) = Ok tt.
Proof.
  unfold _fill_additional_questions, try_except.
  match goal with |- context [?m w] => destruct (m w) as [[[] | x] w'] end;
    reflexivity.
Qed.

Lemma fill_up_returns (self : DreamBoosterEasyApplier)
      (resume_path : option string) (w : world B) :
  fst (fill_up self resume_path w) = Ok tt.
Proof.
  unfold fill_up, try_except.
  match goal with |- context [?m w] => destruct (m w) as [[[] | x] w'] end;
    reflexivity.
Qed.

(** X17.  Filling a page never fails: [fill_up] returns whatever the
    browser, the answerer and the sections do, and a section that is not an
    upload field never stops the loop over the sections. *)
Theorem fill_up_never_raises (self : DreamBoosterEasyApplier)
        (resume_path : option string) :
  (forall w : world B, fst (fill_up self resume_path w) = Ok tt)
  /\ (forall (sections : list form_element) (w : world B),
         (forall e, In e sections -> _is_upload_field e = false) ->
         fst (fill_sections self resume_path sections w) = Ok tt).
Proof.
  split; [ apply fill_up_returns | ].
  intros sections. unfold fill_sections.
  induction sections as [ | e es IH]; intros w Hall; [ reflexivity | ].
  simpl. unfold bind, _process_form_element.
  rewrite (Hall e (or_introl eq_refl)).
  pose proof (fill_additional_questions_returns self e w) as Hr.
  destruct (_fill_additional_questions self e w) as [[[] | x] w'];
    [ | discriminate ].
  apply IH. intros e' He'. apply Hall. right. exact He'.
Qed.

Lemma for_each_app {S A} (xs ys : list A) (body : A -> M S unit) (s : S) :
  for_each (xs ++ ys) body s
  = match for_each xs body s with
    | (Ok _, s') => for_each ys body s'
    | (Raised x, s') => (Raised x, s')
    end.
Proof.
  revert s. induction xs as [ | x xs IH]; intros s; simpl; [ reflexivity | ].
  unfold bind. destruct (body x s) as [[[] | e] s1]; [ apply IH | reflexivity ].
Qed.

(** X18.  An upload section without a file input cuts the page short: the
    sections after it are not processed at all, and [fill_up] reports
    nothing of it. *)
Theorem upload_without_input_skips_rest (self : DreamBoosterEasyApplier)
        (resume_path : option string) (before after : list form_element)
        (e : form_element) (w : world B) :
  _is_upload_field e = true ->
  find_inputs_of_type "file" e = [] ->
  snd (fill_sections self resume_path (before ++ e :: after) w)
  = snd (fill_sections self resume_path before w)
  /\ (fst (fill_sections self resume_path before w) = Ok tt ->
      fst (fill_sections self resume_path (before ++ e :: after) w)
      = Raised no_such_element).
Proof.
  intros Hup Hno. unfold fill_sections. rewrite for_each_app.
  destruct (for_each before (_process_form_element self resume_path) w)
    as [[[] | x] w1]; cbn [fst snd].
  - simpl. unfold bind, _process_form_element. rewrite Hup.
    unfold _handle_upload_fields, bind. rewrite Hno. cbn. auto.
  - split; [ reflexivity | discriminate ].
Qed.

(** ** The pages of the form *)

Lemma next_or_submit_true (w w' : world B) :
  _next_or_submit w = (Ok true, w') ->
  exists n b', dom_primary_button (w_browser w) = (Ok n, b') /\ is_submit n = true.
Proof.
  unfold _next_or_submit. unfold bind at 1. unfold call at 1.
  destruct (dom_primary_button (w_browser w)) as [[n | x] b'] eqn:Hb; [ | discriminate ].
  destruct (is_submit n) eqn:Hs; [ eauto | ].
  intros Hrun. exfalso. revert Hrun.
  repeat (unfold bind at 1;
          match goal with
          | |- context [match ?m ?v with _ => _ end] =>
              destruct (m v) as [[? | ?] ?]; try discriminate
          end).
Qed.

Lemma fill_application_form_step (self : DreamBoosterEasyApplier)
      (resume_path : option string) (fuel : nat) (w : world B) :
  _fill_application_form self resume_path (S fuel) w
  = match _next_or_submit (snd (fill_up self resume_path w)) with
    | (Ok true, w') => (Ok (Some tt), w')
    | (Ok false, w') => _fill_application_form self resume_path fuel w'
    | (Raised x, w') => (Raised x, w')
    end.
Proof.
  simpl. unfold bind at 1. pose proof (fill_up_returns self resume_path w) as Hf.
  destruct (fill_up self resume_path w) as [[[] | x] w1]; [ | discriminate ].
  cbn [snd]. unfold bind at 1.
  destruct (_next_or_submit w1) as [[[ | ] | x] w2]; reflexivity.
Qed.

(** X19.  The loop over the pages ends in two ways only, and the bound on
    the pages does not change how: once it returns or raises within some
    number of pages it does the same within any larger number; and it
    returns only after the click on a primary button whose text holds
    "submit application", whatever its case. *)
Theorem fill_application_form_ends_on_submit (self : DreamBoosterEasyApplier)
        (resume_path : option string) (fuel : nat) (w w' : world B)
        (r : outcome (option unit)) :
  _fill_application_form self resume_path fuel w = (r, w') ->
  r <> Ok None ->
  (forall more, _fill_application_form self resume_path (fuel + more) w = (r, w'))
  /\ (r = Ok (Some tt) ->
      exists v n b', dom_primary_button (w_browser v) = (Ok n, b')
                     /\ is_submit n = true
                     /\ _next_or_submit v = (Ok true, w')).
Proof.
  revert w. induction fuel as [ | fuel IH]; intros w.
  - simpl. intros [= <- <-] Hne. congruence.
  - rewrite fill_application_form_step.
    destruct (_next_or_submit (snd (fill_up self resume_path w)))
      as [[[ | ] | x] w1] eqn:Hn.
    + intros [= <- <-] _. split.
      * intros more. change (S fuel + more) with (S (fuel + more)).
        rewrite fill_application_form_step, Hn. reflexivity.
      * intros _. destruct (next_or_submit_true _ _ Hn) as (n & b' & Hb & Hs).
        exists (snd (fill_up self resume_path w)), n, b'. auto.
    + intros Hrun Hne. destruct (IH w1 Hrun Hne) as [Hmore Hsub]. split.
      * intros more. change (S fuel + more) with (S (fuel + more)).
        rewrite fill_application_form_step, Hn. apply Hmore.
      * exact Hsub.
    + intros [= <- <-] _. split.
      * intros more. change (S fuel + more) with (S (fuel + more)).
        rewrite fill_application_form_step, Hn. reflexivity.
      * discriminate.
Qed.

Lemma next_or_submit_next (w : world B) :
  (forall b, exists n b', dom_primary_button b = (Ok n, b') /\ is_submit n = false) ->
  (forall n b, fst (dom_click_node n b) = Ok tt) ->
  (forall b, exists b', dom_error_texts b = (Ok [], b')) ->
  fst (_next_or_submit w) = Ok false.
Proof.
  intros Hbutton Hclick Herr. unfold _next_or_submit.
  unfold bind at 1. unfold call at 1.
  destruct (Hbutton (w_browser w)) as (n & b' & -> & Hs). rewrite Hs.
  unfold sleep_uniform, _check_for_errors, bind, emit, modify, call, call_total.
  cbn [w_browser w_self w_files w_trace].
  pose proof (Hclick n (drv_sleep (3 # 2) (5 # 2) b')) as Hc.
  destruct (dom_click_node n (drv_sleep (3 # 2) (5 # 2) b')) as [[[] | x] b2];
    [ | discriminate ].
  cbn [w_browser w_self w_files w_trace].
  destruct (Herr (drv_sleep 3 5 b2)) as (b3 & ->). reflexivity.
Qed.

(** X20.  The loop has no bound of its own on the number of pages: on a
    form whose primary button never reads "submit application", whose
    clicks go through and which shows no inline error, it has not returned
    after any number of pages. *)
Theorem fill_application_form_unbounded (self : DreamBoosterEasyApplier)
        (resume_path : option string) :
  (forall b, exists n b', dom_primary_button b = (Ok n, b') /\ is_submit n = false) ->
  (forall n b, fst (dom_click_node n b) = Ok tt) ->
  (forall b, exists b', dom_error_texts b = (Ok [], b')) ->
  forall (fuel : nat) (w : world B),
    fst (_fill_application_form self resume_path fuel w) = Ok None.
Proof.
  intros Hbutton Hclick Herr fuel.
  induction fuel as [ | fuel IH]; intros w; [ reflexivity | ].
  rewrite fill_application_form_step.
  pose proof (next_or_submit_next (snd (fill_up self resume_path w))
                                  Hbutton Hclick Herr) as Hn.
  destruct (_next_or_submit (snd (fill_up self resume_path w)))
    as [[[ | ] | x] w1]; try discriminate.
  apply IH.
Qed.

(** X21.  After the click on a button that is not a submit button, inline
    error messages on the page make [_next_or_submit] raise; a page
    without any lets it return a false value. *)
Theorem next_or_submit_checks_errors (w : world B) (n : dom_node)
        (b1 b2 b3 : B) (errors : list string) :
  dom_primary_button (w_browser w) = (Ok n, b1) ->
  is_submit n = false ->
  dom_click_node n (drv_sleep (3 # 2) (5 # 2) b1) = (Ok tt, b2) ->
  dom_error_texts (drv_sleep 3 5 b2) = (Ok errors, b3) ->
  fst (_next_or_submit w)
  = (if nonempty errors then Raised form_errors else Ok false)
  /\ w_browser (snd (_next_or_submit w)) = b3.
Proof.
  intros Hb Hs Hc He.
  assert (Hrun : _next_or_submit w
                 = (if nonempty errors then Raised form_errors else Ok false,
                    mkWorld (w_self w) (w_files w) b3
                            (w_trace w ++ [EvSleep (3 # 2) (5 # 2); EvSleep 3 5]))).
  { unfold _next_or_submit. unfold bind at 1. unfold call at 1. rewrite Hb, Hs.
    unfold sleep_uniform, _check_for_errors, bind, emit, modify, call, call_total.
    cbn [w_browser w_self w_files w_trace]. rewrite Hc.
    cbn [w_browser w_self w_files w_trace]. rewrite He.
    rewrite <- List.app_assoc. destruct (nonempty errors); reflexivity. }
  rewrite Hrun. split; reflexivity.
Qed.

End FormProperties.

(** ** The failures of one attempt *)

Section AttemptFailures.

Context {B : Type} `{driver B}.

Lemma check_for_premium_redirect_raises (job : Job) (n : nat) (w : world B) (e : exn) :
  fst (check_for_premium_redirect job n w) = Raised e ->
  e = PremiumRedirectError n \/ exists b, fst (drv_get (link job) b) = Raised e.
Proof.
  unfold check_for_premium_redirect, current_url. rewrite bind_gets. unfold bind.
  destruct (premium_redirect_loop_spec (link job) n _ w eq_refl) as (t & _ & _ & _ & Hr).
  destruct (premium_redirect_loop (link job) n (drv_current_url (w_browser w)) w)
    as [[u | x] w']; cbn [fst snd] in *.
  - destruct (Py.contains premium_pattern u); cbn; [ | discriminate ].
    intros [= <-]. left. reflexivity.
  - intros [= <-]. right. exact Hr.
Qed.

Lemma wrapped_failures {A} (m : M (Job * world B) A) (h : M (Job * world B) unit)
      (s : Job * world B) (e : exn) :
  fst (try_except m (fun x => bind h (fun _ => raise (ApplyFailed x))) s) = Raised e ->
  (exists cause, e = ApplyFailed cause) \/ (exists v, fst (h v) = Raised e).
Proof.
  unfold try_except, bind. destruct (m s) as [[a | x] s1]; cbn; [ discriminate | ].
  destruct (h s1) as [[[] | y] s2] eqn:Hh; cbn.
  - intros [= <-]. left. eauto.
  - intros [= <-]. right. exists s1. rewrite Hh. reflexivity.
Qed.

(** X22.  The failures of one attempt.  An error of the first navigation
    is raised as it is, before anything else is done: no discard, no
    change to the job.  Any other exception that leaves
    [_execute_job_apply] is the error of the premium check made before the
    form is touched (the premium error or the error of its navigation) or
    an [ApplyFailed] wrapper raised after the application was discarded. *)
Theorem execute_job_apply_failures (s : Job * world B) :
  (forall e b',
      drv_get (link (fst s)) (w_browser (snd s)) = (Raised e, b') ->
      _execute_job_apply s
      = (Raised e,
         (fst s,
          mkWorld (w_self (snd s)) (w_files (snd s)) b'
                  (w_trace (snd s)
                   ++ [EvExecuteJobApply (link (fst s)); EvGet (link (fst s))]))))
  /\ (forall e,
         fst (_execute_job_apply s) = Raised e ->
         (exists cause, e = ApplyFailed cause)
         \/ e = PremiumRedirectError 3
         \/ (exists b, fst (drv_get (link (fst s)) b) = Raised e)).
Proof.
  split.
  - intros e b' Hget. unfold _execute_job_apply.
    rewrite bind_the_job, bind_liftW_emit.
    unfold bind at 1. unfold try_except at 1, liftW at 1, driver_get, bind at 1.
    unfold emit, modify, call. cbn [fst snd w_browser w_self w_files w_trace].
    rewrite Hget. cbn. rewrite <- List.app_assoc. reflexivity.
  - intros e. unfold _execute_job_apply. rewrite bind_the_job, bind_liftW_emit.
    set (s1 := (fst s, _)).
    unfold bind at 1.
    destruct (try_except (liftW (driver_get (link (fst s)))) (fun e0 => raise e0) s1)
      as [[[] | x] s2] eqn:Hnav; cbn [fst].
    + unfold bind at 1.
      destruct (liftW (sleep_uniform 3 5) s2) as [[[] | x] s3] eqn:Hsl;
        [ | discriminate Hsl ].
      unfold bind at 1.
      destruct (liftW (check_for_premium_redirect (fst s) 3) s3) as [[[] | x] s4] eqn:Hck;
        cbn [fst].
      * intros Hr. apply wrapped_failures in Hr.
        destruct Hr as [Hw | (v & Hv)]; [ left; exact Hw | ].
        exfalso. revert Hv. unfold liftW, call_total. cbn [fst].
        intros Hv. discriminate Hv.
      * intros [= <-]. right.
        apply (check_for_premium_redirect_raises (fst s) 3 (snd s3)).
        unfold liftW in Hck.
        destruct (check_for_premium_redirect (fst s) 3 (snd s3)) as [r w'].
        injection Hck as -> _. reflexivity.
    + intros [= <-]. right. right. exists (w_browser (snd s1)).
      revert Hnav. subst s1.
      unfold try_except, liftW, driver_get, bind, emit, modify, call, raise.
      cbn [fst snd w_browser w_self w_files w_trace].
      destruct (drv_get (link (fst s)) (w_browser (snd s))) as [[[] | y] b1];
        cbn [fst snd]; intros Hnav; [ discriminate Hnav | ].
      injection Hnav as <- _. reflexivity.
Qed.

End AttemptFailures.

(** ** Slow scrolling *)

Local Open Scope Z_scope.

Lemma scroll_loop_more_fuel (fuel more : nat) (reverse : bool)
      (end_ position : Z) (previous : option Z) (step : Z) (ps : list Z) :
  scroll_loop fuel reverse end_ position previous step = Some ps ->
  scroll_loop (fuel + more) reverse end_ position previous step = Some ps.
Proof.
  revert position previous step ps.
  induction fuel as [ | fuel IH]; intros position previous step ps.
  - change (0 + more)%nat with more. intros Hs.
    destruct more as [ | more]; [ exact Hs | ]. simpl in *.
    destruct (_ || _); [ | exact Hs ].
    destruct (match previous with Some p => position =? p | None => false end);
      [ exact Hs | discriminate ].
  - simpl. destruct (_ || _); [ | auto ].
    destruct (match previous with Some p => position =? p | None => false end);
      [ auto | ].
    destruct (scroll_loop fuel reverse end_ (position + step) (Some position) _)
      as [ps' | ] eqn:Hrec; [ | discriminate ].
    rewrite (IH _ _ _ _ Hrec). auto.
Qed.

Lemma scroll_loop_aligned_ends (fuel : nat) (reverse : bool) :
  forall (end_ position : Z) (previous : option Z) (step : Z),
    (if reverse then step < 0 else 0 < step) ->
    (Z.to_nat (if reverse then position - end_ else end_ - position) < fuel)%nat ->
    exists ps, scroll_loop fuel reverse end_ position previous step = Some ps.
Proof.
  induction fuel as [ | fuel IH]; intros end_ position previous step Hdir Hfuel;
    [ lia | ].
  simpl.
  destruct ((0 <? step) && (position <? end_) || (step <? 0) && (end_ <? position))
    eqn:Hcond; [ | eauto ].
  destruct (match previous with Some p => position =? p | None => false end);
    [ eauto | ].
  destruct (IH end_ (position + step) (Some position)
               (Z.max 10 (Z.abs step - 10) * (if reverse then -1 else 1)))
    as [ps Hps].
  - destruct reverse; lia.
  - destruct reverse; lia.
  - rewrite Hps. eauto.
Qed.

Lemma scroll_loop_S (fuel : nat) (reverse : bool) (end_ position : Z)
      (previous : option Z) (step : Z) :
  scroll_loop (S fuel) reverse end_ position previous step
  = if (0 <? step) && (position <? end_) || (step <? 0) && (end_ <? position)
    then
      if match previous with Some p => position =? p | None => false end
      then Some []
      else
        match scroll_loop fuel reverse end_ (position + step) (Some position)
                (Z.max 10 (Z.abs step - 10) * (if reverse then -1 else 1)) with
        | Some ps => Some (position :: ps)
        | None => None
        end
    else Some [].
Proof. reflexivity. Qed.

Lemma scroll_loop_ends (reverse : bool) (end_ position step : Z) :
  step <> 0 ->
  exists ps,
    scroll_loop (scroll_rounds position end_ step) reverse end_ position None step
    = Some ps.
Proof.
  intros Hstep. unfold scroll_rounds.
  change (2 + ?n)%nat with (S (S n)). rewrite scroll_loop_S.
  destruct ((0 <? step) && (position <? end_) || (step <? 0) && (end_ <? position))
    eqn:Hcond; [ | eauto ].
  destruct (scroll_loop_aligned_ends
              (S (Z.to_nat (Z.abs (end_ - position) + Z.abs step))) reverse end_
              (position + step) (Some position)
              (Z.max 10 (Z.abs step - 10) * (if reverse then -1 else 1)))
    as [ps Hps].
  - destruct reverse; lia.
  - destruct reverse; lia.
  - rewrite Hps. eauto.
Qed.

(** X23.  [scroll_slow] always comes to an end.  With a zero step it
    raises [ValueError] before it reads the element; with any other step,
    whatever its sign, the direction and the element, it returns without an
    exception after finitely many rounds, and more rounds do not change
    what it did. *)
Theorem scroll_slow_terminates (element : scroll_target) (start end_ step : Z)
        (reverse : bool) :
  (step = 0 ->
   forall fuel, scroll_slow fuel element start end_ step reverse
                = Some (Raised (ValueError "step")))
  /\ (step <> 0 ->
      exists rounds ps,
        forall more,
          scroll_slow (rounds + more) element start end_ step reverse
          = Some (Ok ps)).
Proof.
  split.
  - intros -> fuel. unfold scroll_slow. destruct reverse; reflexivity.
  - intros Hstep. unfold scroll_slow.
    set (step1 := if reverse then - step else step).
    assert (Hs1 : step1 <> 0) by (subst step1; destruct reverse; lia).
    destruct (Z.eqb_spec step1 0) as [ | _]; [ contradiction | ].
    destruct (scroll_height element) as [h | ]; [ | exists O, []; reflexivity ].
    destruct (scroll_top element) as [c | ]; [ | exists O, []; reflexivity ].
    destruct (displayed element); [ | exists O, []; reflexivity ].
    destruct (negb (is_scrollable element)); [ exists O, []; reflexivity | ].
    match goal with
    | |- context [scroll_loop _ reverse ?e ?p None step1] =>
        destruct (scroll_loop_ends reverse e p step1 Hs1) as [ps Hps];
        exists (scroll_rounds p e step1), (ps ++ [e])%list
    end.
    intros more. rewrite (scroll_loop_more_fuel _ more _ _ _ _ _ _ Hps). reflexivity.
Qed.

Lemma climbs_weaken (g g' : Z) (l : list Z) : g' <= g -> climbs g l -> climbs g' l.
Proof.
  intros Hg. induction l as [ | p [ | q l] IH]; simpl; auto.
  intros [Hpq Hrest]. split; [ lia | apply IH, Hrest ].
Qed.

Lemma scroll_loop_forward (fuel : nat) :
  forall (end_ position : Z) (previous : option Z) (step : Z) (ps : list Z),
    0 < step ->
    scroll_loop fuel false end_ position previous step = Some ps ->
    (forall p, In p ps -> position <= p < end_)
    /\ climbs (Z.min step 10) (ps)
    /\ match ps with [] => True | p :: _ => p = position end.
Proof.
  assert (Hnil : forall (end_ position step : Z),
             (forall p : Z, In p [] -> position <= p < end_)
             /\ climbs (Z.min step 10) ((@nil Z))
             /\ True).
  { intros. split; [ intros q [] | split; exact I ]. }
  induction fuel as [ | fuel IH]; intros end_ position previous step ps Hstep.
  - simpl. destruct (_ || _); [ | intros [= <-]; apply Hnil ].
    destruct (match previous with Some q => position =? q | None => false end);
      [ intros [= <-]; apply Hnil | discriminate ].
  - rewrite scroll_loop_S.
    destruct ((0 <? step) && (position <? end_) || (step <? 0) && (end_ <? position))
      eqn:Hcond; [ | intros [= <-]; apply Hnil ].
    destruct (match previous with Some q => position =? q | None => false end);
      [ intros [= <-]; apply Hnil | ].
    destruct (scroll_loop fuel false end_ (position + step) (Some position) _)
      as [ps' | ] eqn:Hrec; [ | discriminate ].
    intros [= <-].
    assert (Hstep' : 0 < Z.max 10 (Z.abs step - 10) * 1) by lia.
    destruct (IH _ _ _ _ ps' Hstep' Hrec) as (Hin & Hcl & Hhd).
    assert (Hlt : position < end_) by lia.
    split; [ | split; [ | reflexivity ] ].
    + intros p [<- | Hp]; [ lia | ]. specialize (Hin p Hp). lia.
    + destruct ps' as [ | q ps'']; [ exact I | ].
      cbn [map]. split; [ subst q; lia | ].
      eapply climbs_weaken; [ | exact Hcl ]. lia.
Qed.

Lemma scroll_loop_backward (fuel : nat) :
  forall (end_ position : Z) (previous : option Z) (step : Z) (ps : list Z),
    step < 0 ->
    scroll_loop fuel true end_ position previous step = Some ps ->
    (forall p, In p ps -> end_ < p <= position)
    /\ climbs (Z.min (- step) 10) (map Z.opp ps)
    /\ match ps with [] => True | p :: _ => p = position end.
Proof.
  assert (Hnil : forall (end_ position step : Z),
             (forall p : Z, In p [] -> end_ < p <= position)
             /\ climbs (Z.min (- step) 10) (map Z.opp (@nil Z))
             /\ True).
  { intros. split; [ intros q [] | split; exact I ]. }
  induction fuel as [ | fuel IH]; intros end_ position previous step ps Hstep.
  - simpl. destruct (_ || _); [ | intros [= <-]; apply Hnil ].
    destruct (match previous with Some q => position =? q | None => false end);
      [ intros [= <-]; apply Hnil | discriminate ].
  - rewrite scroll_loop_S.
    destruct ((0 <? step) && (position <? end_) || (step <? 0) && (end_ <? position))
      eqn:Hcond; [ | intros [= <-]; apply Hnil ].
    destruct (match previous with Some q => position =? q | None => false end);
      [ intros [= <-]; apply Hnil | ].
    destruct (scroll_loop fuel true end_ (position + step) (Some position) _)
      as [ps' | ] eqn:Hrec; [ | discriminate ].
    intros [= <-].
    assert (Hstep' : Z.max 10 (Z.abs step - 10) * -1 < 0) by lia.
    destruct (IH _ _ _ _ ps' Hstep' Hrec) as (Hin & Hcl & Hhd).
    assert (Hlt : end_ < position) by lia.
    split; [ | split; [ | reflexivity ] ].
    + intros p [<- | Hp]; [ lia | ]. specialize (Hin p Hp). lia.
    + destruct ps' as [ | q ps'']; [ exact I | ].
      cbn [map]. split; [ subst q; lia | ].
      eapply climbs_weaken; [ | exact Hcl ]. lia.
Qed.

(** X24.  A downward sweep (not reversed, positive step) on a displayed,
    scrollable element: the positions handed to the browser start at
    [start], go up by at least the smaller of the step and 10, stay below
    the end of the sweep, and are followed by one last scroll to that end,
    which is [end] capped by the scroll height. *)
Theorem scroll_slow_forward_sweep (fuel : nat) (element : scroll_target)
        (start end_ step h c : Z) (l : list Z) :
  0 < step ->
  scroll_height element = Some h ->
  scroll_top element = Some c ->
  displayed element = true ->
  is_scrollable element = true ->
  scroll_slow fuel element start end_ step false = Some (Ok l) ->
  exists ps,
    l = (ps ++ [Z.min end_ h])%list
    /\ (forall p, In p ps -> start <= p < Z.min end_ h)
    /\ climbs (Z.min step 10) ps
    /\ (start < Z.min end_ h -> exists rest, ps = start :: rest).
Proof.
  intros Hstep Hh Hc Hd Hs. unfold scroll_slow. cbv zeta.
  destruct (Z.eqb_spec step 0) as [ | _]; [ lia | ].
  rewrite Hh, Hc, Hd, Hs. cbn [negb].
  destruct (scroll_loop fuel false (Z.min end_ h) start None step) as [ps | ] eqn:Hl;
    [ | discriminate ].
  intros [= <-]. exists ps.
  destruct (scroll_loop_forward _ _ _ _ _ _ Hstep Hl) as (Hin & Hcl & Hhd).
  split; [ reflexivity | ]. split; [ exact Hin | ]. split; [ exact Hcl | ].
  intros Hlt. destruct ps as [ | p rest]; [ | subst p; eauto ].
  exfalso. destruct fuel; simpl in Hl.
  - destruct (Z.ltb_spec 0 step), (Z.ltb_spec start (Z.min end_ h));
      simpl in Hl; try lia; discriminate.
  - destruct (Z.ltb_spec 0 step), (Z.ltb_spec start (Z.min end_ h));
      simpl in Hl; try lia.
    destruct (scroll_loop fuel false _ _ _ _); discriminate.
Qed.

(** X25.  An upward sweep (reversed, positive step) on a displayed,
    scrollable element: the positions start at [end] capped by the current
    scroll position, go down by at least the smaller of the step and 10,
    stay above [start], and are followed by one last scroll to [start]:
    the sweep that ends [_scroll_page] leaves the page at position 0. *)
Theorem scroll_slow_reverse_sweep (fuel : nat) (element : scroll_target)
        (start end_ step h c : Z) (l : list Z) :
  0 < step ->
  scroll_height element = Some h ->
  scroll_top element = Some c ->
  displayed element = true ->
  is_scrollable element = true ->
  scroll_slow fuel element start end_ step true = Some (Ok l) ->
  exists ps,
    l = (ps ++ [start])%list
    /\ (forall p, In p ps -> start < p <= Z.min end_ c)
    /\ climbs (Z.min step 10) (map Z.opp ps)
    /\ (start < Z.min end_ c -> exists rest, ps = Z.min end_ c :: rest).
Proof.
  intros Hstep Hh Hc Hd Hs. unfold scroll_slow. cbv zeta.
  destruct (Z.eqb_spec (- step) 0) as [ | _]; [ lia | ].
  rewrite Hh, Hc, Hd, Hs. cbn [negb].
  destruct (scroll_loop fuel true start (Z.min end_ c) None (- step)) as [ps | ] eqn:Hl;
    [ | discriminate ].
  intros [= <-]. exists ps.
  assert (Hneg : - step < 0) by lia.
  destruct (scroll_loop_backward _ _ _ _ _ _ Hneg Hl) as (Hin & Hcl & Hhd).
  split; [ reflexivity | ]. split; [ exact Hin | ].
  split; [ rewrite Z.opp_involutive in Hcl; exact Hcl | ].
  intros Hlt. destruct ps as [ | p rest]; [ | subst p; eauto ].
  exfalso. destruct fuel; simpl in Hl.
  - destruct (Z.ltb_spec 0 (- step)), (Z.ltb_spec (- step) 0),
      (Z.ltb_spec start (Z.min end_ c)); simpl in Hl; try lia; discriminate.
  - destruct (Z.ltb_spec 0 (- step)), (Z.ltb_spec (- step) 0),
      (Z.ltb_spec start (Z.min end_ c)); simpl in Hl; try lia.
    destruct (scroll_loop fuel true _ _ _ _); discriminate.
Qed.

Local Close Scope Z_scope.

(** ** The state of the bot *)

Lemma validate_state_ok (s : DreamBoosterBotState) (keys : list state_key) :
  validate_state s keys = Ok tt <-> (forall k, In k keys -> state_attr s k = true).
Proof.
  induction keys as [ | k keys IH]; simpl.
  - split; [ intros _ k [] | reflexivity ].
  - destruct (state_attr s k) eqn:Hk; simpl.
    + rewrite IH. split.
      * intros Hall k' [<- | Hin]; auto.
      * intros Hall k' Hin. apply Hall. auto.
    + split; [ discriminate | ]. intros Hall.
      rewrite (Hall k (or_introl eq_refl)) in Hk. discriminate.
Qed.

(** X26.  [validate_state] returns exactly when every required key is
    set; otherwise it raises [ValueError] for the first key of the list
    that is not set. *)
Theorem validate_state_first_unset (s : DreamBoosterBotState)
        (keys : list state_key) :
  (validate_state s keys = Ok tt <->
   (forall k, In k keys -> state_attr s k = true))
  /\ (forall e, validate_state s keys = Raised e ->
        exists before k after,
          keys = (before ++ k :: after)%list
          /\ (forall k', In k' before -> state_attr s k' = true)
          /\ state_attr s k = false
          /\ e = ValueError (key_name k)).
Proof.
  split; [ apply validate_state_ok | ].
  induction keys as [ | k keys IH]; simpl; intros e; [ discriminate | ].
  destruct (state_attr s k) eqn:Hk; simpl.
  - intros He. destruct (IH e He) as (before & k0 & after & -> & Hb & Hk0 & ->).
    exists (k :: before), k0, after. split; [ reflexivity | ].
    split; [ | auto ]. intros k' [<- | Hin]; auto.
  - intros [= <-]. exists [], k, keys. split; [ reflexivity | ].
    split; [ intros k' [] | auto ].
Qed.

Lemma facade_step_invariant (s : DreamBoosterBotState) (c : facade_call) :
  facade_invariant s -> facade_invariant (snd (facade_step s c)).
Proof.
  unfold facade_invariant. intros (Hcp & Hg & Hl & Ha & Hp).
  destruct c as [pg rg | comp | pg comp | lc | comp | pg ans | rg ans | lc | comp | lc];
    cbn [facade_step validate_state state_attr start_apply_keys];
    repeat match goal with
           | |- context [if negb ?b then _ else _] => destruct b eqn:?; cbn [negb]
           | |- context [match ?o with Ok _ => _ | Raised _ => _ end] => destruct o
           end;
    cbn; repeat apply conj; auto; try congruence;
    try (intros Hx; try specialize (Hg Hx); try specialize (Hl Hx); congruence);
    try (assert (false = true) by auto; discriminate).
Qed.

Lemma facade_run_invariant (calls : list facade_call) (s : DreamBoosterBotState) :
  facade_invariant s -> facade_invariant (facade_run calls s).
Proof.
  revert s. induction calls as [ | c calls IH]; intros s Hs; simpl; [ exact Hs | ].
  apply IH, facade_step_invariant, Hs.
Qed.

Lemma facade_invariant_reset : facade_invariant reset.
Proof. unfold facade_invariant. simpl. repeat split; auto; discriminate. Qed.

(** X27.  In every state a facade reaches from a new one, whatever the
    calls and their outcomes: the credentials flag equals the parameters
    flag, the answerer flag implies the profile flag, the logged-in flag
    implies the parameters flag, and the API-key and process-active flags
    are never set. *)
Theorem facade_flags_invariant (calls : list facade_call) :
  let s := facade_run calls reset in
  credentials_set s = parameters_set s
  /\ (gpt_answerer_set s = true -> job_application_profile_set s = true)
  /\ (logged_in s = true -> parameters_set s = true)
  /\ api_key_set s = false
  /\ application_process_active s = false.
Proof. apply (facade_run_invariant calls reset), facade_invariant_reset. Qed.

(** X28.  [start_apply] hands over to the apply component only in a state
    where a login has succeeded and the profile, the answerer and the
    parameters are set; its result is then the component's.  In any other
    state it raises [ValueError] without calling the component.  It never
    changes the state. *)
Theorem start_apply_gate (calls : list facade_call) (apply_component : outcome unit) :
  let s := facade_run calls reset in
  snd (facade_step s (start_apply apply_component)) = s
  /\ (logged_in s && job_application_profile_set s && gpt_answerer_set s
      && parameters_set s = true ->
      fst (facade_step s (start_apply apply_component)) = apply_component
      /\ credentials_set s = true)
  /\ (logged_in s && job_application_profile_set s && gpt_answerer_set s
      && parameters_set s = false ->
      exists k, In k start_apply_keys
                /\ state_attr s k = false
                /\ forall any,
                     fst (facade_step s (start_apply any))
                     = Raised (ValueError (key_name k))).
Proof.
  cbv zeta. set (s := facade_run calls reset).
  pose proof (facade_run_invariant calls reset facade_invariant_reset) as (Hcp & _).
  fold s in Hcp. unfold facade_step, start_apply_keys. cbn [validate_state state_attr].
  destruct (logged_in s) eqn:Hl; cbn [negb andb].
  2:{ split; [ reflexivity | ]. split; [ discriminate | ]. intros _.
      exists logged_in_key. cbn. auto. }
  destruct (job_application_profile_set s) eqn:Hj; cbn [negb andb].
  2:{ split; [ reflexivity | ]. split; [ discriminate | ]. intros _.
      exists job_application_profile_set_key. cbn. auto. }
  destruct (gpt_answerer_set s) eqn:Hg; cbn [negb andb].
  2:{ split; [ reflexivity | ]. split; [ discriminate | ]. intros _.
      exists gpt_answerer_set_key. cbn. auto 6. }
  destruct (parameters_set s) eqn:Hp; cbn [negb andb].
  2:{ split; [ reflexivity | ]. split; [ discriminate | ]. intros _.
      exists parameters_set_key. cbn. auto 6. }
  split; [ reflexivity | ]. split; [ auto | discriminate ].
Qed.


(** ** Closed instances of the further properties *)

Lemma title_blacklist_inert_entries_witness :
  title_blacklisted
    (mkManager [] ["Senior Lead"; "Manager"] [] [] false [] (3 # 4)%Q [] None)
    "Senior Lead Manager"
  = false.
Proof.
  apply title_blacklist_inert_entries.
  intros entry [<- | [<- | []]]; [ left | right ]; reflexivity.
Defined.

Lemma matches_job_criteria_threshold_bounds_witness :
  matches_job_criteria
    (mkManager [] [] [] [] false [] (3 # 4)%Q ["python"; "developer"] None)
    (python_job "Easy Apply")
  = Ok true.
Proof.
  destruct (matches_job_criteria_threshold_bounds
              (mkManager [] [] [] [] false [] (3 # 4)%Q ["python"; "developer"] None)
              (python_job "Easy Apply") ltac:(discriminate))
    as (_ & _ & _ & Hall & _).
  apply Hall.
  - intros keyword [<- | [<- | []]]; reflexivity.
  - unfold Qle. simpl. lia.
Defined.

Lemma keyword_check_sees_title_only_witness :
  description (python_job "Easy Apply") = EmptyString
  /\ (forall keyword,
         keyword_hit (python_job "Easy Apply") keyword
         = Py.contains (Py.lower keyword) (Py.lower (title (python_job "Easy Apply")))).
Proof.
  apply (keyword_check_sees_title_only (python_tile "Easy Apply")). reflexivity.
Defined.

Lemma extract_job_information_from_tile_fields_witness :
  extract_job_information_from_tile listed_tile
  = Ok (python_tile "Applied")
  /\ has_char "?" (tile_link (python_tile "Applied")) = false.
Proof.
  split; [ reflexivity | ].
  apply (extract_job_information_from_tile_fields listed_tile). reflexivity.
Defined.

Lemma tile_without_apply_method_never_applied_witness :
  let w := keyword_session idle_browser in
  let r := apply_jobs_body (python_job "Applied") w in
  gained (w_files w) (w_files (snd r)) "success" = 0
  /\ gained (w_files w) (w_files (snd r)) "failed" = 0.
Proof.
  intros w r.
  destruct (tile_without_apply_method_never_applied
              listed_tile (python_tile "Applied") (python_job "Applied") w
              eq_refl eq_refl eq_refl) as (_ & _ & _ & Hs & Hf).
  split; [ exact Hs | exact Hf ].
Defined.

Lemma apply_jobs_on_page_unreadable_tile_witness :
  exists x,
    apply_jobs_on_page [listed_tile; tile_without_location]
                       (keyword_session idle_browser)
    = (Raised x, keyword_session idle_browser).
Proof.
  apply (apply_jobs_on_page_unreadable_tile _ tile_without_location).
  - right. left. reflexivity.
  - right. right. left. reflexivity.
Defined.

Lemma write_to_file_commutes_witness :
  let w := keyword_session idle_browser in
  w_files (snd (write_to_file (python_job "Apply") "failed"
                  (snd (write_to_file (python_job "Easy Apply") "success" w))))
  = w_files (snd (write_to_file (python_job "Easy Apply") "success"
                    (snd (write_to_file (python_job "Apply") "failed" w)))).
Proof. intros w. apply write_to_file_commutes. discriminate. Defined.

Lemma company_blocked_after_success_witness :
  let w := keyword_session idle_browser in
  let w' := snd (apply_jobs_body (python_job "Easy Apply") w) in
  let job2 := mkJob "Senior Python Developer" "  ACME " "Berlin"
                    "https://www.linkedin.com/jobs/view/9" "Easy Apply" "" "" "" "" in
  is_job_suitable job2 w' = (Ok false, written w' job2 "skipped").
Proof.
  intros w w' job2.
  apply (proj1 (company_blocked_after_success
                  (DreamBoosterEasyApplier_init []) (python_job "Easy Apply") job2 w
                  eq_refl eq_refl eq_refl eq_refl));
    reflexivity.
Defined.

Lemma textarea_question_left_blank_witness :
  _fill_additional_questions (H0 := next_form) (mkApplier stored_answers 3)
                             textarea_question (keyword_session idle_browser)
  = (Ok tt, keyword_session idle_browser).
Proof.
  apply (textarea_question_left_blank (H0 := next_form)); try reflexivity.
  discriminate.
Defined.

Lemma upload_without_input_skips_rest_witness :
  snd (fill_sections (H0 := next_form) (mkApplier stored_answers 3) None
                     [upload_without_input; text_question]
                     (keyword_session idle_browser))
  = keyword_session idle_browser.
Proof.
  apply (proj1 (upload_without_input_skips_rest
                  (H0 := next_form) (mkApplier stored_answers 3) None []
                  [text_question] upload_without_input
                  (keyword_session idle_browser) eq_refl eq_refl)).
Defined.

Lemma fill_application_form_ends_on_submit_witness :
  let w := keyword_session idle_browser in
  let run := _fill_application_form (H0 := submit_form) (mkApplier [] 3) None in
  fst (run 1 w) = Ok (Some tt) /\ run 4 w = run 1 w.
Proof.
  intros w run. split; [ reflexivity | ].
  destruct (fill_application_form_ends_on_submit
              (H0 := submit_form) (mkApplier [] 3) None 1 w (snd (run 1 w))
              (Ok (Some tt)) eq_refl ltac:(discriminate)) as [Hmore _].
  exact (Hmore 3).
Defined.

Lemma fill_application_form_unbounded_witness :
  fst (_fill_application_form (H0 := next_form) (mkApplier [] 3) None 25
                              (keyword_session idle_browser))
  = Ok None.
Proof.
  apply (fill_application_form_unbounded (H0 := next_form)).
  - intros b. exists (mkNode "button" None "Next" []), b. split; reflexivity.
  - intros n b. reflexivity.
  - intros b. exists b. reflexivity.
Defined.

Lemma next_or_submit_checks_errors_witness :
  fst (_next_or_submit (H0 := error_form) (keyword_session idle_browser))
  = Raised form_errors.
Proof.
  refine (proj1 (next_or_submit_checks_errors
                   (H0 := error_form) (keyword_session idle_browser)
                   (mkNode "button" None "Next" []) idle_browser idle_browser
                   idle_browser ["Please enter a valid answer"] _ _ _ _));
    reflexivity.
Defined.

Lemma scroll_slow_forward_sweep_witness :
  scroll_slow 20 tall_page 0 3600 300 false
  = Some (Ok [0; 300; 590; 870; 1000]%Z)
  /\ exists ps,
      [0; 300; 590; 870; 1000]%Z = (ps ++ [Z.min 3600 1000])%list
      /\ (forall p, In p ps -> (0 <= p < Z.min 3600 1000)%Z)
      /\ climbs (Z.min 300 10) ps
      /\ ((0 < Z.min 3600 1000)%Z -> exists rest, ps = 0%Z :: rest).
Proof.
  split; [ reflexivity | ].
  apply (scroll_slow_forward_sweep 20 tall_page 0 3600 300 1000 1000);
    try reflexivity.
Defined.

Lemma scroll_slow_reverse_sweep_witness :
  scroll_slow 20 tall_page 0 3600 300 true
  = Some (Ok [1000; 700; 410; 130; 0]%Z)
  /\ exists ps,
      [1000; 700; 410; 130; 0]%Z = (ps ++ [0%Z])%list
      /\ (forall p, In p ps -> (0 < p <= Z.min 3600 1000)%Z)
      /\ climbs (Z.min 300 10) (map Z.opp ps)
      /\ ((0 < Z.min 3600 1000)%Z -> exists rest, ps = Z.min 3600 1000 :: rest).
Proof.
  split; [ reflexivity | ].
  apply (scroll_slow_reverse_sweep 20 tall_page 0 3600 300 1000 1000);
    try reflexivity.
Defined.
